(** * L2 Coach: session orchestration, canned replies and the persistence API

    A shallow embedding of the dashboard's event handlers
    (client/src/pages/dashboard.tsx and its server-backed revision), of the
    scenario table (client/src/lib/mock-scenarios.ts), of the storage layer
    (server/storage.ts over the schema of shared/schema.ts) and of the HTTP
    routes (server/routes.ts and its revision with the analysis endpoint),
    followed by the properties established for them. *)

From Stdlib Require Import ZArith List String Ascii Bool Lia Permutation Sorted.
From Stdlib Require Import DecimalString.
Import ListNotations.
Local Open Scope string_scope.
Local Open Scope Z_scope.
Local Open Scope list_scope.

(** ** JavaScript strings

    Strings are sequences of code units below 256; on that range
    [toLowerCase] shifts A-Z and the Latin-1 capitals, and [trim] strips the
    ECMAScript white space characters that fit in it. *)
Module JsString.

Definition toLowerChar (c : ascii) : ascii :=
  let n := N_of_ascii c in
  if ((65 <=? n) && (n <=? 90))%N
     || ((192 <=? n) && (n <=? 222) && negb (n =? 215))%N
  then ascii_of_N (n + 32)
  else c.

Fixpoint toLowerCase (s : string) : string :=
  match s with
  | EmptyString => EmptyString
  | String c s' => String (toLowerChar c) (toLowerCase s')
  end.

(** [startsWith s k]: [k] is a prefix of [s]. *)
Fixpoint startsWith (s k : string) : bool :=
  match k, s with
  | EmptyString, _ => true
  | String _ _, EmptyString => false
  | String a k', String b s' => Ascii.eqb a b && startsWith s' k'
  end.

(** [String.prototype.includes]: [k] occurs somewhere in [s]. *)
Fixpoint includes (s k : string) : bool :=
  startsWith s k
  || match s with
     | EmptyString => false
     | String _ s' => includes s' k
     end.

Definition isWhiteSpace (c : ascii) : bool :=
  let n := N_of_ascii c in
  (((9 <=? n) && (n <=? 13)) || (n =? 32) || (n =? 160))%N.

Fixpoint trimStart (s : string) : string :=
  match s with
  | EmptyString => EmptyString
  | String c s' => if isWhiteSpace c then trimStart s' else s
  end.

Fixpoint trimEnd (s : string) : string :=
  match s with
  | EmptyString => EmptyString
  | String c s' =>
      let t := trimEnd s' in
      if isWhiteSpace c && String.eqb t EmptyString then EmptyString
      else String c t
  end.

Definition trim (s : string) : string := trimEnd (trimStart s).

(** Truthiness of a string: only the empty string is falsy. *)
Definition truthy (s : string) : bool := negb (String.eqb s EmptyString).

(** [Number.prototype.toString] on an integer time value. *)
Definition toString (n : Z) : string := NilZero.string_of_int (Z.to_int n).

End JsString.

(** ** The scenario table (client/src/lib/mock-scenarios.ts) *)
Module Scenarios.

Record Scenario := {
  id : string;
  title : string;
  description : string;
  imagePrompt : string;
  tldrResponse : string;
  fullResponse : string
}.

Definition bull_flag : Scenario :=
  {| id := "bull_flag";
     title := "Bull Flag Breakout";
     description := "Price consolidating at VWAP with lighter volume, bids stacking up.";
     imagePrompt := "Level 2 market data showing bullish consolidation. Price consolidating near VWAP. Green bids stacking at 42.50. Ask side thinning out. Time and sales showing green prints.";
     tldrResponse := "> TL;DR ANALYSIS
STATUS: BUYERS IN CONTROL
MOMENTUM: Coiling at VWAP
INFLECTION: 152.50 (Ask Wall Eroding)
NEXT 30s: Breakout thru .50 likely
ACTION: LONG BIAS - Lift the offer on volume spike";
     fullResponse := "> FULL TAPE REVIEW
----------------------------------------
1. STRUCTURE
- Classic bull flag consolidation above VWAP
- Bids holding firm at 152.40, stepping up
- Ask wall at 152.50 is being chipped away (refreshing slowed)

2. ORDER FLOW
- T&S shows consistent green prints (lifts)
- Hidden buyer likely at 152.45 (iceberg)
- Sellers are passive, not reloading

3. SCENARIO
- Continuation play imminent
- If 152.50 clears, vacuum to 152.80
- Watch for volume surge on the break

> ACTIONABLE SETUP
Long 152.50 break. Stop 152.35. Target 152.80." |}.

Definition bear_trap : Scenario :=
  {| id := "bear_trap";
     title := "Bear Trap / Reclaim";
     description := "Price dipped below support but immediately stuffed and reclaimed.";
     imagePrompt := "Level 2 market data showing a bear trap. Price dipping below support line but green bids appearing aggressively. Time and sales showing rapid buying.";
     tldrResponse := "> TL;DR ANALYSIS
STATUS: BUYERS RECLAIMING
MOMENTUM: Reversal (V-Shape)
INFLECTION: 88.00 (Psychological Support)
NEXT 30s: Squeeze to 88.40
ACTION: LONG BIAS - Chase the reclaim, shorts are trapped";
     fullResponse := "> FULL TAPE REVIEW
----------------------------------------
1. STRUCTURE
- Failed breakdown below 88.00
- Aggressive bid whack at 87.90 (absorption)
- Sellers exhausted, asks lifting fast

2. ORDER FLOW
- Rapid green prints on T&S (panic covers)
- 88.00 offer flipped to bid instantly
- Speed of tape increased 3x on the reversal

3. SCENARIO
- Short squeeze in progress
- Trapped shorts from 87.90 break need to cover
- Expect fast move to VWAP

> ACTIONABLE SETUP
Long now (88.05). Stop 87.90. Target 88.50." |}.

Definition distribution : Scenario :=
  {| id := "distribution";
     title := "Top Distribution";
     description := "Heavy volume at highs but price stalling. Hidden sellers.";
     imagePrompt := "Level 2 market data showing distribution. High volume bars but price flatlining at top. Red asks refreshing constantly. Time and sales mixed.";
     tldrResponse := "> TL;DR ANALYSIS
STATUS: SELLERS IN CONTROL (HIDDEN)
MOMENTUM: Stalling / Churning
INFLECTION: 210.50 (Ceiling)
NEXT 30s: Rollover to 210.20
ACTION: CAUTION / SHORT - Do not buy the breakout";
     fullResponse := "> FULL TAPE REVIEW
----------------------------------------
1. STRUCTURE
- Double top formation on L2
- 210.50 offer keeps reloading (iceberg seller)
- Buyers lifting but price not moving (churn)

2. ORDER FLOW
- Heavy green prints but zero price appreciation
- Absorption by smart money on the ask
- Bids are thinning out below

3. SCENARIO
- Classic distribution before the dump
- Buyers are being exhausted
- Once 210.40 bid pulls, flush is instant

> ACTIONABLE SETUP
Short 210.35 break. Stop 210.55. Target 209.80." |}.

Definition choppy : Scenario :=
  {| id := "choppy";
     title := "Mid-Day Chop";
     description := "Low volume, spread widening, no clear direction.";
     imagePrompt := "Level 2 market data showing choppy market. Wide spread between bid and ask. Low volume. Mixed colors on time and sales. Boring market.";
     tldrResponse := "> TL;DR ANALYSIS
STATUS: NEUTRAL / NO CONTROL
MOMENTUM: Dead / Choppy
INFLECTION: None valid
NEXT 30s: Rangebound 45.20-45.40
ACTION: WAIT - No edge here. Sit on hands.";
     fullResponse := "> FULL TAPE REVIEW
----------------------------------------
1. STRUCTURE
- Wide spread (10c+)
- Thin liquidity on both sides
- No clear walls or stepping

2. ORDER FLOW
- T&S is slow, single lot prints
- Algo ping-pong between spread
- No aggression from either side

3. SCENARIO
- Theta burn / Chop fest
- Any move likely false breakout/breakdown
- Wait for volume or distinct level interaction

> ACTIONABLE SETUP
None. Preservation of capital mode." |}.

Definition SCENARIOS : list Scenario :=
  [bull_flag; bear_trap; distribution; choppy].

End Scenarios.

(** ** The dashboard with client-local sessions (client/src/pages/dashboard.tsx) *)
Module Local.
Import JsString.
Export Scenarios.

Inductive Role := user | coach.
Inductive MsgType := text | image | analysis.
Inductive Mode := tldr | full.

Record Message := {
  id : string;
  role : Role;
  content : string;
  type : MsgType;
  imageUrl : option string;
  timestamp : Z;
  mode : option Mode;
  scenarioId : option string
}.

Record Session := {
  session_id : string;
  session_title : string;
  createdAt : Z;
  session_messages : list Message
}.

(** The environment of one [setTimeout] callback registered by
    [processCoachResponse]: the values its closure captured. *)
Record Timer := {
  userMsg : Message;
  scenario : option Scenario;
  fullReview : bool
}.

(** The component state ([useState] cells) together with the timers that
    are still to fire. All timers are registered with the same delay, so
    they fire in the order of registration: [timers] is a queue. *)
Record State := {
  sessions : list Session;
  currentSessionId : string;
  messages : list Message;
  input : string;
  isFullReview : bool;
  isTyping : bool;
  uploadedImage : option string;
  timers : list Timer
}.

Definition setSessions (v : list Session) (st : State) : State :=
  {| sessions := v; currentSessionId := currentSessionId st;
     messages := messages st; input := input st;
     isFullReview := isFullReview st; isTyping := isTyping st;
     uploadedImage := uploadedImage st; timers := timers st |}.

Definition setCurrentSessionId (v : string) (st : State) : State :=
  {| sessions := sessions st; currentSessionId := v;
     messages := messages st; input := input st;
     isFullReview := isFullReview st; isTyping := isTyping st;
     uploadedImage := uploadedImage st; timers := timers st |}.

Definition setMessages (f : list Message -> list Message) (st : State) : State :=
  {| sessions := sessions st; currentSessionId := currentSessionId st;
     messages := f (messages st); input := input st;
     isFullReview := isFullReview st; isTyping := isTyping st;
     uploadedImage := uploadedImage st; timers := timers st |}.

Definition setInput (v : string) (st : State) : State :=
  {| sessions := sessions st; currentSessionId := currentSessionId st;
     messages := messages st; input := v;
     isFullReview := isFullReview st; isTyping := isTyping st;
     uploadedImage := uploadedImage st; timers := timers st |}.

Definition setIsFullReview (v : bool) (st : State) : State :=
  {| sessions := sessions st; currentSessionId := currentSessionId st;
     messages := messages st; input := input st;
     isFullReview := v; isTyping := isTyping st;
     uploadedImage := uploadedImage st; timers := timers st |}.

Definition setIsTyping (v : bool) (st : State) : State :=
  {| sessions := sessions st; currentSessionId := currentSessionId st;
     messages := messages st; input := input st;
     isFullReview := isFullReview st; isTyping := v;
     uploadedImage := uploadedImage st; timers := timers st |}.

Definition setUploadedImage (v : option string) (st : State) : State :=
  {| sessions := sessions st; currentSessionId := currentSessionId st;
     messages := messages st; input := input st;
     isFullReview := isFullReview st; isTyping := isTyping st;
     uploadedImage := v; timers := timers st |}.

Definition setTimers (v : list Timer) (st : State) : State :=
  {| sessions := sessions st; currentSessionId := currentSessionId st;
     messages := messages st; input := input st;
     isFullReview := isFullReview st; isTyping := isTyping st;
     uploadedImage := uploadedImage st; timers := v |}.

(** The bundled placeholder picture; the import resolves to a URL fixed at
    build time. *)
Definition l2Placeholder : string :=
  "@assets/generated_images/level_2_market_data_simulation.png".

Definition welcome (now : Z) : Message :=
  {| id := "welcome"; role := coach;
     content := "L2 COACH ONLINE. SYSTEM READY.
Upload your L2/NBBO screenshot or select a scenario.
Default Mode: TL;DR (Speed). Toggle 'Full Review' for deep analysis.";
     type := text; imageUrl := None; timestamp := now;
     mode := None; scenarioId := None |}.

Definition sessionWelcome (now : Z) : Message :=
  {| id := "welcome"; role := coach;
     content := "L2 COACH ONLINE. SYSTEM READY.
Upload your L2/NBBO screenshot or select a scenario.";
     type := text; imageUrl := None; timestamp := now;
     mode := None; scenarioId := None |}.

(** The state of the first render; [now] is the clock at mount. *)
Definition initial (now : Z) : State :=
  {| sessions := []; currentSessionId := ""; messages := [welcome now];
     input := ""; isFullReview := false; isTyping := false;
     uploadedImage := None; timers := [] |}.

(** The effect keyed on [messages]: the current session's copy of the log
    is refreshed once a handler that called [setMessages] has run. *)
Definition saveEffect (st : State) : State :=
  if truthy (currentSessionId st) && (0 <? Z.of_nat (List.length (sessions st)))
  then setSessions
         (map (fun s =>
                 if String.eqb (session_id s) (currentSessionId st)
                 then {| session_id := session_id s;
                         session_title := session_title s;
                         createdAt := createdAt s;
                         session_messages := messages st |}
                 else s)
              (sessions st))
         st
  else st.

Definition buyerTemplate : string :=
  "> COACH READ
Buyers are weak here. Don't chase.
I see heavy offers stacking at the half-dollar. 
Wait for the reclaim of the level before lifting.".

Definition sellerTemplate : string :=
  "> COACH READ
Sellers are aggressive on the tape.
Bids are stepping down.
Look for the flush below the round number.".

Definition waitTemplate : string :=
  "> COACH READ
Good discipline.
The tape is choppy right now. 
Preserve your capital for the A+ setup.".

Definition fallbackTemplate : string :=
  "> COACH READ
Understood. Keep your eyes on the T&S. 
Speed is increasing.
Watch for the stuff move at the high of day.".

Definition generateGenericResponse (msg : Message) (fullMode : bool) : string :=
  let lowerContent := toLowerCase (content msg) in
  if includes lowerContent "buyer" || includes lowerContent "long" then
    buyerTemplate
  else if includes lowerContent "seller" || includes lowerContent "short" then
    sellerTemplate
  else if includes lowerContent "wait" || includes lowerContent "patience" then
    waitTemplate
  else fallbackTemplate.

(** The message built by the timer callback of [processCoachResponse];
    [now] is the clock when the callback runs. *)
Definition coachMsg (t : Timer) (now : Z) : Message :=
  let responseContent :=
    match scenario t with
    | Some sc => if fullReview t then fullResponse sc else tldrResponse sc
    | None => generateGenericResponse (userMsg t) (fullReview t)
    end in
  {| id := toString (now + 1);
     role := coach;
     content := responseContent;
     type := analysis;
     imageUrl := None;
     timestamp := now;
     mode := Some (if fullReview t then full else tldr);
     scenarioId := None |}.

(** [processCoachResponse]: raise the typing flag and register the timer.
    [cl] is the render whose closure the handler runs in, [acc] the state
    the setters accumulate into. *)
Definition processCoachResponse
    (cl : State) (m : Message) (sc : option Scenario) (acc : State) : State :=
  let acc := setIsTyping true acc in
  setTimers (timers acc ++ [{| userMsg := m; scenario := sc;
                              fullReview := isFullReview cl |}]) acc.

(** The callback of the oldest pending timer. *)
Definition timerCallback (now : Z) (st : State) : State :=
  match timers st with
  | [] => st
  | t :: rest =>
      let st := setTimers rest st in
      let st := setMessages (fun prev => prev ++ [coachMsg t now]) st in
      saveEffect (setIsTyping false st)
  end.

Definition textMsg (now : Z) (txt : string) : Message :=
  {| id := toString now; role := user; content := txt; type := text;
     imageUrl := None; timestamp := now; mode := None; scenarioId := None |}.

Definition handleSend (now : Z) (st : State) : State :=
  if negb (truthy (trim (input st))) then st
  else
    let userMsg := textMsg now (input st) in
    let acc := setMessages (fun prev => prev ++ [userMsg]) st in
    let acc := setInput "" acc in
    saveEffect (processCoachResponse st userMsg None acc).

Definition fileMsg (now : Z) (name imageData : string) : Message :=
  {| id := toString now; role := user;
     content := ("Analyzing screenshot: " ++ name ++ "...")%string;
     type := image; imageUrl := Some imageData; timestamp := now;
     mode := None; scenarioId := None |}.

(** [handleFileUpload] for a chosen file, at the point where the reader has
    loaded it; with no file chosen the handler does nothing. *)
Definition handleFileUpload
    (now : Z) (file : option (string * string)) (st : State) : State :=
  match file with
  | None => st
  | Some (name, imageData) =>
      let acc := setUploadedImage (Some imageData) st in
      let userMsg := fileMsg now name imageData in
      let acc := setMessages (fun prev => prev ++ [userMsg]) acc in
      saveEffect (processCoachResponse st userMsg None acc)
  end.

Definition scenarioMsg (now : Z) (sc : Scenario) : Message :=
  {| id := toString now; role := user;
     content := ("Analyzing setup: " ++ Scenarios.title sc ++ "...")%string;
     type := image; imageUrl := Some l2Placeholder; timestamp := now;
     mode := None; scenarioId := Some (Scenarios.id sc) |}.

Definition handleSimulateScenario (now : Z) (sc : Scenario) (st : State) : State :=
  let userMsg := scenarioMsg now sc in
  let acc := setMessages (fun prev => prev ++ [userMsg]) st in
  saveEffect (processCoachResponse st userMsg (Some sc) acc).

(** [createNewSession]; [timeStr] is the locale rendering of the clock. The
    session list it extends is the one of the render [cl]. *)
Definition createNewSession
    (cl : State) (now : Z) (timeStr : string) (acc : State) : State :=
  let newSession :=
    {| session_id := toString now;
       session_title := ("Session " ++ timeStr)%string;
       createdAt := now;
       session_messages := [sessionWelcome now] |} in
  let acc := setSessions (newSession :: sessions cl) acc in
  let acc := setCurrentSessionId (session_id newSession) acc in
  let acc := setMessages (fun _ => session_messages newSession) acc in
  setUploadedImage None acc.

Definition switchSession (cl : State) (sessionId : string) (acc : State) : State :=
  match find (fun s => String.eqb (session_id s) sessionId) (sessions cl) with
  | Some session =>
      let acc := setCurrentSessionId sessionId acc in
      let acc := setMessages (fun _ => session_messages session) acc in
      setUploadedImage None acc
  | None => acc
  end.

Definition deleteSession
    (cl : State) (now : Z) (timeStr : string) (sessionId : string)
    (acc : State) : State :=
  let updatedSessions :=
    filter (fun s => negb (String.eqb (session_id s) sessionId)) (sessions cl) in
  let acc := setSessions updatedSessions acc in
  if String.eqb (currentSessionId cl) sessionId then
    match updatedSessions with
    | s0 :: _ => switchSession cl (session_id s0) acc
    | [] => createNewSession cl now timeStr acc
    end
  else acc.

(** What the user and the timers can do to the dashboard. The effect keyed
    on [messages] follows the handlers that have called [setMessages]. *)
Inductive Event :=
| Type_ (txt : string)
| Toggle (checked : bool)
| Send (now : Z)
| Upload (now : Z) (file : option (string * string))
| Simulate (now : Z) (sc : Scenario)
| TimerFires (now : Z)
| NewSession (now : Z) (timeStr : string)
| Switch (sessionId : string)
| Delete (now : Z) (timeStr : string) (sessionId : string).

Definition step (e : Event) (st : State) : State :=
  match e with
  | Type_ txt => setInput txt st
  | Toggle b => setIsFullReview b st
  | Send now => handleSend now st
  | Upload now file => handleFileUpload now file st
  | Simulate now sc => handleSimulateScenario now sc st
  | TimerFires now => timerCallback now st
  | NewSession now timeStr => saveEffect (createNewSession st now timeStr st)
  | Switch sessionId =>
      let st' := switchSession st sessionId st in
      match find (fun s => String.eqb (session_id s) sessionId) (sessions st) with
      | Some _ => saveEffect st'
      | None => st'
      end
  | Delete now timeStr sessionId =>
      let st' := deleteSession st now timeStr sessionId st in
      if String.eqb (currentSessionId st) sessionId then saveEffect st' else st'
  end.

Fixpoint run (evs : list Event) (st : State) : State :=
  match evs with
  | [] => st
  | e :: evs' => run evs' (step e st)
  end.

(** The events of the conversation itself, as opposed to session
    management. *)
Definition isChatEvent (e : Event) : bool :=
  match e with
  | NewSession _ _ | Switch _ | Delete _ _ _ => false
  | _ => true
  end.

(** [copyLastMessage]: the coach message whose content goes to the
    clipboard, if there is one. *)
Definition lastCoachMsg (msgs : list Message) : option Message :=
  find (fun m => match role m with coach => true | user => false end)
       (rev msgs).

Definition copyLastMessage (st : State) : option string :=
  match lastCoachMsg (messages st) with
  | Some m => Some (content m)
  | None => None
  end.

(** [downloadTranscript]: the text of the file offered for download.
    [toLocaleTimeString] is the rendering of a time in the browser's
    locale. *)
Section Transcript.
Variable toLocaleTimeString : Z -> string.

(** [m.role.toUpperCase()] *)
Definition upperRole (r : Role) : string :=
  match r with
  | user => "USER"
  | coach => "COACH"
  end.

Definition transcriptEntry (m : Message) : string :=
  ("[" ++ toLocaleTimeString (timestamp m) ++ "] "
   ++ upperRole (role m) ++ ": " ++ content m)%string.

(** [Array.prototype.join] *)
Fixpoint join (sep : string) (parts : list string) : string :=
  match parts with
  | [] => ""
  | [x] => x
  | x :: rest => (x ++ sep ++ join sep rest)%string
  end.

Definition blankLine : string := String "010" (String "010" "").

Definition downloadTranscript (st : State) : string :=
  join blankLine (map transcriptEntry (messages st)).

End Transcript.

End Local.

(** ** The persistence layer and the HTTP routes
    (shared/schema.ts, server/storage.ts, server/routes.ts) *)
Module Server.

(** *** Request values *)

(** A value of a parsed JSON body, or [JUndefined] for an absent field.
    Numbers are the integer-valued ones; arrays and objects, always truthy,
    are not told apart. *)
Inductive JValue :=
| JUndefined
| JNull
| JBool (b : bool)
| JNumber (n : Z)
| JString (s : string)
| JObject.

Definition truthy (v : JValue) : bool :=
  match v with
  | JUndefined | JNull => false
  | JBool b => b
  | JNumber n => negb (n =? 0)
  | JString s => JsString.truthy s
  | JObject => true
  end.

(** A parameter that reaches the store as NULL. *)
Definition isNullish (v : JValue) : bool :=
  match v with
  | JUndefined | JNull => true
  | _ => false
  end.

(** *** The schema *)

Record Session := {
  session_id : string;
  title : string;
  createdAt : Z
}.

Record Message := {
  id : string;
  sessionId : string;
  role : string;
  content : string;
  type : string;
  imageUrl : option string;
  imageData : option string;
  mode : option string;
  scenarioId : option string;
  timestamp : Z
}.

(** The values a route hands to [createMessage]: whatever the body held. *)
Record InsertMessage := {
  ins_sessionId : string;
  ins_role : JValue;
  ins_content : JValue;
  ins_type : JValue;
  ins_imageUrl : JValue;
  ins_imageData : JValue;
  ins_mode : JValue;
  ins_scenarioId : JValue
}.

(** The two tables, rows in insertion order, and whether the tables have
    been provisioned at all. *)
Record DB := {
  provisioned : bool;
  sessions : list Session;
  messages : list Message
}.

Definition emptyDB : DB :=
  {| provisioned := true; sessions := []; messages := [] |}.

Inductive DbError :=
| Unavailable
| UniqueViolation
| NotNullViolation
| ForeignKeyViolation.

Inductive Result (A : Type) :=
| Ok (a : A)
| Throw (e : DbError).
Arguments Ok {A} a.
Arguments Throw {A} e.

(** *** The database engine

    What the code relies on from the engine and its driver without fixing
    it: an [ORDER BY] on one key returns the selected rows sorted by that
    key, in no promised order among equal keys; a text parameter that is a
    string is stored as it is, and any truthy parameter is stored as a
    non-empty text. *)
Inductive Direction := Asc | Desc.

Definition ordered (d : Direction) (x y : Z) : Prop :=
  match d with
  | Asc => x <= y
  | Desc => y <= x
  end.

Class QueryEngine := {
  orderBy : forall A : Type, (A -> Z) -> Direction -> list A -> list A;
  textParam : JValue -> string;
  orderBy_Permutation :
    forall A (key : A -> Z) d rows, Permutation rows (orderBy A key d rows);
  orderBy_Sorted :
    forall A (key : A -> Z) d rows,
      StronglySorted (fun a b => ordered d (key a) (key b))
                     (orderBy A key d rows);
  textParam_string : forall s, textParam (JString s) = s;
  textParam_truthy : forall v, truthy v = true -> textParam v <> ""
}.

Definition nullable `{QueryEngine} (v : JValue) : option string :=
  if isNullish v then None else Some (textParam v).

(** [DELETE FROM sessions WHERE p]: the rows go, and with them, by the
    [onDelete: cascade] of [messages.sessionId], the messages that
    reference them. *)
Definition deleteFromSessions (p : Session -> bool) (db : DB) : DB :=
  let removed := filter p (sessions db) in
  {| provisioned := provisioned db;
     sessions := filter (fun s => negb (p s)) (sessions db);
     messages :=
       filter (fun m =>
                 negb (existsb (fun s => String.eqb (session_id s) (sessionId m))
                               removed))
              (messages db) |}.

Definition deleteFromMessages (p : Message -> bool) (db : DB) : DB :=
  {| provisioned := provisioned db;
     sessions := sessions db;
     messages := filter (fun m => negb (p m)) (messages db) |}.

(** *** DatabaseStorage (server/storage.ts)

    [uuid] and [now] are what [gen_random_uuid()] and [now()] yield for the
    row being inserted. *)
Section Storage.
Context `{QueryEngine}.

Definition createSession (uuid : string) (now : Z) (title : string) (db : DB)
  : Result (Session * DB) :=
  if negb (provisioned db) then Throw Unavailable
  else if existsb (fun s => String.eqb (session_id s) uuid) (sessions db)
  then Throw UniqueViolation
  else
    let row := {| session_id := uuid; title := title; createdAt := now |} in
    Ok (row, {| provisioned := provisioned db;
                sessions := sessions db ++ [row];
                messages := messages db |}).

Definition getSession (id : string) (db : DB) : Result (option Session) :=
  if negb (provisioned db) then Throw Unavailable
  else Ok (hd_error (filter (fun s => String.eqb (session_id s) id) (sessions db))).

Definition getAllSessions (db : DB) : Result (list Session) :=
  if negb (provisioned db) then Throw Unavailable
  else Ok (orderBy Session createdAt Desc (sessions db)).

Definition deleteSession (id : string) (db : DB) : Result (unit * DB) :=
  if negb (provisioned db) then Throw Unavailable
  else Ok (tt, deleteFromSessions (fun s => String.eqb (session_id s) id) db).

Definition updateSession (id : string) (newTitle : string) (db : DB)
  : Result (option Session * DB) :=
  if negb (provisioned db) then Throw Unavailable
  else
    let upd s :=
      if String.eqb (session_id s) id
      then {| session_id := session_id s; title := newTitle;
              createdAt := createdAt s |}
      else s in
    let rows := map upd (sessions db) in
    Ok (hd_error (filter (fun s => String.eqb (session_id s) id) rows),
        {| provisioned := provisioned db; sessions := rows;
           messages := messages db |}).

Definition createMessage (uuid : string) (now : Z) (data : InsertMessage) (db : DB)
  : Result (Message * DB) :=
  if negb (provisioned db) then Throw Unavailable
  else if isNullish (ins_role data) || isNullish (ins_content data)
          || isNullish (ins_type data)
  then Throw NotNullViolation
  else if existsb (fun m => String.eqb (id m) uuid) (messages db)
  then Throw UniqueViolation
  else if negb (existsb (fun s => String.eqb (session_id s) (ins_sessionId data))
                        (sessions db))
  then Throw ForeignKeyViolation
  else
    let row :=
      {| id := uuid;
         sessionId := ins_sessionId data;
         role := textParam (ins_role data);
         content := textParam (ins_content data);
         type := textParam (ins_type data);
         imageUrl := nullable (ins_imageUrl data);
         imageData := nullable (ins_imageData data);
         mode := nullable (ins_mode data);
         scenarioId := nullable (ins_scenarioId data);
         timestamp := now |} in
    Ok (row, {| provisioned := provisioned db;
                sessions := sessions db;
                messages := messages db ++ [row] |}).

Definition getMessagesBySession (sid : string) (db : DB) : Result (list Message) :=
  if negb (provisioned db) then Throw Unavailable
  else Ok (orderBy Message timestamp Asc
             (filter (fun m => String.eqb (sessionId m) sid) (messages db))).

Definition deleteMessage (mid : string) (db : DB) : Result (unit * DB) :=
  if negb (provisioned db) then Throw Unavailable
  else Ok (tt, deleteFromMessages (fun m => String.eqb (id m) mid) db).

Definition deleteMessagesBySession (sid : string) (db : DB) : Result (unit * DB) :=
  if negb (provisioned db) then Throw Unavailable
  else Ok (tt, deleteFromMessages (fun m => String.eqb (sessionId m) sid) db).

(** The operations of [IStorage], for traces of storage calls. *)
Inductive StorageOp :=
| OpCreateSession (uuid : string) (now : Z) (title : string)
| OpDeleteSession (id : string)
| OpUpdateSession (id : string) (title : string)
| OpCreateMessage (uuid : string) (now : Z) (data : InsertMessage)
| OpDeleteMessage (id : string)
| OpDeleteMessagesBySession (sessionId : string).

Definition after {A} (r : Result (A * DB)) (db : DB) : DB :=
  match r with
  | Ok (_, db') => db'
  | Throw _ => db
  end.

Definition exec (op : StorageOp) (db : DB) : DB :=
  match op with
  | OpCreateSession uuid now t => after (createSession uuid now t db) db
  | OpDeleteSession i => after (deleteSession i db) db
  | OpUpdateSession i t => after (updateSession i t db) db
  | OpCreateMessage uuid now data => after (createMessage uuid now data db) db
  | OpDeleteMessage i => after (deleteMessage i db) db
  | OpDeleteMessagesBySession sid => after (deleteMessagesBySession sid db) db
  end.

Definition execAll (ops : list StorageOp) (db : DB) : DB :=
  fold_left (fun d op => exec op d) ops db.

End Storage.

(** Every message row references a session row. *)
Definition referentialIntegrity (db : DB) : Prop :=
  forall m, In m (messages db) ->
            exists s, In s (sessions db) /\ session_id s = sessionId m.


(** *** The routes (server/routes.ts) *)

Inductive AnalysisOutcome :=
| AnalysisThrows
| AnalysisContent (c : option string).

(** What the world supplies while one request is served: the identifier and
    the clock for a row it may insert, and how the vision model answers. *)
Record Env := {
  uuid : string;
  now : Z;
  analysis : AnalysisOutcome
}.

Record File := {
  mimetype : string;
  originalname : string;
  base64 : string
}.

Inductive Request :=
| GetSessions
| PostSession (title : JValue)
| GetSession (id : string)
| DeleteSession (id : string)
| GetMessages (sessionId : string)
| PostMessage (sessionId : string)
              (role content type imageUrl imageData mode scenarioId : JValue)
| PostUpload (file : option File)
| PostAnalyze (imageData mode : JValue).

Inductive Body :=
| SessionsJson (rows : list Session)
| SessionJson (row : Session)
| SuccessJson
| MessagesJson (rows : list Message)
| MessageJson (row : Message)
| UploadJson (url filename : string)
| AnalysisJson (analysis : string)
| ErrorJson (error : string)
| NoRoute.

Record Response := {
  status : Z;
  body : Body
}.

Inductive Thrown :=
| DbThrown (e : DbError)
| TypeErrorThrown
| AnalysisThrown.

(** The result of serving a request: the response, what the [catch] block
    wrote to the console when it ran, and the store afterwards. *)
Record Outcome := {
  response : Response;
  logged : option (string * Thrown);
  store : DB
}.

(** The two revisions of the route table: server/routes.ts, and the one
    that also serves [/api/analyze]. *)
Inductive Revision := Base | WithAnalysis.

Definition json (b : Body) : Response := {| status := 200; body := b |}.

Definition statusJson (code : Z) (b : Body) : Response :=
  {| status := code; body := b |}.

Definition respond (r : Response) (db : DB) : Outcome :=
  {| response := r; logged := None; store := db |}.

Definition caught (label : string) (e : Thrown) (r : Response) (db : DB) : Outcome :=
  {| response := r; logged := Some (label, e); store := db |}.

Section Routes.
Context `{QueryEngine}.

Definition getSessionsRoute (rev : Revision) (db : DB) : Outcome :=
  match getAllSessions db with
  | Ok allSessions => respond (json (SessionsJson allSessions)) db
  | Throw e =>
      match rev with
      | Base =>
          caught "Error fetching sessions:" (DbThrown e)
                 (statusJson 500 (ErrorJson "Failed to fetch sessions")) db
      | WithAnalysis =>
          caught "Error fetching sessions:" (DbThrown e)
                 (json (SessionsJson [])) db
      end
  end.

Definition postSessionRoute (env : Env) (title : JValue) (db : DB) : Outcome :=
  match title with
  | JString t =>
      if negb (truthy title) then
        respond (statusJson 400 (ErrorJson "Title is required")) db
      else
        match createSession (uuid env) (now env) t db with
        | Ok (newSession, db') => respond (json (SessionJson newSession)) db'
        | Throw e =>
            caught "Error creating session:" (DbThrown e)
                   (statusJson 500 (ErrorJson "Failed to create session")) db
        end
  | _ => respond (statusJson 400 (ErrorJson "Title is required")) db
  end.

Definition getSessionRoute (id : string) (db : DB) : Outcome :=
  match getSession id db with
  | Ok None => respond (statusJson 404 (ErrorJson "Session not found")) db
  | Ok (Some session) => respond (json (SessionJson session)) db
  | Throw e =>
      caught "Error fetching session:" (DbThrown e)
             (statusJson 500 (ErrorJson "Failed to fetch session")) db
  end.

Definition deleteSessionRoute (id : string) (db : DB) : Outcome :=
  match deleteSession id db with
  | Ok (_, db') => respond (json SuccessJson) db'
  | Throw e =>
      caught "Error deleting session:" (DbThrown e)
             (statusJson 500 (ErrorJson "Failed to delete session")) db
  end.

Definition getMessagesRoute (sessionId : string) (db : DB) : Outcome :=
  match getMessagesBySession sessionId db with
  | Ok msgs => respond (json (MessagesJson msgs)) db
  | Throw e =>
      caught "Error fetching messages:" (DbThrown e)
             (statusJson 500 (ErrorJson "Failed to fetch messages")) db
  end.

(** [v || null] *)
Definition orNull (v : JValue) : JValue := if truthy v then v else JNull.

Definition postMessageRoute
    (env : Env) (sessionId : string)
    (role content type imageUrl imageData mode scenarioId : JValue)
    (db : DB) : Outcome :=
  if negb (truthy role) || negb (truthy content) || negb (truthy type) then
    respond (statusJson 400 (ErrorJson "Missing required fields")) db
  else
    match createMessage (uuid env) (now env)
            {| ins_sessionId := sessionId;
               ins_role := role;
               ins_content := content;
               ins_type := type;
               ins_imageUrl := orNull imageUrl;
               ins_imageData := orNull imageData;
               ins_mode := orNull mode;
               ins_scenarioId := orNull scenarioId |} db with
    | Ok (newMessage, db') => respond (json (MessageJson newMessage)) db'
    | Throw e =>
        caught "Error creating message:" (DbThrown e)
               (statusJson 500 (ErrorJson "Failed to create message")) db
    end.

Definition postUploadRoute (file : option File) (db : DB) : Outcome :=
  match file with
  | None => respond (statusJson 400 (ErrorJson "No file uploaded")) db
  | Some f =>
      let dataUrl := ("data:" ++ mimetype f ++ ";base64," ++ base64 f)%string in
      respond (json (UploadJson dataUrl (originalname f))) db
  end.

(** [analyzeL2Screenshot] behind [/api/analyze]; the model's answer, or its
    failure, is the [analysis] of the environment. *)
Definition analyzeL2Screenshot (env : Env) : AnalysisOutcome + string :=
  match analysis env with
  | AnalysisThrows => inl AnalysisThrows
  | AnalysisContent (Some c) =>
      inr (if JsString.truthy c then c else "Unable to analyze screenshot")
  | AnalysisContent None => inr "Unable to analyze screenshot"
  end.

Definition postAnalyzeRoute (env : Env) (imageData mode : JValue) (db : DB) : Outcome :=
  if negb (truthy imageData) then
    respond (statusJson 400 (ErrorJson "Valid image data required")) db
  else
    match imageData with
    | JString s =>
        if negb (JsString.startsWith s "data:image") then
          respond (statusJson 400 (ErrorJson "Valid image data required")) db
        else
          match analyzeL2Screenshot env with
          | inr text => respond (json (AnalysisJson text)) db
          | inl _ =>
              caught "Error analyzing screenshot:" AnalysisThrown
                     (statusJson 500 (ErrorJson "Failed to analyze screenshot")) db
          end
    | _ =>
        caught "Error analyzing screenshot:" TypeErrorThrown
               (statusJson 500 (ErrorJson "Failed to analyze screenshot")) db
    end.

Definition handle (rev : Revision) (env : Env) (req : Request) (db : DB) : Outcome :=
  match req with
  | GetSessions => getSessionsRoute rev db
  | PostSession title => postSessionRoute env title db
  | GetSession id => getSessionRoute id db
  | DeleteSession id => deleteSessionRoute id db
  | GetMessages sessionId => getMessagesRoute sessionId db
  | PostMessage sessionId role content type imageUrl imageData mode scenarioId =>
      postMessageRoute env sessionId role content type
                       imageUrl imageData mode scenarioId db
  | PostUpload file => postUploadRoute file db
  | PostAnalyze imageData mode =>
      match rev with
      | Base => respond (statusJson 404 NoRoute) db
      | WithAnalysis => postAnalyzeRoute env imageData mode db
      end
  end.

Fixpoint serve (rev : Revision) (reqs : list (Env * Request)) (db : DB) : DB :=
  match reqs with
  | [] => db
  | (env, req) :: rest => serve rev rest (store (handle rev env req db))
  end.

End Routes.

(** *** A reference engine

    Insertion sort, stable or with equal keys reversed: both meet what
    [QueryEngine] asks of an [ORDER BY]. *)
Definition precedes (d : Direction) (strict : bool) (x y : Z) : bool :=
  match d, strict with
  | Asc, false => x <=? y
  | Asc, true => x <? y
  | Desc, false => y <=? x
  | Desc, true => y <? x
  end.

Fixpoint insertRow {A} (key : A -> Z) (d : Direction) (strict : bool)
    (a : A) (sorted : list A) : list A :=
  match sorted with
  | [] => [a]
  | b :: rest =>
      if precedes d strict (key a) (key b) then a :: b :: rest
      else b :: insertRow key d strict a rest
  end.

(** Rows are inserted from the last to the first: with [strict := false] a
    row ends up before the later rows of equal key (stable), with
    [strict := true] behind them. *)
Definition sortRows (strict : bool) (A : Type) (key : A -> Z) (d : Direction)
    (rows : list A) : list A :=
  fold_right (insertRow key d strict) [] rows.

Definition plainText (v : JValue) : string :=
  match v with
  | JUndefined => "undefined"
  | JNull => "null"
  | JBool true => "true"
  | JBool false => "false"
  | JNumber n => JsString.toString n
  | JString s => s
  | JObject => "{}"
  end.


End Server.

(** ** The dashboard backed by the HTTP API (server-backed revision of
    client/src/pages/dashboard.tsx) *)
Module Remote.
Import JsString.

Definition buyerTemplate : string :=
  "> COACH READ
Buyers are weak here. Don't chase.
I see heavy offers stacking at the half-dollar.
Wait for the reclaim of the level before lifting.".

Definition sellerTemplate : string :=
  "> COACH READ
Sellers are aggressive on the tape.
Bids are stepping down.
Look for the flush below the round number.".

Definition fallbackTemplate : string :=
  "> COACH READ
Understood. Keep your eyes on the T&S.
Speed is increasing.
Watch for the stuff move at the high of day.".

Definition generateGenericResponse (content : string) (fullMode : bool) : string :=
  let lower := toLowerCase content in
  if includes lower "buyer" || includes lower "long" then buyerTemplate
  else if includes lower "seller" || includes lower "short" then sellerTemplate
  else fallbackTemplate.

(** The part of the component state the session list works on: the cached
    result of the [sessions] query and the selected session. *)
Record State := {
  sessions : list Server.Session;
  currentSessionId : string
}.

Definition setCurrentSessionId (v : string) (st : State) : State :=
  {| sessions := sessions st; currentSessionId := v |}.

(** [res.ok] *)
Definition ok (r : Server.Response) : bool :=
  (200 <=? Server.status r) && (Server.status r <=? 299).

Section Client.
Context `{Server.QueryEngine}.
Variable rev : Server.Revision.

(** [deleteSessionMutation.mutate(id)]: the request, then [onSuccess] when
    the response is ok. [onSuccess] reads the session list of the cache as
    it is before the invalidated query has been fetched again. *)
Definition deleteSessionMutation
    (env : Server.Env) (id : string) (st : State) (db : Server.DB)
  : State * Server.DB :=
  let out := Server.handle rev env (Server.DeleteSession id) db in
  if ok (Server.response out) then
    (match sessions st with
     | s0 :: _ => setCurrentSessionId (Server.session_id s0) st
     | [] => st
     end,
     Server.store out)
  else (st, Server.store out).

(** The [sessions] query fetched again after its invalidation; a response
    that is not ok leaves the cached list in place. *)
Definition refetchSessions (env : Server.Env) (st : State) (db : Server.DB)
  : State * Server.DB :=
  let out := Server.handle rev env Server.GetSessions db in
  if ok (Server.response out) then
    match Server.body (Server.response out) with
    | Server.SessionsJson rows =>
        ({| sessions := rows; currentSessionId := currentSessionId st |},
         Server.store out)
    | _ => (st, Server.store out)
    end
  else (st, Server.store out).

(** The effect that selects the first session when none is selected. *)
Definition initEffect (st : State) : State :=
  match sessions st with
  | s0 :: _ =>
      if negb (truthy (currentSessionId st))
      then setCurrentSessionId (Server.session_id s0) st
      else st
  | [] => st
  end.

(** Deleting a session from the list, up to the point where the list has
    been fetched again and the effects have run. *)
Definition deleteAndRefetch
    (env : Server.Env) (id : string) (st : State) (db : Server.DB)
  : State * Server.DB :=
  let '(st1, db1) := deleteSessionMutation env id st db in
  let '(st2, db2) := refetchSessions env st1 db1 in
  (initEffect st2, db2).

(** [createSessionMutation.mutate(title)]: the request, then [onSuccess]
    with the session of the response when the response is ok. *)
Definition createSessionMutation
    (env : Server.Env) (title : string) (st : State) (db : Server.DB)
  : State * Server.DB :=
  let out := Server.handle rev env (Server.PostSession (Server.JString title)) db in
  if ok (Server.response out) then
    match Server.body (Server.response out) with
    | Server.SessionJson newSession =>
        (setCurrentSessionId (Server.session_id newSession) st, Server.store out)
    | _ => (st, Server.store out)
    end
  else (st, Server.store out).

(** [createNewSession]; [timeStr] is the locale rendering of the clock. *)
Definition createNewSession
    (env : Server.Env) (timeStr : string) (st : State) (db : Server.DB)
  : State * Server.DB :=
  createSessionMutation env ("Session " ++ timeStr)%string st db.

(** Creating a session, up to the point where the list has been fetched
    again and the effects have run. *)
Definition createAndRefetch
    (env : Server.Env) (timeStr : string) (st : State) (db : Server.DB)
  : State * Server.DB :=
  let '(st1, db1) := createNewSession env timeStr st db in
  let '(st2, db2) := refetchSessions env st1 db1 in
  (initEffect st2, db2).

(** What the closure of a reply timer holds. *)
Record PendingReply := {
  replyTo : string;
  replyScenario : option Scenarios.Scenario;
  replyFullReview : bool;
  replySessionId : string
}.

(** The selection together with the state of the input row. *)
Record Chat := {
  selection : State;
  input : string;
  isFullReview : bool;
  isTyping : bool;
  pending : list PendingReply
}.

(** [processCoachResponse], up to the registration of the timer. *)
Definition processCoachResponse
    (content : string) (sc : option Scenarios.Scenario) (c : Chat) : Chat :=
  {| selection := selection c;
     input := input c;
     isFullReview := isFullReview c;
     isTyping := true;
     pending := pending c ++ [{| replyTo := content;
                                 replyScenario := sc;
                                 replyFullReview := isFullReview c;
                                 replySessionId := currentSessionId (selection c) |}] |}.

Definition setInput (v : string) (c : Chat) : Chat :=
  {| selection := selection c; input := v; isFullReview := isFullReview c;
     isTyping := isTyping c; pending := pending c |}.

(** [handleSend]: the message is posted first; when the response is not ok
    [mutateAsync] rejects and the rest of the handler does not run. *)
Definition handleSend (env : Server.Env) (c : Chat) (db : Server.DB)
  : Chat * Server.DB :=
  if negb (truthy (trim (input c)))
     || negb (truthy (currentSessionId (selection c)))
  then (c, db)
  else
    let out :=
      Server.handle rev env
        (Server.PostMessage (currentSessionId (selection c))
           (Server.JString "user") (Server.JString (input c))
           (Server.JString "text")
           Server.JUndefined Server.JUndefined Server.JUndefined
           Server.JUndefined) db in
    if ok (Server.response out) then
      (processCoachResponse (input c) None (setInput "" c), Server.store out)
    else (c, Server.store out).

(** [handleSimulateScenario] *)
Definition handleSimulateScenario
    (env : Server.Env) (sc : Scenarios.Scenario) (c : Chat) (db : Server.DB)
  : Chat * Server.DB :=
  if negb (truthy (currentSessionId (selection c))) then (c, db)
  else
    let content := ("Analyzing setup: " ++ Scenarios.title sc ++ "...")%string in
    let out :=
      Server.handle rev env
        (Server.PostMessage (currentSessionId (selection c))
           (Server.JString "user") (Server.JString content)
           (Server.JString "image")
           (Server.JString Local.l2Placeholder) Server.JUndefined
           Server.JUndefined (Server.JString (Scenarios.id sc))) db in
    if ok (Server.response out) then
      (processCoachResponse content (Some sc) c, Server.store out)
    else (c, Server.store out).

End Client.

End Remote.

(** * Properties *)

(** ** Strings *)

(** [k] occurs in [s]. *)
Definition contains (s k : string) : Prop :=
  exists pre post, s = (pre ++ k ++ post)%string.

Lemma startsWith_spec (s k : string) :
  JsString.startsWith s k = true <-> exists post, s = (k ++ post)%string.
Proof.
  revert s; induction k as [|a k IH]; intros s; simpl.
  - split; [intros _; exists s; reflexivity | destruct s; reflexivity].
  - destruct s as [|b s]; simpl.
    + split; [discriminate | intros [post E]; discriminate E].
    + rewrite andb_true_iff, Ascii.eqb_eq, IH. split.
      * intros [-> [post ->]]. exists post. reflexivity.
      * intros [post E]. injection E as -> ->. split; [reflexivity | eauto].
Qed.

Lemma includes_spec (s k : string) :
  JsString.includes s k = true <-> contains s k.
Proof.
  unfold contains. induction s as [|c s IH].
  - cbn [JsString.includes]. rewrite orb_false_r, startsWith_spec. split.
    + intros [post E]. exists "", post. exact E.
    + intros [pre [post E]]. destruct pre; [eauto | discriminate E].
  - cbn [JsString.includes]. rewrite orb_true_iff, startsWith_spec, IH. split.
    + intros [[post E] | [pre [post E]]].
      * exists "", post. exact E.
      * exists (String c pre), post. rewrite E. reflexivity.
    + intros [pre [post E]]. destruct pre as [|c' pre].
      * left. exists post. exact E.
      * right. injection E as _ E. eauto.
Qed.

Lemma includes_false (s k : string) :
  ~ contains s k -> JsString.includes s k = false.
Proof.
  intros N. destruct (JsString.includes s k) eqn:E; [|reflexivity].
  apply includes_spec in E. contradiction.
Qed.

Lemma includes_true (s k : string) :
  contains s k -> JsString.includes s k = true.
Proof. apply includes_spec. Qed.

(** A string is blank when all its characters are white space. *)
Definition blank (s : string) : Prop :=
  forall pre c post, s = (pre ++ String c post)%string ->
                     JsString.isWhiteSpace c = true.

Lemma blank_empty : blank "".
Proof. intros pre c post E. destruct pre; discriminate E. Qed.

Lemma blank_cons (a : ascii) (s : string) :
  blank (String a s) <-> JsString.isWhiteSpace a = true /\ blank s.
Proof.
  split.
  - intros B. split.
    + apply (B "" a s). reflexivity.
    + intros pre c post E. apply (B (String a pre) c post). rewrite E. reflexivity.
  - intros [W B] pre c post E. destruct pre as [|b pre].
    + injection E as -> ->. exact W.
    + injection E as -> E. apply (B pre c post E).
Qed.

Lemma trimStart_cases (s : string) :
  (JsString.trimStart s = "" /\ blank s)
  \/ (exists c t, JsString.trimStart s = String c t
                  /\ JsString.isWhiteSpace c = false /\ ~ blank s).
Proof.
  induction s as [|a s IH]; simpl.
  - left. split; [reflexivity | apply blank_empty].
  - destruct (JsString.isWhiteSpace a) eqn:W.
    + destruct IH as [[E B] | [c [t [E [Wc NB]]]]].
      * left. split; [exact E | apply blank_cons; auto].
      * right. exists c, t. repeat split; auto.
        intros B. apply blank_cons in B. tauto.
    + right. exists a, s. repeat split; auto.
      intros B. apply blank_cons in B. destruct B as [B _]. congruence.
Qed.

(** [!input.trim()] holds exactly for the blank inputs. *)
Lemma trim_blank (s : string) :
  JsString.truthy (JsString.trim s) = false <-> blank s.
Proof.
  unfold JsString.truthy, JsString.trim.
  destruct (trimStart_cases s) as [[E B] | [c [t [E [W NB]]]]]; rewrite E; simpl.
  - tauto.
  - rewrite W. simpl. split; [discriminate | contradiction].
Qed.

(** ** The keyword matcher *)

Ltac keyword_cases :=
  repeat match goal with
         | H : contains _ _ |- _ => apply includes_true in H; rewrite H; clear H
         | H : ~ contains _ _ |- _ => apply includes_false in H; rewrite H; clear H
         end;
  rewrite ?orb_true_r; reflexivity.

(** C4. The matcher of plain-text messages is a function of the lower-cased
    content alone and tries its rules in a fixed order. In both revisions of
    the dashboard, a content in which "buyer" or "long" occurs gets the
    buyer template whatever the mode; one in which "seller" or "short"
    occurs, and neither "buyer" nor "long", gets the seller template; one in
    which no keyword of the revision's rules occurs gets the fallback
    template. "I think buyers are strong" gets the buyer template. *)
Theorem generateGenericResponse_first_match_wins :
  forall (msg : Local.Message) (content : string) (fullMode : bool),
    let lowerContent := JsString.toLowerCase (Local.content msg) in
    let lower := JsString.toLowerCase content in
    ((contains lowerContent "buyer" \/ contains lowerContent "long" ->
      Local.generateGenericResponse msg fullMode = Local.buyerTemplate)
     /\ (~ contains lowerContent "buyer" -> ~ contains lowerContent "long" ->
         contains lowerContent "seller" \/ contains lowerContent "short" ->
         Local.generateGenericResponse msg fullMode = Local.sellerTemplate)
     /\ (~ contains lowerContent "buyer" -> ~ contains lowerContent "long" ->
         ~ contains lowerContent "seller" -> ~ contains lowerContent "short" ->
         ~ contains lowerContent "wait" -> ~ contains lowerContent "patience" ->
         Local.generateGenericResponse msg fullMode = Local.fallbackTemplate))
    /\ ((contains lower "buyer" \/ contains lower "long" ->
         Remote.generateGenericResponse content fullMode = Remote.buyerTemplate)
        /\ (~ contains lower "buyer" -> ~ contains lower "long" ->
            contains lower "seller" \/ contains lower "short" ->
            Remote.generateGenericResponse content fullMode = Remote.sellerTemplate)
        /\ (~ contains lower "buyer" -> ~ contains lower "long" ->
            ~ contains lower "seller" -> ~ contains lower "short" ->
            Remote.generateGenericResponse content fullMode = Remote.fallbackTemplate))
    /\ (forall now,
          Local.generateGenericResponse
            (Local.textMsg now "I think buyers are strong") fullMode
          = Local.buyerTemplate)
    /\ Remote.generateGenericResponse "I think buyers are strong" fullMode
       = Remote.buyerTemplate.
Proof.
  intros msg content fullMode lowerContent lower.
  unfold Local.generateGenericResponse, Remote.generateGenericResponse.
  fold lowerContent. fold lower.
  split; [split; [|split] | split; [split; [|split] | split]].
  - intros [Hk | Hk]; keyword_cases.
  - intros N1 N2 [Hk | Hk]; keyword_cases.
  - intros; keyword_cases.
  - intros [Hk | Hk]; keyword_cases.
  - intros N1 N2 [Hk | Hk]; keyword_cases.
  - intros; keyword_cases.
  - intros now. subst lowerContent. vm_compute. reflexivity.
  - subst lower. vm_compute. reflexivity.
Qed.

Ltac decide_contains :=
  match goal with
  | |- contains ?s ?k =>
      apply includes_spec; vm_compute; reflexivity
  | |- ~ contains ?s ?k =>
      let C := fresh in
      intros C; apply includes_spec in C; vm_compute in C; discriminate C
  end.

(** The theorem at the contents "I think buyers are strong",
    "Sellers keep hitting the bid" and "what now". *)
Lemma generateGenericResponse_first_match_wins_witness :
  Local.generateGenericResponse
    (Local.textMsg 0 "I think buyers are strong") true = Local.buyerTemplate
  /\ Local.generateGenericResponse
       (Local.textMsg 0 "Sellers keep hitting the bid") false = Local.sellerTemplate
  /\ Local.generateGenericResponse
       (Local.textMsg 0 "what now") false = Local.fallbackTemplate
  /\ Remote.generateGenericResponse "Going LONG here" true = Remote.buyerTemplate
  /\ Remote.generateGenericResponse "SHORT it" true = Remote.sellerTemplate
  /\ Remote.generateGenericResponse "wait for it" false = Remote.fallbackTemplate.
Proof.
  split; [|split; [|split; [|split; [|split]]]].
  - destruct (generateGenericResponse_first_match_wins
                (Local.textMsg 0 "I think buyers are strong") "" true)
      as [[Hbuyer _] _].
    apply Hbuyer. left. decide_contains.
  - destruct (generateGenericResponse_first_match_wins
                (Local.textMsg 0 "Sellers keep hitting the bid") "" false)
      as [[_ [Hseller _]] _].
    apply Hseller; [decide_contains | decide_contains | left; decide_contains].
  - destruct (generateGenericResponse_first_match_wins
                (Local.textMsg 0 "what now") "" false)
      as [[_ [_ Hfallback]] _].
    apply Hfallback; decide_contains.
  - destruct (generateGenericResponse_first_match_wins
                (Local.textMsg 0 "") "Going LONG here" true)
      as [_ [[Hbuyer _] _]].
    apply Hbuyer. right. decide_contains.
  - destruct (generateGenericResponse_first_match_wins
                (Local.textMsg 0 "") "SHORT it" true)
      as [_ [[_ [Hseller _]] _]].
    apply Hseller; [decide_contains | decide_contains | right; decide_contains].
  - destruct (generateGenericResponse_first_match_wins
                (Local.textMsg 0 "") "wait for it" false)
      as [_ [[_ [_ Hfallback]] _]].
    apply Hfallback; decide_contains.
Defined.

(** The templates of either revision are pairwise distinct, so the rule
    that fired can be read off the reply. *)
Lemma templates_distinct :
  Local.buyerTemplate <> Local.sellerTemplate
  /\ Local.buyerTemplate <> Local.waitTemplate
  /\ Local.buyerTemplate <> Local.fallbackTemplate
  /\ Local.sellerTemplate <> Local.waitTemplate
  /\ Local.sellerTemplate <> Local.fallbackTemplate
  /\ Local.waitTemplate <> Local.fallbackTemplate
  /\ Remote.buyerTemplate <> Remote.sellerTemplate
  /\ Remote.buyerTemplate <> Remote.fallbackTemplate
  /\ Remote.sellerTemplate <> Remote.fallbackTemplate.
Proof.
  repeat split; intros E; apply String.eqb_eq in E; vm_compute in E; discriminate E.
Qed.

(** ** The conversation of the client-local dashboard *)
Module LocalFacts.
Import JsString Local.

Lemma saveEffect_keeps (st : State) :
  messages (saveEffect st) = messages st
  /\ timers (saveEffect st) = timers st
  /\ isTyping (saveEffect st) = isTyping st
  /\ input (saveEffect st) = input st
  /\ isFullReview (saveEffect st) = isFullReview st
  /\ currentSessionId (saveEffect st) = currentSessionId st.
Proof.
  unfold saveEffect.
  destruct (truthy (currentSessionId st) && _); simpl; auto 10.
Qed.

Ltac save_simpl :=
  repeat match goal with
         | |- context [messages (saveEffect ?s)] =>
             rewrite (proj1 (saveEffect_keeps s))
         | |- context [timers (saveEffect ?s)] =>
             rewrite (proj1 (proj2 (saveEffect_keeps s)))
         | |- context [isTyping (saveEffect ?s)] =>
             rewrite (proj1 (proj2 (proj2 (saveEffect_keeps s))))
         | |- context [currentSessionId (saveEffect ?s)] =>
             rewrite (proj2 (proj2 (proj2 (proj2 (proj2 (saveEffect_keeps s))))))
         end.

(** The timer an event registers, when its handler accepts it: the
    handlers that call [processCoachResponse], past their early returns. *)
Definition registers (e : Event) (st : State) : option Timer :=
  match e with
  | Send now =>
      if truthy (trim (input st))
      then Some {| userMsg := textMsg now (input st); scenario := None;
                   fullReview := isFullReview st |}
      else None
  | Upload now (Some (name, imageData)) =>
      Some {| userMsg := fileMsg now name imageData; scenario := None;
              fullReview := isFullReview st |}
  | Simulate now sc =>
      Some {| userMsg := scenarioMsg now sc; scenario := Some sc;
              fullReview := isFullReview st |}
  | _ => None
  end.

(** The coach messages a queue of timers yields when they fire at the
    given clock values. *)
Definition replies (ts : list Timer) (nows : list Z) : list Message :=
  map (fun p => coachMsg (fst p) (snd p)) (combine ts nows).

Lemma step_registers (e : Event) (st : State) (t : Timer) :
  registers e st = Some t ->
  messages (step e st) = messages st ++ [userMsg t]
  /\ timers (step e st) = timers st ++ [t]
  /\ isTyping (step e st) = true
  /\ role (userMsg t) = user.
Proof.
  destruct e as [txt|b|now|now file|now sc|now|now ts|sid|now ts sid];
    simpl; try discriminate.
  - unfold handleSend. destruct (truthy (trim (input st))); simpl; [|discriminate].
    intros [= <-]. save_simpl. simpl. auto.
  - destruct file as [[name imageData]|]; [|discriminate].
    intros [= <-]. unfold handleFileUpload. save_simpl. simpl. auto.
  - intros [= <-]. unfold handleSimulateScenario. save_simpl. simpl. auto.
Qed.

Lemma timerCallback_fires (now : Z) (st : State) (t : Timer) (rest : list Timer) :
  timers st = t :: rest ->
  messages (timerCallback now st) = messages st ++ [coachMsg t now]
  /\ timers (timerCallback now st) = rest
  /\ isTyping (timerCallback now st) = false.
Proof.
  intros E. unfold timerCallback. rewrite E. save_simpl. simpl. auto.
Qed.

Lemma replies_snoc (ts : list Timer) (nows : list Z) (t : Timer) (now : Z) :
  List.length nows = List.length ts ->
  replies (ts ++ [t]) (nows ++ [now]) = replies ts nows ++ [coachMsg t now].
Proof.
  unfold replies. revert nows.
  induction ts as [|t0 ts IH]; intros [|n nows] L; simpl in *; try discriminate.
  - reflexivity.
  - f_equal. apply IH. congruence.
Qed.

(** Firing every pending timer appends the replies in the order in which
    the timers were registered and empties the queue. *)
Lemma fire_all (nows : list Z) :
  forall st, List.length nows = List.length (timers st) ->
    messages (run (map TimerFires nows) st)
    = messages st ++ replies (timers st) nows
    /\ timers (run (map TimerFires nows) st) = [].
Proof.
  induction nows as [|n nows IH]; intros st L; simpl in *.
  - destruct (timers st); [|discriminate]. unfold replies. simpl.
    rewrite app_nil_r. auto.
  - destruct (timers st) as [|t rest] eqn:E; [discriminate|].
    destruct (timerCallback_fires n st t rest E) as [Hm [Ht _]].
    destruct (IH (timerCallback n st)) as [Im It].
    + rewrite Ht. simpl in L. congruence.
    + rewrite Im, It, Hm, Ht. unfold replies. simpl.
      rewrite <- app_assoc. auto.
Qed.

(** One turn: the accepted submission, then every pending timer fired. *)
Lemma turn_completes (e : Event) (st : State) (t : Timer)
    (nows : list Z) (now' : Z) :
  registers e st = Some t ->
  List.length nows = List.length (timers st) ->
  messages (run (e :: map TimerFires (nows ++ [now'])) st)
  = messages st ++ [userMsg t] ++ replies (timers st) nows ++ [coachMsg t now']
  /\ timers (run (e :: map TimerFires (nows ++ [now'])) st) = [].
Proof.
  intros R L. simpl.
  destruct (step_registers e st t R) as [Hm [Ht _]].
  destruct (fire_all (nows ++ [now']) (step e st)) as [Fm Ft].
  - rewrite Ht, !length_app. simpl. lia.
  - rewrite Fm, Ft, Hm, Ht, replies_snoc by exact L.
    rewrite <- !app_assoc. auto.
Qed.

(** *** Order of the replies *)

Definition isReply (m : Message) : bool :=
  match type m with
  | analysis => true
  | _ => false
  end.

(** What identifies a reply whenever it is delivered: its text and mode. *)
Definition replyIn (m : Message) : string * option Mode := (content m, mode m).

Definition replyOf (t : Timer) : string * option Mode := replyIn (coachMsg t 0).

(** The replies delivered so far followed by those still pending. *)
Definition replyOrder (st : State) : list (string * option Mode) :=
  map replyIn (filter isReply (messages st)) ++ map replyOf (timers st).

Definition registeredBy (e : Event) (st : State) : list Timer :=
  match registers e st with
  | Some t => [t]
  | None => []
  end.

(** The timers registered along a run, in order. *)
Fixpoint registered (evs : list Event) (st : State) : list Timer :=
  match evs with
  | [] => []
  | e :: evs' => registeredBy e st ++ registered evs' (step e st)
  end.

Lemma replyOrder_submit (st st' : State) (t : Timer) :
  messages st' = messages st ++ [userMsg t] ->
  timers st' = timers st ++ [t] ->
  isReply (userMsg t) = false ->
  replyOrder st' = replyOrder st ++ map replyOf [t].
Proof.
  intros Hm Ht Hu. unfold replyOrder.
  rewrite Hm, Ht, filter_app, map_app. simpl. rewrite Hu. simpl.
  rewrite !map_app, app_nil_r, <- app_assoc. reflexivity.
Qed.

Lemma step_replyOrder (e : Event) (st : State) :
  isChatEvent e = true ->
  replyOrder (step e st) = replyOrder st ++ map replyOf (registeredBy e st).
Proof.
  intros C. unfold registeredBy.
  destruct (registers e st) as [t|] eqn:R.
  - destruct (step_registers e st t R) as [Hm [Ht _]].
    apply replyOrder_submit; auto.
    destruct e as [| | |? [[? ?]|]| | | | |]; simpl in R; try discriminate;
      try (destruct (truthy (trim (input st))); [|discriminate]);
      injection R as <-; reflexivity.
  - simpl. rewrite app_nil_r.
    destruct e as [txt|b|now|now file|now sc|now|now ts|sid|now ts sid];
      simpl in *; try discriminate; try reflexivity.
    + unfold handleSend. destruct (truthy (trim (input st))); [discriminate|].
      reflexivity.
    + destruct file as [[? ?]|]; [discriminate | reflexivity].
    + unfold timerCallback. destruct (timers st) as [|t rest] eqn:E; [reflexivity|].
      unfold replyOrder. save_simpl. simpl. rewrite E, filter_app, map_app. simpl.
      rewrite <- app_assoc. reflexivity.
Qed.

Lemma run_replyOrder (evs : list Event) :
  forall st, forallb isChatEvent evs = true ->
    replyOrder (run evs st) = replyOrder st ++ map replyOf (registered evs st).
Proof.
  induction evs as [|e evs IH]; intros st C; simpl in *.
  - rewrite app_nil_r. reflexivity.
  - apply andb_true_iff in C. destruct C as [Ce Cs].
    rewrite IH by exact Cs. rewrite step_replyOrder by exact Ce.
    rewrite map_app, app_assoc. reflexivity.
Qed.

(** *** Scenario replies *)

Lemma bull_flag_unique (sc : Scenario) :
  In sc SCENARIOS -> Scenarios.id sc = "bull_flag" -> sc = bull_flag.
Proof.
  simpl. intros [<- | [<- | [<- | [<- | []]]]] E;
    solve [reflexivity | vm_compute in E; discriminate E].
Qed.

(** The ids of the table are distinct: an id names one scenario. *)
Lemma scenario_ids_unique (s1 s2 : Scenario) :
  In s1 SCENARIOS -> In s2 SCENARIOS ->
  Scenarios.id s1 = Scenarios.id s2 -> s1 = s2.
Proof.
  simpl.
  intros [<- | [<- | [<- | [<- | []]]]] [<- | [<- | [<- | [<- | []]]]] E;
    solve [reflexivity | vm_compute in E; discriminate E].
Qed.

(** The coach message a scenario is answered with: the canned text of the
    mode, read off the scenario's record. *)
Definition cannedReply (sc : Scenario) (fullMode : bool) (now : Z) : Message :=
  {| id := toString (now + 1);
     role := coach;
     content := if fullMode then fullResponse sc else tldrResponse sc;
     type := analysis;
     imageUrl := None;
     timestamp := now;
     mode := Some (if fullMode then full else tldr);
     scenarioId := None |}.

(** C3. Submitting the scenario of the table whose id is "bull_flag" and
    letting the timers fire ends the log with a coach message of type
    analysis whose content is that scenario's [tldrResponse], with mode
    tldr, when the review switch was off at the submission, and its
    [fullResponse], with mode full, when it was on. The same holds of every
    scenario: its reply is the canned text of its own record. The ids of
    the table are distinct, so an id names one scenario; and for every two
    timers registered for scenarios of the table with the same id and the
    same mode, whatever the state, the user message and the clock, the
    replies agree in content, mode and type, and are the same message when
    the clock is the same. *)
Theorem bull_flag_reply_is_canned :
  (forall (sc : Scenario) (st : State) (now now' : Z) (nows : list Z),
      In sc SCENARIOS ->
      Scenarios.id sc = "bull_flag" ->
      List.length nows = List.length (timers st) ->
      let st2 := run (Simulate now sc :: map TimerFires (nows ++ [now'])) st in
      let reply :=
        {| id := toString (now' + 1);
           role := coach;
           content := if isFullReview st then fullResponse bull_flag
                      else tldrResponse bull_flag;
           type := analysis;
           imageUrl := None;
           timestamp := now';
           mode := Some (if isFullReview st then full else tldr);
           scenarioId := None |} in
      sc = bull_flag
      /\ messages st2
         = messages st ++ [scenarioMsg now sc] ++ replies (timers st) nows ++ [reply])
  /\ (forall (sc : Scenario) (st : State) (now now' : Z) (nows : list Z),
        List.length nows = List.length (timers st) ->
        messages (run (Simulate now sc :: map TimerFires (nows ++ [now'])) st)
        = messages st ++ [scenarioMsg now sc] ++ replies (timers st) nows
          ++ [cannedReply sc (isFullReview st) now'])
  /\ (forall s1 s2 : Scenario,
        In s1 SCENARIOS -> In s2 SCENARIOS ->
        Scenarios.id s1 = Scenarios.id s2 -> s1 = s2)
  /\ (forall (s1 s2 : Scenario) (t1 t2 : Timer) (n1 n2 : Z),
        In s1 SCENARIOS -> In s2 SCENARIOS ->
        Scenarios.id s1 = Scenarios.id s2 ->
        scenario t1 = Some s1 -> scenario t2 = Some s2 ->
        fullReview t1 = fullReview t2 ->
        content (coachMsg t1 n1) = content (coachMsg t2 n2)
        /\ mode (coachMsg t1 n1) = mode (coachMsg t2 n2)
        /\ type (coachMsg t1 n1) = type (coachMsg t2 n2)
        /\ coachMsg t1 n1 = cannedReply s1 (fullReview t1) n1
        /\ coachMsg t1 n1 = coachMsg t2 n1).
Proof.
  split; [|split; [|split]].
  - intros sc st now now' nows Hin Hid L st2 reply.
    pose proof (bull_flag_unique sc Hin Hid) as ->.
    split; [reflexivity|].
    destruct (turn_completes (Simulate now bull_flag) st _ nows now' eq_refl L)
      as [Tm _].
    exact Tm.
  - intros sc st now now' nows L.
    destruct (turn_completes (Simulate now sc) st _ nows now' eq_refl L)
      as [Tm _].
    exact Tm.
  - exact scenario_ids_unique.
  - intros s1 s2 t1 t2 n1 n2 I1 I2 Eid E1 E2 Ef.
    pose proof (scenario_ids_unique s1 s2 I1 I2 Eid) as <-.
    unfold coachMsg, cannedReply. simpl. rewrite E1, E2, Ef. auto.
Qed.

(** The theorem at the first render, in either mode. *)
Lemma bull_flag_reply_is_canned_witness :
  (exists front reply,
      messages (run [Simulate 10 bull_flag; TimerFires 1210] (initial 0))
      = front ++ [reply]
      /\ content reply = tldrResponse bull_flag
      /\ mode reply = Some tldr /\ type reply = analysis)
  /\ (exists front reply,
         messages (run [Simulate 10 bull_flag; TimerFires 1210]
                       (step (Toggle true) (initial 0)))
         = front ++ [reply]
         /\ content reply = fullResponse bull_flag
         /\ mode reply = Some full /\ type reply = analysis)
  /\ In bull_flag SCENARIOS /\ Scenarios.id bull_flag = "bull_flag".
Proof.
  destruct bull_flag_reply_is_canned as (B & _ & _ & _).
  split; [|split; [|split; [left; reflexivity | reflexivity]]].
  - destruct (B bull_flag (initial 0) 10 1210 []
                (or_introl eq_refl) eq_refl eq_refl) as (_ & T).
    exists [welcome 0; scenarioMsg 10 bull_flag].
    exists (coachMsg {| userMsg := scenarioMsg 10 bull_flag;
                        scenario := Some bull_flag; fullReview := false |} 1210).
    split; [exact T | repeat split].
  - destruct (B bull_flag (step (Toggle true) (initial 0))
                10 1210 [] (or_introl eq_refl) eq_refl eq_refl) as (_ & T).
    exists [welcome 0; scenarioMsg 10 bull_flag].
    exists (coachMsg {| userMsg := scenarioMsg 10 bull_flag;
                        scenario := Some bull_flag; fullReview := true |} 1210).
    split; [exact T | repeat split].
Defined.

(** *** Submissions while a reply is pending *)

(** The invariant asked of the engine: from the first render on, at most
    one reply is ever outstanding. *)
Definition singleOutstandingRequest : Prop :=
  forall (now0 : Z) (evs : list Event),
    forallb isChatEvent evs = true ->
    (List.length (timers (run evs (initial now0))) <= 1)%nat.

(** Two texts sent one after the other: the second is sent while the
    typing flag is up, and two replies are then outstanding. *)
Lemma second_submission_is_processed : ~ singleOutstandingRequest.
Proof.
  intros Inv.
  specialize (Inv 0 [Type_ "buyers?"; Send 1000; Type_ "sellers?"; Send 1001]
                eq_refl).
  vm_compute in Inv. lia.
Qed.

Lemma second_submission_log :
  let st1 := run [Type_ "buyers?"; Send 1000] (initial 0) in
  let st2 := run [Type_ "sellers?"; Send 1001] st1 in
  isTyping st1 = true
  /\ List.length (timers st2) = 2%nat
  /\ map role (messages (run [TimerFires 2200; TimerFires 2201] st2))
     = [coach; user; user; coach; coach].
Proof. vm_compute. auto. Qed.

(** C1 (as the dashboard does it). [handleSend] turns away the blank
    inputs and no others: whether a reply is pending plays no part in it. A
    text that is not blank is accepted also while the typing flag is up; it
    appends its user message and registers one more reply next to those
    pending. The replies are delivered in the order in which their messages
    were submitted: over any run of conversation events, the replies in the
    log followed by the pending ones are those of before followed by the
    ones registered during the run, in order. *)
Theorem handleSend_accepts_while_typing :
  forall (st : State) (now : Z),
    (blank (input st) -> handleSend now st = st)
    /\ (~ blank (input st) ->
        messages (handleSend now st) = messages st ++ [textMsg now (input st)]
        /\ timers (handleSend now st)
           = timers st ++ [{| userMsg := textMsg now (input st);
                              scenario := None;
                              fullReview := isFullReview st |}]
        /\ isTyping (handleSend now st) = true)
    /\ (forall evs,
          forallb isChatEvent evs = true ->
          replyOrder (run evs st)
          = replyOrder st ++ map replyOf (registered evs st)).
Proof.
  intros st now. split; [|split].
  - intros B. apply trim_blank in B. unfold handleSend. rewrite B. reflexivity.
  - intros NB.
    assert (T : truthy (trim (input st)) = true).
    { destruct (truthy (trim (input st))) eqn:E; [reflexivity|].
      apply trim_blank in E. contradiction. }
    pose proof (step_registers (Send now) st) as S. simpl in S. rewrite T in S.
    destruct (S _ eq_refl) as [Hm [Ht [Hy _]]]. auto.
  - intros evs C. apply run_replyOrder. exact C.
Qed.

(** The theorem at a state in which a reply is pending. *)
Lemma handleSend_accepts_while_typing_witness :
  let st := run [Type_ "buyers?"; Send 1000; Type_ "sellers?"] (initial 0) in
  isTyping st = true
  /\ List.length (timers (handleSend 1001 st)) = 2%nat
  /\ handleSend 1002 (setInput "  " st) = setInput "  " st
  /\ map fst (replyOrder (run [Send 1001; TimerFires 2200; TimerFires 2201] st))
     = [buyerTemplate; sellerTemplate].
Proof.
  intros st.
  destruct (handleSend_accepts_while_typing st 1001) as (_ & A & O).
  destruct (handleSend_accepts_while_typing (setInput "  " st) 1002) as (R & _ & _).
  split; [reflexivity|]. split; [|split].
  - destruct A as (_ & At & _).
    + intros B. apply trim_blank in B. vm_compute in B. discriminate B.
    + rewrite At. reflexivity.
  - apply R. apply trim_blank. reflexivity.
  - rewrite (O [Send 1001; TimerFires 2200; TimerFires 2201] eq_refl).
    reflexivity.
Defined.

(** *** Deleting a session *)

Lemma find_head_of_filter (keep sel : Session -> bool) (l : list Session)
    (s0 : Session) (rest : list Session) :
  filter keep l = s0 :: rest ->
  (forall s, keep s = false -> sel s = false) ->
  sel s0 = true ->
  find sel l = Some s0.
Proof.
  intros F K S. induction l as [|a l IH]; simpl in *; [discriminate|].
  destruct (keep a) eqn:Ka.
  - injection F as -> _. rewrite S. reflexivity.
  - rewrite (K a Ka). apply IH. exact F.
Qed.

(** The sessions are listed newest first. *)
Definition newestFirst (l : list Session) : Prop :=
  StronglySorted (fun a b => createdAt b <= createdAt a) l.

Lemma newestFirst_filter (keep : Session -> bool) (l : list Session) :
  newestFirst l -> newestFirst (filter keep l).
Proof.
  unfold newestFirst. induction 1 as [|a l S IH F]; simpl; [constructor|].
  destruct (keep a); [|exact IH].
  constructor; [exact IH|].
  rewrite Forall_forall in *. intros x Hx. apply filter_In in Hx. apply F, Hx.
Qed.

(** [deleteSession] of the client-local dashboard: a session other than
    the current one is dropped without touching the selection; when the
    current one is dropped the first of the remaining sessions, the newest
    of a list kept newest first, becomes current; when none remains a fresh
    session is created and becomes current. *)
Lemma deleteSession_selection (st : State) (now : Z) (timeStr sid : string) :
  let remaining :=
    filter (fun s => negb (String.eqb (session_id s) sid)) (sessions st) in
  let st' := step (Delete now timeStr sid) st in
  (currentSessionId st <> sid ->
   currentSessionId st' = currentSessionId st /\ messages st' = messages st)
  /\ (currentSessionId st = sid ->
      forall s0 rest, remaining = s0 :: rest ->
        currentSessionId st' = session_id s0
        /\ messages st' = session_messages s0
        /\ (newestFirst (sessions st) ->
            Forall (fun s => createdAt s <= createdAt s0) rest))
  /\ (currentSessionId st = sid ->
      remaining = [] ->
      currentSessionId st' = toString now
      /\ messages st' = [sessionWelcome now]).
Proof.
  intros remaining st'. subst st'. simpl. unfold deleteSession. fold remaining.
  split; [|split].
  - intros N. apply String.eqb_neq in N. rewrite N. auto.
  - intros E s0 rest R. apply String.eqb_eq in E. rewrite E, R.
    assert (K0 : negb (String.eqb (session_id s0) sid) = true).
    { assert (I : In s0 remaining) by (rewrite R; left; reflexivity).
      apply filter_In in I. apply I. }
    unfold switchSession.
    rewrite (find_head_of_filter _ _ _ _ _ R).
    + save_simpl. simpl. repeat split.
      intros NF. apply (newestFirst_filter (fun s => negb (String.eqb (session_id s) sid))) in NF.
      fold remaining in NF. rewrite R in NF. inversion NF; assumption.
    + intros s Ks. apply negb_false_iff, String.eqb_eq in Ks.
      apply negb_true_iff in K0. rewrite Ks, String.eqb_sym. exact K0.
    + apply String.eqb_refl.
  - intros E R. apply String.eqb_eq in E. rewrite E, R.
    unfold createNewSession. save_simpl. simpl. auto.
Qed.

(** Dropping the only session, however, lists it again: the fresh session
    is put in front of the list the handler started from. *)
Lemma deleteSession_last_is_relisted :
  let st := run [NewSession 5 "09:00:00"] (initial 0) in
  map session_id (sessions st) = ["5"]
  /\ map session_id (sessions (step (Delete 9 "09:00:04" "5") st)) = ["9"; "5"].
Proof. vm_compute. auto. Qed.

End LocalFacts.

(** ** The store and the routes *)
Module ServerFacts.
Import Server.

(** *** The reference engines meet the engine's contract *)

Lemma precedes_true (d : Direction) (strict : bool) (x y : Z) :
  precedes d strict x y = true -> ordered d x y.
Proof. destruct d, strict; simpl; lia. Qed.

Lemma precedes_false (d : Direction) (strict : bool) (x y : Z) :
  precedes d strict x y = false -> ordered d y x.
Proof. destruct d, strict; simpl; lia. Qed.

Lemma ordered_trans (d : Direction) (x y z : Z) :
  ordered d x y -> ordered d y z -> ordered d x z.
Proof. destruct d; simpl; lia. Qed.

Section InsertionSort.
Context {A : Type} (key : A -> Z) (d : Direction) (strict : bool).

Let before (a b : A) : Prop := ordered d (key a) (key b).

Lemma insertRow_Permutation (a : A) (l : list A) :
  Permutation (a :: l) (insertRow key d strict a l).
Proof.
  induction l as [|b l IH]; simpl; [reflexivity|].
  destruct (precedes d strict (key a) (key b)); [reflexivity|].
  rewrite perm_swap. constructor. exact IH.
Qed.

Lemma insertRow_Sorted (a : A) (l : list A) :
  StronglySorted before l -> StronglySorted before (insertRow key d strict a l).
Proof.
  induction 1 as [|b l S IH F]; simpl.
  - repeat constructor.
  - destruct (precedes d strict (key a) (key b)) eqn:P.
    + apply precedes_true in P. constructor; [constructor; assumption|].
      constructor; [exact P|].
      eapply Forall_impl; [|exact F]. intros c Hc.
      eapply ordered_trans; [exact P | exact Hc].
    + apply precedes_false in P. constructor; [exact IH|].
      eapply Permutation_Forall; [apply insertRow_Permutation|].
      constructor; assumption.
Qed.

Lemma sortRows_Permutation (l : list A) :
  Permutation l (sortRows strict A key d l).
Proof.
  unfold sortRows. induction l as [|a l IH]; simpl; [reflexivity|].
  rewrite <- insertRow_Permutation. constructor. exact IH.
Qed.

Lemma sortRows_Sorted (l : list A) :
  StronglySorted before (sortRows strict A key d l).
Proof.
  unfold sortRows. induction l as [|a l IH]; simpl; [constructor|].
  apply insertRow_Sorted. exact IH.
Qed.

End InsertionSort.

Lemma toString_nonempty (n : Z) : JsString.toString n <> "".
Proof.
  unfold JsString.toString.
  destruct (Z.to_int n) as [u|u]; simpl; [|discriminate].
  destruct u; discriminate.
Qed.

Lemma plainText_truthy (v : JValue) : truthy v = true -> plainText v <> "".
Proof.
  destruct v as [| |[|]|n|s|]; simpl; try discriminate.
  - intros _. apply toString_nonempty.
  - unfold JsString.truthy. intros T E. subst s. discriminate T.
Qed.

(** An engine whose sort keeps rows of equal key in insertion order. *)
Definition stableEngine : QueryEngine :=
  {| orderBy := sortRows false;
     textParam := plainText;
     orderBy_Permutation := fun A key d rows => sortRows_Permutation key d false rows;
     orderBy_Sorted := fun A key d rows => sortRows_Sorted key d false rows;
     textParam_string := fun s => eq_refl;
     textParam_truthy := plainText_truthy |}.

(** An engine whose sort returns rows of equal key in the opposite order. *)
Definition tieReversingEngine : QueryEngine :=
  {| orderBy := sortRows true;
     textParam := plainText;
     orderBy_Permutation := fun A key d rows => sortRows_Permutation key d true rows;
     orderBy_Sorted := fun A key d rows => sortRows_Sorted key d true rows;
     textParam_string := fun s => eq_refl;
     textParam_truthy := plainText_truthy |}.

(** *** Referential integrity *)

Section Integrity.
Context `{QueryEngine}.

Lemma deleteFromSessions_integrity (p : Session -> bool) (db : DB) :
  referentialIntegrity db -> referentialIntegrity (deleteFromSessions p db).
Proof.
  intros I m Hm. unfold deleteFromSessions in *. simpl in *.
  apply filter_In in Hm. destruct Hm as [Hm Hkeep].
  destruct (I m Hm) as [s [Hs Es]]. exists s. split; [|exact Es].
  apply filter_In. split; [exact Hs|].
  destruct (p s) eqn:Ps; [|reflexivity].
  apply negb_true_iff in Hkeep.
  assert (X : existsb (fun s0 => String.eqb (session_id s0) (sessionId m))
                      (filter p (sessions db)) = true).
  { apply existsb_exists. exists s. split.
    - apply filter_In. auto.
    - apply String.eqb_eq. exact Es. }
  congruence.
Qed.

Lemma deleteFromMessages_integrity (p : Message -> bool) (db : DB) :
  referentialIntegrity db -> referentialIntegrity (deleteFromMessages p db).
Proof.
  intros I m Hm. unfold deleteFromMessages in *. simpl in *.
  apply filter_In in Hm. apply I, Hm.
Qed.

Lemma exec_integrity (op : StorageOp) (db : DB) :
  referentialIntegrity db -> referentialIntegrity (exec op db).
Proof.
  intros I. destruct op as [u n t|i|i t|u n data|i|sid]; simpl.
  - unfold createSession.
    destruct (negb (provisioned db)); [exact I|].
    destruct (existsb _ (sessions db)); [exact I|]. simpl.
    intros m Hm. simpl in *. destruct (I m Hm) as [s [Hs Es]].
    exists s. split; [apply in_or_app; auto | exact Es].
  - unfold deleteSession.
    destruct (negb (provisioned db)); [exact I|]. simpl.
    apply deleteFromSessions_integrity, I.
  - unfold updateSession.
    destruct (negb (provisioned db)); [exact I|]. simpl.
    intros m Hm. simpl in *. destruct (I m Hm) as [s [Hs Es]].
    eexists. split; [apply in_map; exact Hs|].
    destruct (String.eqb (session_id s) i); exact Es.
  - unfold createMessage.
    destruct (negb (provisioned db)); [exact I|].
    destruct (isNullish _ || isNullish _ || isNullish _); [exact I|].
    destruct (existsb _ (messages db)); [exact I|].
    destruct (existsb _ (sessions db)) eqn:FK; simpl; [|exact I].
    intros m Hm. simpl in *. apply in_app_or in Hm.
    destruct Hm as [Hm | [<- | []]]; [apply I, Hm|]. simpl.
    apply existsb_exists in FK. destruct FK as [s [Hs Es]].
    exists s. split; [exact Hs | apply String.eqb_eq, Es].
  - unfold deleteMessage.
    destruct (negb (provisioned db)); [exact I|]. simpl.
    apply deleteFromMessages_integrity, I.
  - unfold deleteMessagesBySession.
    destruct (negb (provisioned db)); [exact I|]. simpl.
    apply deleteFromMessages_integrity, I.
Qed.

Lemma execAll_integrity (ops : list StorageOp) :
  forall db, referentialIntegrity db -> referentialIntegrity (execAll ops db).
Proof.
  unfold execAll. induction ops as [|op ops IH]; intros db I; simpl; [exact I|].
  apply IH, exec_integrity, I.
Qed.

Lemma orderBy_nil (A : Type) (key : A -> Z) (d : Direction) :
  orderBy A key d [] = [].
Proof. apply Permutation_nil, orderBy_Permutation. Qed.

Lemma deleteSession_removes (id : string) (db : DB) :
  referentialIntegrity db ->
  forall m, In m (messages (deleteFromSessions
                              (fun s => String.eqb (session_id s) id) db)) ->
            sessionId m <> id.
Proof.
  intros I m Hm E. simpl in Hm. apply filter_In in Hm. destruct Hm as [Hm K].
  destruct (I m Hm) as [s [Hs Es]].
  apply negb_true_iff in K.
  assert (X : existsb (fun s0 => String.eqb (session_id s0) (sessionId m))
                (filter (fun s0 => String.eqb (session_id s0) id) (sessions db))
              = true).
  { apply existsb_exists. exists s. split.
    - apply filter_In. split; [exact Hs|]. apply String.eqb_eq. congruence.
    - apply String.eqb_eq, Es. }
  congruence.
Qed.

Lemma filter_nil_of_none {A} (p : A -> bool) (l : list A) :
  (forall x, In x l -> p x = false) -> filter p l = [].
Proof.
  induction l as [|a l IH]; simpl; intros N; [reflexivity|].
  rewrite (N a (or_introl eq_refl)). apply IH. auto.
Qed.

End Integrity.

(** C5. In every store reached by storage calls from one in which each
    message references a session, each message still references a
    session; and there, deleting a session leaves no session and no message
    with that id, so that listing the messages of that id afterwards yields
    the empty sequence, while the messages of the other sessions stay. A
    store that is not provisioned refuses the deletion and keeps its rows. *)
Theorem deleteSession_cascades `{QueryEngine} :
  forall (db0 : DB) (ops : list StorageOp) (id : string),
    referentialIntegrity db0 ->
    let db := execAll ops db0 in
    referentialIntegrity db
    /\ match deleteSession id db with
       | Ok (_, db') =>
           (forall s, In s (sessions db') -> session_id s <> id)
           /\ (forall m, In m (messages db') -> sessionId m <> id)
           /\ getMessagesBySession id db' = Ok []
           /\ (forall m, In m (messages db) -> sessionId m <> id ->
                         In m (messages db'))
           /\ referentialIntegrity db'
       | Throw e => provisioned db = false
       end.
Proof.
  intros db0 ops id I0 db.
  assert (I : referentialIntegrity db) by (apply execAll_integrity, I0).
  split; [exact I|].
  unfold deleteSession. destruct (provisioned db) eqn:P; simpl; [|reflexivity].
  split; [|split; [|split; [|split]]].
  - intros s Hs E. apply filter_In in Hs. destruct Hs as [_ K].
    apply negb_true_iff, String.eqb_neq in K. contradiction.
  - apply deleteSession_removes, I.
  - unfold getMessagesBySession. simpl. rewrite P. simpl.
    rewrite filter_nil_of_none; [rewrite orderBy_nil; reflexivity|].
    intros m Hm. apply String.eqb_neq.
    exact (deleteSession_removes id db I m Hm).
  - intros m Hm N. apply filter_In. split; [exact Hm|].
    apply negb_true_iff. apply not_true_is_false. intros X.
    apply existsb_exists in X. destruct X as [s [Hs Es]].
    apply filter_In in Hs. destruct Hs as [_ Hid].
    apply String.eqb_eq in Es, Hid. congruence.
  - apply deleteFromSessions_integrity, I.
Qed.

(** The sample store: two sessions, "s1" with two messages that carry the
    same timestamp and "s2" with one. *)
Definition sampleInsert (sid txt : string) : InsertMessage :=
  {| ins_sessionId := sid; ins_role := JString "user";
     ins_content := JString txt; ins_type := JString "text";
     ins_imageUrl := JNull; ins_imageData := JNull;
     ins_mode := JNull; ins_scenarioId := JNull |}.

Definition sampleOps : list StorageOp :=
  [ OpCreateSession "s1" 1 "Morning";
    OpCreateSession "s2" 2 "Afternoon";
    OpCreateMessage "m1" 7 (sampleInsert "s1" "first");
    OpCreateMessage "m2" 7 (sampleInsert "s1" "second");
    OpCreateMessage "m3" 8 (sampleInsert "s2" "third") ].

Lemma emptyDB_integrity : referentialIntegrity emptyDB.
Proof. intros m []. Qed.

(** The theorem at the sample store, session "s1" deleted. *)
Lemma deleteSession_cascades_witness :
  referentialIntegrity emptyDB
  /\ referentialIntegrity (@execAll stableEngine sampleOps emptyDB)
  /\ (forall db',
        @deleteSession "s1" (@execAll stableEngine sampleOps emptyDB)
        = Ok (tt, db') ->
        @getMessagesBySession stableEngine "s1" db' = Ok []).
Proof.
  pose proof (@deleteSession_cascades stableEngine emptyDB sampleOps "s1"
                emptyDB_integrity) as T.
  cbv zeta in T. destruct T as [I T].
  split; [exact emptyDB_integrity|]. split; [exact I|].
  intros db' E. rewrite E in T. apply T.
Defined.

(** *** Listing the messages of a session *)

(** X25. Listing the messages of a session in a provisioned store yields,
    whatever the engine, a sequence sorted non-decreasingly by timestamp
    that holds exactly the stored messages of that session, each as often
    as it is stored. *)
Theorem getMessagesBySession_sorted `{QueryEngine} :
  forall (db : DB) (sid : string),
    provisioned db = true ->
    exists rows,
      getMessagesBySession sid db = Ok rows
      /\ StronglySorted (fun a b => timestamp a <= timestamp b) rows
      /\ Permutation
           (filter (fun m => String.eqb (sessionId m) sid) (messages db)) rows
      /\ (forall m, In m rows <-> In m (messages db) /\ sessionId m = sid).
Proof.
  intros db sid P. unfold getMessagesBySession. rewrite P. simpl.
  eexists. split; [reflexivity|].
  pose proof (orderBy_Permutation Message timestamp Asc
                (filter (fun m => String.eqb (sessionId m) sid) (messages db)))
    as Perm.
  split; [|split].
  - exact (orderBy_Sorted Message timestamp Asc _).
  - exact Perm.
  - intros m. split.
    + intros Hm. apply (Permutation_in _ (Permutation_sym Perm)) in Hm.
      apply filter_In in Hm. destruct Hm as [Hm E].
      apply String.eqb_eq in E. auto.
    + intros [Hm E]. apply (Permutation_in _ Perm).
      apply filter_In. split; [exact Hm | apply String.eqb_eq, E].
Qed.

(** The theorem at the sample store. *)
Lemma getMessagesBySession_sorted_witness :
  exists rows,
    @getMessagesBySession stableEngine "s1"
      (@execAll stableEngine sampleOps emptyDB) = Ok rows
    /\ map id rows = ["m1"; "m2"].
Proof.
  destruct (@getMessagesBySession_sorted stableEngine
              (@execAll stableEngine sampleOps emptyDB) "s1" eq_refl)
    as [rows [E _]].
  exists rows. split; [exact E|].
  vm_compute in E. injection E as <-. reflexivity.
Defined.

(** The query orders by the timestamp alone, so the order among messages
    of one timestamp is the engine's: the two lemmas below show that the
    ORDER BY contract leaves it open. The order of insertion among the
    messages of one timestamp, as a property of every engine: *)
Definition tiesByInsertionOrder : Prop :=
  forall (E : QueryEngine) (db : DB) (sid : string) (rows : list Message),
    @getMessagesBySession E sid db = Ok rows ->
    forall ts,
      filter (fun m => timestamp m =? ts) rows
      = filter (fun m => timestamp m =? ts)
               (filter (fun m => String.eqb (sessionId m) sid) (messages db)).

(** In the sample store "m1" was inserted before "m2", both at timestamp 7;
    an engine within the contract lists "m2" first. *)
Lemma ties_are_the_engines_choice : ~ tiesByInsertionOrder.
Proof.
  intros T.
  specialize (T tieReversingEngine (@execAll stableEngine sampleOps emptyDB)
                "s1" _ eq_refl 7).
  vm_compute in T. discriminate T.
Qed.

Lemma insertRow_stable {A} (key : A -> Z) (a : A) (l : list A) (k : Z) :
  filter (fun x => key x =? k) (insertRow key Asc false a l)
  = filter (fun x => key x =? k) (a :: l).
Proof.
  induction l as [|b l IH]; [reflexivity|].
  cbn [insertRow precedes].
  destruct (key a <=? key b) eqn:P; [reflexivity|].
  cbn [filter] in *. rewrite IH.
  destruct (key b =? k) eqn:Eb, (key a =? k) eqn:Ea; try reflexivity. lia.
Qed.

(** The stable engine does keep the order of insertion among equal keys. *)
Lemma stableEngine_keeps_ties (db : DB) (sid : string) (rows : list Message) :
  @getMessagesBySession stableEngine sid db = Ok rows ->
  forall ts,
    filter (fun m => timestamp m =? ts) rows
    = filter (fun m => timestamp m =? ts)
             (filter (fun m => String.eqb (sessionId m) sid) (messages db)).
Proof.
  unfold getMessagesBySession. destruct (negb (provisioned db)); [discriminate|].
  intros [= <-] ts. simpl. unfold sortRows.
  induction (filter (fun m => String.eqb (sessionId m) sid) (messages db))
    as [|a l IH]; [reflexivity|].
  cbn [fold_right]. rewrite insertRow_stable. cbn [filter]. rewrite IH.
  reflexivity.
Qed.

(** *** Errors at the request boundary *)


Definition sampleEnv : Env :=
  {| uuid := "u1"; now := 100; analysis := AnalysisThrows |}.





(** *** Deleting a session through the API *)

(** The deletion as the specification has it: an id that names no session
    is answered with status 404. *)
Definition deleteReportsNotFound : Prop :=
  forall (E : QueryEngine) (rev : Revision) (env : Env) (id : string) (db : DB),
    provisioned db = true ->
    (forall s, In s (sessions db) -> session_id s <> id) ->
    status (response (@handle E rev env (DeleteSession id) db)) = 404.

(** Deleting from the empty store answers [{success: true}]. *)
Lemma deleting_nothing_succeeds : ~ deleteReportsNotFound.
Proof.
  intros D.
  specialize (D stableEngine Base sampleEnv "nobody" emptyDB eq_refl).
  vm_compute in D. discriminate D; intros s [].
Qed.

Lemma filter_all {A} (p : A -> bool) (l : list A) :
  (forall x, In x l -> p x = true) -> filter p l = l.
Proof.
  induction l as [|a l IH]; simpl; intros T; [reflexivity|].
  rewrite (T a (or_introl eq_refl)). f_equal. apply IH. auto.
Qed.

(** C9 (as the route has it). On a provisioned store the deletion answers
    [{success: true}] with status 200 whether or not a session of that id
    exists: an existing session goes together with its messages, and when
    there is none the store stays as it is. Only a failing store is
    reported, with status 500; status 404 is never the answer. *)
Theorem deleteSessionRoute_always_succeeds `{QueryEngine} :
  forall (rev : Revision) (env : Env) (id : string) (db : DB),
    let out := handle rev env (DeleteSession id) db in
    (provisioned db = true ->
     response out = json SuccessJson
     /\ store out = deleteFromSessions (fun s => String.eqb (session_id s) id) db
     /\ (forall s, In s (sessions (store out)) -> session_id s <> id)
     /\ ((forall s, In s (sessions db) -> session_id s <> id) -> store out = db))
    /\ (provisioned db = false ->
        response out = statusJson 500 (ErrorJson "Failed to delete session")
        /\ store out = db)
    /\ status (response out) <> 404.
Proof.
  intros rev env id db out. subst out. simpl.
  unfold deleteSessionRoute, deleteSession.
  destruct (provisioned db) eqn:P; simpl.
  - split; [|split; [discriminate | discriminate]].
    intros _. split; [reflexivity|]. split; [reflexivity|]. split.
    + intros s Hs E. apply filter_In in Hs. destruct Hs as [_ K].
      apply negb_true_iff, String.eqb_neq in K. contradiction.
    + intros N. unfold deleteFromSessions.
      rewrite (filter_nil_of_none (fun s => String.eqb (session_id s) id))
        by (intros s Hs; apply String.eqb_neq, N, Hs).
      rewrite (filter_all (fun s => negb (String.eqb (session_id s) id)))
        by (intros s Hs; apply negb_true_iff, String.eqb_neq, N, Hs).
      rewrite filter_all by reflexivity.
      destruct db; reflexivity.
  - split; [discriminate|]. split; [auto | discriminate].
Qed.

(** The theorem at the sample store: an id that names no session, and one
    that does. *)
Lemma deleteSessionRoute_always_succeeds_witness :
  let db := @execAll stableEngine sampleOps emptyDB in
  response (@handle stableEngine Base sampleEnv (DeleteSession "nobody") db)
  = json SuccessJson
  /\ store (@handle stableEngine Base sampleEnv (DeleteSession "nobody") db) = db
  /\ map id (messages (store (@handle stableEngine Base sampleEnv
                                (DeleteSession "s1") db)))
     = ["m3"].
Proof.
  intros db.
  destruct (@deleteSessionRoute_always_succeeds stableEngine Base sampleEnv
              "nobody" db) as [T _].
  destruct (T eq_refl) as (R & _ & _ & S).
  destruct (@deleteSessionRoute_always_succeeds stableEngine Base sampleEnv
              "s1" db) as [T1 _].
  destruct (T1 eq_refl) as (_ & S1 & _).
  split; [exact R|]. split.
  - apply S. intros s Hs E. vm_compute in Hs.
    destruct Hs as [<- | [<- | []]]; discriminate E.
  - rewrite S1. reflexivity.
Defined.

(** *** Creating a message through the API *)

(** A required field counts as missing when it is absent, null or the
    empty string. *)
Definition missing (v : JValue) : Prop :=
  v = JUndefined \/ v = JNull \/ v = JString "".

Lemma missing_falsy (v : JValue) : missing v -> truthy v = false.
Proof. intros [-> | [-> | ->]]; reflexivity. Qed.

Definition hasContent (m : Message) : Prop := content m <> "".

Section Posting.
Context `{QueryEngine}.

Lemma createMessage_row (u : string) (n : Z) (data : InsertMessage)
    (db db' : DB) (m : Message) :
  createMessage u n data db = Ok (m, db') ->
  messages db' = messages db ++ [m]
  /\ sessions db' = sessions db
  /\ role m = textParam (ins_role data)
  /\ content m = textParam (ins_content data)
  /\ type m = textParam (ins_type data).
Proof.
  unfold createMessage.
  destruct (negb (provisioned db)); [discriminate|].
  destruct (isNullish _ || isNullish _ || isNullish _); [discriminate|].
  destruct (existsb _ (messages db)); [discriminate|].
  destruct (negb (existsb _ (sessions db))); [discriminate|].
  intros [= <- <-]. simpl. auto.
Qed.

Lemma handle_keeps_content (rev : Revision) (env : Env) (req : Request) (db : DB) :
  Forall hasContent (messages db) ->
  Forall hasContent (messages (store (handle rev env req db))).
Proof.
  intros F.
  destruct req as [|t|i|i|sid|sid r c ty iu idt m sc|f|idt m]; simpl.
  - unfold getSessionsRoute. destruct (getAllSessions db); [exact F|].
    destruct rev; exact F.
  - unfold postSessionRoute. destruct t as [| |b|n|s|]; try exact F.
    destruct (negb (truthy (JString s))); [exact F|].
    unfold createSession.
    destruct (negb (provisioned db)); [exact F|].
    destruct (existsb _ (sessions db)); exact F.
  - unfold getSessionRoute. destruct (getSession i db) as [[?|]|?]; exact F.
  - unfold deleteSessionRoute, deleteSession.
    destruct (negb (provisioned db)); [exact F|]. simpl.
    apply Forall_forall. intros x Hx. apply filter_In in Hx.
    rewrite Forall_forall in F. apply F, Hx.
  - unfold getMessagesRoute. destruct (getMessagesBySession sid db); exact F.
  - unfold postMessageRoute.
    destruct (truthy r) eqn:Tr; [|exact F].
    destruct (truthy c) eqn:Tc; [|exact F].
    destruct (truthy ty) eqn:Tt; [|exact F]. simpl.
    destruct (createMessage _ _ _ db) as [[row db']|e] eqn:C; [|exact F].
    apply createMessage_row in C. destruct C as (Hm & _ & _ & Hc & _).
    simpl in *. rewrite Hm. apply Forall_app. split; [exact F|].
    constructor; [|constructor]. unfold hasContent. rewrite Hc.
    apply textParam_truthy, Tc.
  - unfold postUploadRoute. destruct f; exact F.
  - destruct rev; [exact F|]. unfold postAnalyzeRoute.
    destruct (negb (truthy idt)); [exact F|].
    destruct idt as [| |b|n|s|]; try exact F.
    destruct (negb (JsString.startsWith s "data:image")); [exact F|].
    destruct (analyzeL2Screenshot env); exact F.
Qed.

End Posting.

(** C10. Creating a message with a role, a content or a type that is
    absent, null or the empty string is answered with status 400 and an
    error body, and the store is left as it was. A message that the route
    does create has a content, a role and a type other than the empty
    string, so that, from a store whose messages all have a content, no
    sequence of requests reaches one holding a message with the empty
    content. The storage call itself takes the empty content. *)
Theorem postMessage_requires_content `{QueryEngine} :
  forall (rev : Revision) (env : Env) (sid : string)
         (role content type imageUrl imageData mode scenarioId : JValue)
         (db : DB),
    let out :=
      handle rev env
        (PostMessage sid role content type imageUrl imageData mode scenarioId)
        db in
    (missing role \/ missing content \/ missing type ->
     response out = statusJson 400 (ErrorJson "Missing required fields")
     /\ store out = db)
    /\ (forall m,
          body (response out) = MessageJson m ->
          Server.content m <> "" /\ Server.role m <> "" /\ Server.type m <> ""
          /\ messages (store out) = messages db ++ [m])
    /\ (forall reqs,
          Forall hasContent (messages db) ->
          Forall hasContent (messages (serve rev reqs db)))
    /\ (provisioned db = true ->
        existsb (fun m => String.eqb (id m) (uuid env)) (messages db) = false ->
        existsb (fun s => String.eqb (session_id s) sid) (sessions db) = true ->
        exists m db',
          createMessage (uuid env) (now env)
            {| ins_sessionId := sid; ins_role := JString "user";
               ins_content := JString ""; ins_type := JString "text";
               ins_imageUrl := imageUrl; ins_imageData := imageData;
               ins_mode := mode; ins_scenarioId := scenarioId |} db
          = Ok (m, db')
          /\ Server.content m = "").
Proof.
  intros rev env sid r c ty iu idt mo sc db out. subst out. simpl.
  split; [|split; [|split]].
  - intros M. unfold postMessageRoute.
    assert (G : negb (truthy r) || negb (truthy c) || negb (truthy ty) = true).
    { destruct M as [M | [M | M]]; apply missing_falsy in M; rewrite M;
        simpl; rewrite ?orb_true_r; reflexivity. }
    rewrite G. auto.
  - intros m. unfold postMessageRoute.
    destruct (truthy r) eqn:Tr; [|discriminate].
    destruct (truthy c) eqn:Tc; [|discriminate].
    destruct (truthy ty) eqn:Tt; [|discriminate]. simpl.
    destruct (createMessage _ _ _ db) as [[row db']|e] eqn:C; [|discriminate].
    simpl. intros [= <-].
    apply createMessage_row in C. destruct C as (Hm & _ & Hr & Hc & Ht).
    simpl in *. rewrite Hr, Hc, Ht.
    repeat split; try (apply textParam_truthy; assumption). exact Hm.
  - intros reqs. revert db.
    induction reqs as [|[env' req] reqs IH]; intros db F; simpl; [exact F|].
    apply IH, handle_keeps_content, F.
  - intros P U FK. unfold createMessage. simpl. rewrite P, U, FK. simpl.
    eexists; eexists. split; [reflexivity|]. simpl. apply textParam_string.
Qed.

(** The theorem at the sample store: the empty content, and a content. *)
Lemma postMessage_requires_content_witness :
  let db := @execAll stableEngine sampleOps emptyDB in
  response (@handle stableEngine Base sampleEnv
              (PostMessage "s1" (JString "user") (JString "") (JString "text")
                           JUndefined JUndefined JUndefined JUndefined) db)
  = statusJson 400 (ErrorJson "Missing required fields")
  /\ Forall hasContent
       (messages (@serve stableEngine Base
                    [(sampleEnv,
                      PostMessage "s1" (JString "user") (JString "hello")
                                  (JString "text")
                                  JUndefined JUndefined JUndefined JUndefined)]
                    db)).
Proof.
  intros db.
  destruct (@postMessage_requires_content stableEngine Base sampleEnv "s1"
              (JString "user") (JString "") (JString "text")
              JUndefined JUndefined JUndefined JUndefined db)
    as (R & _ & S & _).
  split.
  - apply R. right. left. right. right. reflexivity.
  - apply S. repeat constructor; discriminate.
Defined.

End ServerFacts.

(** ** Deleting a session in the server-backed dashboard *)
Module RemoteFacts.
Import Server Remote ServerFacts.

(** After a successful deletion the selection is the first session of the
    list cached before it, whichever session was selected and whichever was
    deleted. *)
Lemma onSuccess_selects_cached_head `{QueryEngine}
    (rev : Revision) (env : Env) (id : string) (st : State) (db : DB)
    (s0 : Session) (rest : list Session) :
  provisioned db = true ->
  Remote.sessions st = s0 :: rest ->
  currentSessionId (fst (deleteSessionMutation rev env id st db)) = session_id s0.
Proof.
  intros P E. unfold deleteSessionMutation. simpl.
  unfold deleteSessionRoute, Server.deleteSession. rewrite P. simpl.
  rewrite E. reflexivity.
Qed.

Definition sessionA : Session :=
  {| session_id := "A"; title := "Afternoon"; createdAt := 2 |}.

Definition sessionB : Session :=
  {| session_id := "B"; title := "Morning"; createdAt := 1 |}.

Definition twoSessions : DB :=
  {| provisioned := true; Server.sessions := [sessionB; sessionA];
     messages := [] |}.

(** C7, in the server-backed dashboard. With the sessions "A" (newer) and
    "B" listed and "B" selected, deleting "A" moves the selection to "A",
    the session just deleted, and it stays there once the list has been
    fetched again; deleting the selected "A" keeps "A" selected as well;
    and deleting the only session leaves the list empty, with no fresh
    session created. *)
Theorem deleteSessionMutation_selects_deleted_session :
  forall (rev : Revision) (env : Env),
    @deleteAndRefetch stableEngine rev env "A"
      {| Remote.sessions := [sessionA; sessionB]; currentSessionId := "B" |}
      twoSessions
    = ({| Remote.sessions := [sessionB]; currentSessionId := "A" |},
       {| provisioned := true; Server.sessions := [sessionB]; messages := [] |})
    /\ @deleteAndRefetch stableEngine rev env "A"
         {| Remote.sessions := [sessionA; sessionB]; currentSessionId := "A" |}
         twoSessions
       = ({| Remote.sessions := [sessionB]; currentSessionId := "A" |},
          {| provisioned := true; Server.sessions := [sessionB]; messages := [] |})
    /\ @deleteAndRefetch stableEngine rev env "B"
         {| Remote.sessions := [sessionB]; currentSessionId := "B" |}
         {| provisioned := true; Server.sessions := [sessionB]; messages := [] |}
       = ({| Remote.sessions := []; currentSessionId := "B" |},
          {| provisioned := true; Server.sessions := []; messages := [] |}).
Proof.
  intros rev env. destruct rev; repeat split.
Qed.

End RemoteFacts.

(** ** Further properties of the store and the routes *)
Module ServerExtras.
Import Server ServerFacts.

(** *** Keys *)

(** No two sessions and no two messages share an id. *)
Definition uniqueKeys (db : DB) : Prop :=
  NoDup (map session_id (sessions db)) /\ NoDup (map id (messages db)).

Lemma filter_keeps_distinct {Row : Type} (key : Row -> string)
    (keep : Row -> bool) (rows : list Row) :
  NoDup (map key rows) -> NoDup (map key (filter keep rows)).
Proof.
  intros N. induction rows as [|r rows IH]; simpl in *; [constructor|].
  inversion N as [|? ? Hn Hl]; subst.
  destruct (keep r); simpl; auto.
  constructor; auto.
  intros I. apply Hn. apply in_map_iff in I. destruct I as [x [E Hx]].
  apply filter_In in Hx. apply in_map_iff. exists x. tauto.
Qed.

Lemma NoDup_map_snoc {A} (f : A -> string) (l : list A) (a : A) :
  NoDup (map f l) ->
  existsb (fun x => String.eqb (f x) (f a)) l = false ->
  NoDup (map f (l ++ [a])).
Proof.
  intros N E. rewrite map_app. apply NoDup_app; auto.
  - simpl. constructor; [intros []|constructor].
  - intros k Hk [<- | []]. apply in_map_iff in Hk. destruct Hk as [x [Ex Hx]].
    assert (T : existsb (fun x => String.eqb (f x) (f a)) l = true).
    { apply existsb_exists. exists x. split; [exact Hx | apply String.eqb_eq, Ex]. }
    congruence.
Qed.

Section Keys.
Context `{QueryEngine}.

Lemma exec_uniqueKeys (op : StorageOp) (db : DB) :
  uniqueKeys db -> uniqueKeys (exec op db).
Proof.
  intros [Ns Nm]. destruct op as [u n t|i|i t|u n data|i|sid]; simpl.
  - unfold createSession.
    destruct (negb (provisioned db)); [split; assumption|].
    destruct (existsb _ (sessions db)) eqn:E; [split; assumption|]. simpl.
    split; [|exact Nm]. simpl. apply NoDup_map_snoc; assumption.
  - unfold deleteSession.
    destruct (negb (provisioned db)); [split; assumption|]. simpl.
    split; simpl; apply filter_keeps_distinct; assumption.
  - unfold updateSession.
    destruct (negb (provisioned db)); [split; assumption|]. simpl.
    split; [|exact Nm]. simpl. rewrite map_map.
    erewrite map_ext; [exact Ns|].
    intros s. simpl. destruct (String.eqb (session_id s) i); reflexivity.
  - unfold createMessage.
    destruct (negb (provisioned db)); [split; assumption|].
    destruct (isNullish _ || isNullish _ || isNullish _); [split; assumption|].
    destruct (existsb _ (messages db)) eqn:E; [split; assumption|].
    destruct (negb (existsb _ (sessions db))); [split; assumption|]. simpl.
    split; [exact Ns|]. simpl. apply NoDup_map_snoc; assumption.
  - unfold deleteMessage.
    destruct (negb (provisioned db)); [split; assumption|]. simpl.
    split; [exact Ns|]. simpl. apply filter_keeps_distinct; assumption.
  - unfold deleteMessagesBySession.
    destruct (negb (provisioned db)); [split; assumption|]. simpl.
    split; [exact Ns|]. simpl. apply filter_keeps_distinct; assumption.
Qed.

(** What a request does to the store is nothing, or one storage call. *)
Lemma handle_store_cases (rev : Revision) (env : Env) (req : Request) (db : DB) :
  store (handle rev env req db) = db
  \/ exists op, store (handle rev env req db) = exec op db.
Proof.
  destruct req as [|t|i|i|sid|sid r c ty iu idt m sc|f|idt m]; simpl.
  - left. unfold getSessionsRoute. destruct (getAllSessions db); [reflexivity|].
    destruct rev; reflexivity.
  - unfold postSessionRoute. destruct t as [| |b|n|s|]; auto.
    destruct (negb (truthy (JString s))); auto.
    right. exists (OpCreateSession (uuid env) (now env) s). simpl.
    destruct (createSession (uuid env) (now env) s db) as [[? ?]|?]; reflexivity.
  - left. unfold getSessionRoute. destruct (getSession i db) as [[?|]|?]; reflexivity.
  - right. exists (OpDeleteSession i). unfold deleteSessionRoute. simpl.
    destruct (deleteSession i db) as [[? ?]|?]; reflexivity.
  - left. unfold getMessagesRoute.
    destruct (getMessagesBySession sid db); reflexivity.
  - unfold postMessageRoute.
    destruct (negb (truthy r) || negb (truthy c) || negb (truthy ty)); auto.
    right.
    match goal with
    | |- context [createMessage ?u ?n ?d db] => exists (OpCreateMessage u n d)
    end.
    simpl. destruct (createMessage _ _ _ db) as [[? ?]|?]; reflexivity.
  - left. unfold postUploadRoute. destruct f; reflexivity.
  - left. destruct rev; [reflexivity|]. unfold postAnalyzeRoute.
    destruct (negb (truthy idt)); [reflexivity|].
    destruct idt as [| |b|n|s|]; try reflexivity.
    destruct (negb (JsString.startsWith s "data:image")); [reflexivity|].
    destruct (analyzeL2Screenshot env); reflexivity.
Qed.

Lemma serve_invariant (Inv : DB -> Prop) (rev : Revision) :
  (forall op db, Inv db -> Inv (exec op db)) ->
  forall reqs db, Inv db -> Inv (serve rev reqs db).
Proof.
  intros Step reqs. induction reqs as [|[env req] reqs IH]; intros db I; simpl.
  - exact I.
  - apply IH. destruct (handle_store_cases rev env req db) as [-> | [op ->]]; auto.
Qed.

End Keys.

(** X1. From a store in which ids are unique and every message references
    a session, every sequence of storage calls and every sequence of
    requests, in either revision of the routes, leads to such a store. *)
Theorem keys_stay_unique `{QueryEngine} :
  forall (db : DB) (ops : list StorageOp) (rev : Revision)
         (reqs : list (Env * Request)),
    uniqueKeys db ->
    referentialIntegrity db ->
    uniqueKeys (execAll ops db)
    /\ uniqueKeys (serve rev reqs db)
    /\ referentialIntegrity (serve rev reqs db).
Proof.
  intros db ops rev reqs U I. split; [|split].
  - revert db U I. unfold execAll.
    induction ops as [|op ops IH]; intros db U I; simpl; [exact U|].
    apply IH; [apply exec_uniqueKeys, U | apply exec_integrity, I].
  - apply serve_invariant; [apply exec_uniqueKeys | exact U].
  - apply serve_invariant; [apply exec_integrity | exact I].
Qed.

(** The theorem at the sample store and three requests. *)
Lemma keys_stay_unique_witness :
  uniqueKeys (@execAll stableEngine sampleOps emptyDB)
  /\ uniqueKeys
       (@serve stableEngine WithAnalysis
          [(sampleEnv, PostSession (JString "Morning"));
           (sampleEnv, PostSession (JString "Again"));
           (sampleEnv, DeleteSession "u1")]
          emptyDB).
Proof.
  assert (U : uniqueKeys emptyDB) by (split; constructor).
  split.
  - apply (@keys_stay_unique stableEngine emptyDB sampleOps Base [] U
             emptyDB_integrity).
  - apply (@keys_stay_unique stableEngine emptyDB [] WithAnalysis _ U
             emptyDB_integrity).
Defined.

(** *** Creating and reading sessions *)

Lemma filter_existsb_false {A} (p : A -> bool) (l : list A) :
  existsb p l = false -> filter p l = [].
Proof.
  induction l as [|a l IH]; simpl; [reflexivity|].
  destruct (p a); simpl; [discriminate | exact IH].
Qed.

Lemma filter_unique {A} (f : A -> string) (l : list A) (a : A) :
  NoDup (map f l) -> In a l ->
  filter (fun x => String.eqb (f x) (f a)) l = [a].
Proof.
  induction l as [|b l IH]; simpl; intros N I; [contradiction|].
  inversion N as [|? ? Hn Hl]; subst. destruct I as [-> | I].
  - rewrite String.eqb_refl. f_equal. apply filter_existsb_false.
    destruct (existsb _ l) eqn:E; [|reflexivity].
    apply existsb_exists in E. destruct E as [x [Hx Ex]].
    apply String.eqb_eq in Ex. exfalso. apply Hn. rewrite <- Ex.
    apply in_map, Hx.
  - destruct (String.eqb (f b) (f a)) eqn:E.
    + apply String.eqb_eq in E. exfalso. apply Hn. rewrite E. apply in_map, I.
    + apply IH; assumption.
Qed.

(** X2. Creating a session is refused with status 400, the store left as
    it was, unless the title is a non-empty string. With such a title, a
    provisioned store and an id not yet taken, the session is appended with
    that title, the id and the clock of the environment; reading it back by
    its id answers exactly that session, and reading any other id answers
    as before. With the id taken the answer is status 500 and the store is
    left as it was. *)
Theorem postSession_then_getSession `{QueryEngine} :
  forall (rev : Revision) (env env' : Env) (t : JValue) (db : DB),
    let out := handle rev env (PostSession t) db in
    ((forall s, t = JString s -> s = "") ->
     response out = statusJson 400 (ErrorJson "Title is required")
     /\ store out = db)
    /\ (forall s,
          t = JString s -> s <> "" -> provisioned db = true ->
          let row := {| session_id := uuid env; title := s;
                        createdAt := now env |} in
          (existsb (fun x => String.eqb (session_id x) (uuid env)) (sessions db)
           = false ->
           response out = json (SessionJson row)
           /\ sessions (store out) = sessions db ++ [row]
           /\ messages (store out) = messages db
           /\ response (handle rev env' (GetSession (uuid env)) (store out))
              = json (SessionJson row)
           /\ (forall other, other <> uuid env ->
                 response (handle rev env' (GetSession other) (store out))
                 = response (handle rev env' (GetSession other) db)))
          /\ (existsb (fun x => String.eqb (session_id x) (uuid env)) (sessions db)
              = true ->
              response out = statusJson 500 (ErrorJson "Failed to create session")
              /\ store out = db)).
Proof.
  intros rev env env' t db out. subst out. simpl. split.
  - intros E. unfold postSessionRoute. destruct t as [| |b|n|s|]; auto.
    rewrite (E s eq_refl). auto.
  - intros s -> Ns P. unfold postSessionRoute, createSession.
    assert (T : truthy (JString s) = true).
    { simpl. unfold JsString.truthy. apply negb_true_iff, String.eqb_neq, Ns. }
    rewrite T, P. simpl. split.
    + intros E. rewrite E. simpl. repeat split.
      * unfold getSessionRoute, getSession. simpl. rewrite ?P. simpl.
        rewrite filter_app, (filter_existsb_false _ _ E). simpl.
        rewrite String.eqb_refl. reflexivity.
      * intros other N. unfold getSessionRoute, getSession. simpl. rewrite ?P.
        simpl. rewrite filter_app. simpl.
        apply not_eq_sym, String.eqb_neq in N. rewrite N, app_nil_r.
        destruct (hd_error _); reflexivity.
    + intros E. rewrite E. simpl. auto.
Qed.

(** The theorem at the empty store. *)
Lemma postSession_then_getSession_witness :
  response (@handle stableEngine Base sampleEnv
              (GetSession "u1")
              (store (@handle stableEngine Base sampleEnv
                        (PostSession (JString "Morning")) emptyDB)))
  = json (SessionJson {| session_id := "u1"; title := "Morning";
                         createdAt := 100 |})
  /\ response (@handle stableEngine Base sampleEnv (PostSession (JNumber 7)) emptyDB)
     = statusJson 400 (ErrorJson "Title is required").
Proof.
  destruct (@postSession_then_getSession stableEngine Base sampleEnv sampleEnv
              (JString "Morning") emptyDB) as [_ C].
  destruct (C "Morning" eq_refl) as [C1 _]; [discriminate | reflexivity |].
  destruct (C1 eq_refl) as (_ & _ & _ & G & _).
  destruct (@postSession_then_getSession stableEngine Base sampleEnv sampleEnv
              (JNumber 7) emptyDB) as [V _].
  split; [exact G|]. apply V. discriminate.
Defined.

(** X3. Reading a session by id on a provisioned store answers status 404
    exactly when no session has that id; otherwise it answers status 200
    with a stored session of that id, and with unique ids with the one
    session of that id. The store is left as it was. *)
Theorem getSession_found_or_404 `{QueryEngine} :
  forall (rev : Revision) (env : Env) (i : string) (db : DB),
    provisioned db = true ->
    let out := handle rev env (GetSession i) db in
    store out = db
    /\ (status (response out) = 404 <->
        forall s, In s (sessions db) -> session_id s <> i)
    /\ (status (response out) <> 404 ->
        exists s, response out = json (SessionJson s)
                  /\ In s (sessions db) /\ session_id s = i)
    /\ (uniqueKeys db ->
        forall s, In s (sessions db) -> session_id s = i ->
                  response out = json (SessionJson s)).
Proof.
  intros rev env i db P out. subst out. simpl.
  unfold getSessionRoute, getSession. rewrite P. simpl.
  destruct (filter (fun s => String.eqb (session_id s) i) (sessions db))
    as [|s0 rest] eqn:F; simpl.
  - split; [reflexivity|]. split; [|split].
    + split; [|reflexivity]. intros _ s Hs E.
      assert (I : In s (filter (fun s => String.eqb (session_id s) i) (sessions db))).
      { apply filter_In. split; [exact Hs | apply String.eqb_eq, E]. }
      rewrite F in I. exact I.
    + intros N. contradiction.
    + intros _ s Hs E.
      assert (I : In s (filter (fun s => String.eqb (session_id s) i) (sessions db))).
      { apply filter_In. split; [exact Hs | apply String.eqb_eq, E]. }
      rewrite F in I. contradiction.
  - assert (I0 : In s0 (sessions db) /\ session_id s0 = i).
    { assert (I : In s0 (filter (fun s => String.eqb (session_id s) i) (sessions db)))
        by (rewrite F; left; reflexivity).
      apply filter_In in I. destruct I as [I E]. apply String.eqb_eq in E. auto. }
    split; [reflexivity|]. split; [|split].
    + split; [discriminate|]. intros N. exfalso. apply (N s0); apply I0.
    + intros _. exists s0. tauto.
    + intros [U _] s Hs E. subst i.
      rewrite (filter_unique session_id _ s U Hs) in F.
      injection F as <- _. reflexivity.
Qed.

(** The theorem at the sample store. *)
Lemma getSession_found_or_404_witness :
  status (response (@handle stableEngine Base sampleEnv (GetSession "nobody")
                      (@execAll stableEngine sampleOps emptyDB)))
  = 404
  /\ status (response (@handle stableEngine Base sampleEnv (GetSession "s2")
                         (@execAll stableEngine sampleOps emptyDB)))
     <> 404.
Proof.
  destruct (@getSession_found_or_404 stableEngine Base sampleEnv "nobody"
              (@execAll stableEngine sampleOps emptyDB) eq_refl)
    as (_ & [_ N] & _).
  destruct (@getSession_found_or_404 stableEngine Base sampleEnv "s2"
              (@execAll stableEngine sampleOps emptyDB) eq_refl)
    as (_ & [F _] & _).
  split.
  - apply N. intros s Hs E. vm_compute in Hs.
    destruct Hs as [<- | [<- | []]]; discriminate E.
  - intros E.
    apply (F E {| session_id := "s2"; title := "Afternoon"; createdAt := 2 |}).
    + vm_compute. auto.
    + reflexivity.
Defined.

(** X4. Listing the sessions of a provisioned store answers, in either
    revision of the routes, status 200 with every stored session exactly
    once, newest first, and leaves the store as it was. *)
Theorem getSessions_newest_first `{QueryEngine} :
  forall (rev : Revision) (env : Env) (db : DB),
    provisioned db = true ->
    exists rows,
      response (handle rev env GetSessions db) = json (SessionsJson rows)
      /\ store (handle rev env GetSessions db) = db
      /\ StronglySorted (fun a b => createdAt b <= createdAt a) rows
      /\ Permutation (sessions db) rows.
Proof.
  intros rev env db P. simpl. unfold getSessionsRoute, getAllSessions.
  rewrite P. simpl. eexists. split; [reflexivity|]. split; [reflexivity|].
  split.
  - exact (orderBy_Sorted Session createdAt Desc _).
  - apply orderBy_Permutation.
Qed.

(** The theorem at the sample store. *)
Lemma getSessions_newest_first_witness :
  exists rows,
    response (@handle stableEngine Base sampleEnv GetSessions
                (@execAll stableEngine sampleOps emptyDB))
    = json (SessionsJson rows)
    /\ map session_id rows = ["s2"; "s1"].
Proof.
  destruct (@getSessions_newest_first stableEngine Base sampleEnv
              (@execAll stableEngine sampleOps emptyDB) eq_refl)
    as [rows [E _]].
  exists rows. split; [exact E|].
  vm_compute in E. injection E as <-. reflexivity.
Defined.

(** *** Renaming a session *)

(** X5. Renaming a session on a provisioned store changes titles only: the
    ids, the creation times and the order of the sessions and all messages
    stay, the sessions of that id carry the new title and the others their
    old one. The call yields no session exactly when none has that id, and
    otherwise a session of that id with the new title, the one a lookup by
    that id yields afterwards. *)
Theorem updateSession_renames_only `{QueryEngine} :
  forall (i newTitle : string) (db : DB),
    provisioned db = true ->
    exists r db',
      updateSession i newTitle db = Ok (r, db')
      /\ messages db' = messages db
      /\ map session_id (sessions db') = map session_id (sessions db)
      /\ map createdAt (sessions db') = map createdAt (sessions db)
      /\ (forall s, In s (sessions db') ->
                    (session_id s = i -> title s = newTitle)
                    /\ (session_id s <> i -> In s (sessions db)))
      /\ (r = None <-> forall s, In s (sessions db) -> session_id s <> i)
      /\ (forall s, r = Some s -> session_id s = i /\ title s = newTitle)
      /\ getSession i db' = Ok r.
Proof.
  intros i newTitle db P. unfold updateSession, getSession. rewrite P. simpl.
  set (upd := fun s => if String.eqb (session_id s) i
                       then {| session_id := session_id s; title := newTitle;
                               createdAt := createdAt s |}
                       else s).
  assert (Ki : forall s, session_id (upd s) = session_id s).
  { intros s. unfold upd. destruct (String.eqb (session_id s) i); reflexivity. }
  eexists; eexists. split; [reflexivity|]. simpl.
  split; [reflexivity|]. split; [|split; [|split; [|split; [|split]]]].
  - rewrite map_map. apply map_ext, Ki.
  - rewrite map_map. apply map_ext. intros s. unfold upd.
    destruct (String.eqb (session_id s) i); reflexivity.
  - intros s Hs. apply in_map_iff in Hs. destruct Hs as [x [<- Hx]].
    unfold upd. destruct (String.eqb (session_id x) i) eqn:E; simpl.
    + split; [reflexivity|]. apply String.eqb_eq in E. contradiction.
    + split; [|auto]. apply String.eqb_neq in E. contradiction.
  - destruct (filter _ (map upd (sessions db))) as [|s0 rest] eqn:F; simpl.
    + split; [|reflexivity]. intros _ s Hs E.
      assert (I : In (upd s) (filter (fun s => String.eqb (session_id s) i)
                                     (map upd (sessions db)))).
      { apply filter_In. split; [apply in_map, Hs|].
        rewrite Ki. apply String.eqb_eq, E. }
      rewrite F in I. exact I.
    + split; [discriminate|]. intros N. exfalso.
      assert (I : In s0 (filter (fun s => String.eqb (session_id s) i)
                                (map upd (sessions db))))
        by (rewrite F; left; reflexivity).
      apply filter_In in I. destruct I as [I E].
      apply in_map_iff in I. destruct I as [x [<- Hx]].
      rewrite Ki in E. apply String.eqb_eq in E. exact (N x Hx E).
  - intros s E.
    destruct (filter _ (map upd (sessions db))) as [|s0 rest] eqn:F;
      simpl in E; [discriminate|]. injection E as ->.
    assert (I : In s (filter (fun s => String.eqb (session_id s) i)
                             (map upd (sessions db))))
      by (rewrite F; left; reflexivity).
    apply filter_In in I. destruct I as [I E].
    apply in_map_iff in I. destruct I as [x [<- Hx]].
    rewrite Ki in E. split; [apply String.eqb_eq; rewrite Ki; exact E|].
    unfold upd. rewrite E. reflexivity.
  - reflexivity.
Qed.

(** The theorem at the sample store. *)
Lemma updateSession_renames_only_witness :
  exists db',
    updateSession "s1" "Open" (@execAll stableEngine sampleOps emptyDB)
    = Ok (Some {| session_id := "s1"; title := "Open"; createdAt := 1 |}, db')
    /\ map title (sessions db') = ["Open"; "Afternoon"].
Proof.
  destruct (@updateSession_renames_only stableEngine "s1" "Open"
              (@execAll stableEngine sampleOps emptyDB) eq_refl)
    as (r & db' & E & _).
  vm_compute in E. injection E as <- <-.
  eexists. split; reflexivity.
Defined.

(** *** Deleting messages *)

Lemma filter_filter_none {A} (p : A -> bool) (l : list A) :
  filter p (filter (fun x => negb (p x)) l) = [].
Proof.
  induction l as [|a l IH]; simpl; [reflexivity|].
  destruct (p a) eqn:E; simpl; [exact IH|]. rewrite E. exact IH.
Qed.

Lemma filter_filter_other {A} (p q : A -> bool) (l : list A) :
  (forall x, q x = true -> p x = false) ->
  filter q (filter (fun x => negb (p x)) l) = filter q l.
Proof.
  intros D. induction l as [|a l IH]; simpl; [reflexivity|].
  destruct (p a) eqn:E; simpl.
  - destruct (q a) eqn:Q; [|exact IH]. rewrite (D a Q) in E. discriminate E.
  - rewrite IH. reflexivity.
Qed.

(** X6. Clearing the messages of a session on a provisioned store keeps
    every session, that one included, empties the listing of that
    session's messages and leaves the listing of every other session as it
    was. Deleting one message by id leaves no message of that id and keeps
    all the others in their order. *)
Theorem deleteMessages_keep_the_rest `{QueryEngine} :
  forall (sid mid : string) (db : DB),
    provisioned db = true ->
    (exists db',
        deleteMessagesBySession sid db = Ok (tt, db')
        /\ sessions db' = sessions db
        /\ getMessagesBySession sid db' = Ok []
        /\ (forall other, other <> sid ->
              getMessagesBySession other db' = getMessagesBySession other db))
    /\ (exists db',
           deleteMessage mid db = Ok (tt, db')
           /\ sessions db' = sessions db
           /\ messages db'
              = filter (fun m => negb (String.eqb (id m) mid)) (messages db)
           /\ (forall m, In m (messages db') -> id m <> mid)
           /\ (forall m, In m (messages db) -> id m <> mid ->
                         In m (messages db'))).
Proof.
  intros sid mid db P. split.
  - unfold deleteMessagesBySession, getMessagesBySession. rewrite P. simpl.
    eexists. split; [reflexivity|]. simpl. rewrite P. simpl.
    split; [reflexivity|]. split.
    + rewrite (filter_filter_none (fun m => String.eqb (sessionId m) sid)).
      rewrite orderBy_nil. reflexivity.
    + intros other N. rewrite filter_filter_other; [reflexivity|].
      intros m Q. apply String.eqb_eq in Q. apply String.eqb_neq. congruence.
  - unfold deleteMessage. rewrite P. simpl.
    eexists. split; [reflexivity|]. simpl.
    split; [reflexivity|]. split; [reflexivity|]. split.
    + intros m Hm. apply filter_In in Hm. destruct Hm as [_ K].
      apply negb_true_iff, String.eqb_neq in K. exact K.
    + intros m Hm N. apply filter_In. split; [exact Hm|].
      apply negb_true_iff, String.eqb_neq, N.
Qed.

(** The theorem at the sample store. *)
Lemma deleteMessages_keep_the_rest_witness :
  exists db',
    deleteMessagesBySession "s1" (@execAll stableEngine sampleOps emptyDB)
    = Ok (tt, db')
    /\ map id (messages db') = ["m3"]
    /\ map session_id (sessions db') = ["s1"; "s2"].
Proof.
  destruct (@deleteMessages_keep_the_rest stableEngine "s1" "m1"
              (@execAll stableEngine sampleOps emptyDB) eq_refl)
    as [(db' & E & _) _].
  exists db'. split; [exact E|].
  vm_compute in E. injection E as <-. split; reflexivity.
Defined.

(** *** Posting messages *)

(** X7. A message created through the API carries the session of the
    path, the id and the clock of the environment and, as role, content and
    type, the strings of the body; it is appended to the store and is then
    found in the listing of its session, which has grown by one, while the
    listing of every other session is as before. *)
Theorem postMessage_then_getMessages `{QueryEngine} :
  forall (rev : Revision) (env env' : Env) (sid r c ty : string)
         (iu idt mo sc : JValue) (db : DB) (m : Message),
    response (handle rev env
                (PostMessage sid (JString r) (JString c) (JString ty)
                             iu idt mo sc) db)
    = json (MessageJson m) ->
    let db' := store (handle rev env
                        (PostMessage sid (JString r) (JString c) (JString ty)
                                     iu idt mo sc) db) in
    (sessionId m = sid /\ id m = uuid env /\ timestamp m = now env
     /\ role m = r /\ content m = c /\ type m = ty)
    /\ messages db' = messages db ++ [m]
    /\ sessions db' = sessions db
    /\ (exists before after,
          getMessagesBySession sid db = Ok before
          /\ response (handle rev env' (GetMessages sid) db')
             = json (MessagesJson after)
          /\ In m after
          /\ List.length after = S (List.length before))
    /\ (forall other, other <> sid ->
          response (handle rev env' (GetMessages other) db')
          = response (handle rev env' (GetMessages other) db)).
Proof.
  intros rev env env' sid r c ty iu idt mo sc db m. simpl.
  unfold postMessageRoute.
  destruct (negb (truthy (JString r)) || negb (truthy (JString c))
            || negb (truthy (JString ty))); [discriminate|].
  unfold createMessage.
  destruct (provisioned db) eqn:P; simpl; [|discriminate].
  destruct (existsb _ (messages db)); [discriminate|].
  destruct (negb (existsb _ (sessions db))); [discriminate|].
  simpl. intros [= <-]. simpl.
  rewrite !textParam_string.
  split; [auto 10|]. split; [reflexivity|]. split; [reflexivity|].
  unfold getMessagesRoute, getMessagesBySession. simpl. rewrite P. simpl.
  split.
  - eexists; eexists. split; [reflexivity|]. split; [reflexivity|].
    rewrite filter_app. simpl. rewrite String.eqb_refl.
    match goal with
    | |- In ?row (orderBy _ _ _ (?l ++ _)) /\ _ =>
        pose proof (orderBy_Permutation Message timestamp Asc (l ++ [row])) as Pa;
        pose proof (orderBy_Permutation Message timestamp Asc l) as Pb
    end.
    split.
    + eapply Permutation_in; [exact Pa|]. apply in_or_app. right. left. reflexivity.
    + rewrite <- (Permutation_length Pa), <- (Permutation_length Pb).
      rewrite length_app. simpl. lia.
  - intros other N. rewrite filter_app. simpl.
    apply not_eq_sym, String.eqb_neq in N. rewrite N, app_nil_r. reflexivity.
Qed.

(** The theorem at the sample store. *)
Lemma postMessage_then_getMessages_witness :
  exists m,
    response (@handle stableEngine Base sampleEnv
                (PostMessage "s2" (JString "user") (JString "hello")
                             (JString "text")
                             JUndefined JUndefined JUndefined JUndefined)
                (@execAll stableEngine sampleOps emptyDB))
    = json (MessageJson m)
    /\ content m = "hello" /\ sessionId m = "s2".
Proof.
  eexists. split; [reflexivity|].
  destruct (@postMessage_then_getMessages stableEngine Base sampleEnv sampleEnv
              "s2" "user" "hello" "text"
              JUndefined JUndefined JUndefined JUndefined
              (@execAll stableEngine sampleOps emptyDB) _ eq_refl)
    as ((Es & _ & _ & _ & Ec & _) & _).
  split; [exact Ec | exact Es].
Defined.

(** X8. Posting a message, with its three required fields present, to a
    session that the provisioned store does not hold is answered with
    status 500, not 404, and the store is left as it was; with an id not
    yet taken the error caught is the violated foreign key. *)
Theorem postMessage_to_missing_session `{QueryEngine} :
  forall (rev : Revision) (env : Env) (sid : string)
         (r c ty iu idt mo sc : JValue) (db : DB),
    provisioned db = true ->
    truthy r = true -> truthy c = true -> truthy ty = true ->
    (forall s, In s (sessions db) -> session_id s <> sid) ->
    let out := handle rev env (PostMessage sid r c ty iu idt mo sc) db in
    response out = statusJson 500 (ErrorJson "Failed to create message")
    /\ store out = db
    /\ (existsb (fun m => String.eqb (id m) (uuid env)) (messages db) = false ->
        logged out = Some ("Error creating message:", DbThrown ForeignKeyViolation)).
Proof.
  intros rev env sid r c ty iu idt mo sc db P Tr Tc Tt N out. subst out. simpl.
  unfold postMessageRoute, createMessage. rewrite Tr, Tc, Tt, P. simpl.
  assert (Nr : isNullish r = false) by (destruct r; simpl in *; congruence).
  assert (Nc : isNullish c = false) by (destruct c; simpl in *; congruence).
  assert (Nt : isNullish ty = false) by (destruct ty; simpl in *; congruence).
  rewrite Nr, Nc, Nt. simpl.
  assert (FK : existsb (fun s => String.eqb (session_id s) sid) (sessions db)
               = false).
  { destruct (existsb _ (sessions db)) eqn:E; [|reflexivity].
    apply existsb_exists in E. destruct E as [s [Hs E]].
    apply String.eqb_eq in E. exfalso. exact (N s Hs E). }
  rewrite FK. simpl.
  destruct (existsb _ (messages db)); simpl; repeat split; auto. discriminate.
Qed.

(** The theorem at the sample store. *)
Lemma postMessage_to_missing_session_witness :
  response (@handle stableEngine Base sampleEnv
              (PostMessage "gone" (JString "user") (JString "hello")
                           (JString "text")
                           JUndefined JUndefined JUndefined JUndefined)
              (@execAll stableEngine sampleOps emptyDB))
  = statusJson 500 (ErrorJson "Failed to create message").
Proof.
  apply (@postMessage_to_missing_session stableEngine Base sampleEnv "gone"
           (JString "user") (JString "hello") (JString "text")
           JUndefined JUndefined JUndefined JUndefined
           (@execAll stableEngine sampleOps emptyDB)
           eq_refl eq_refl eq_refl eq_refl).
  intros s Hs E. vm_compute in Hs.
  destruct Hs as [<- | [<- | []]]; discriminate E.
Defined.

(** *** What a request leaves alone *)

(** X9. A request changes the store only when it is answered with status
    200: after any other answer the store is as it was. The reading
    routes, the upload and the analysis never change it, and no request
    changes whether the store is provisioned. *)
Theorem only_status_200_changes_the_store `{QueryEngine} :
  forall (rev : Revision) (env : Env) (req : Request) (db : DB),
    let out := handle rev env req db in
    (status (response out) <> 200 -> store out = db)
    /\ (match req with
        | GetSessions | GetSession _ | GetMessages _
        | PostUpload _ | PostAnalyze _ _ => store out = db
        | _ => True
        end)
    /\ provisioned (store out) = provisioned db.
Proof.
  intros rev env req db out. subst out.
  destruct req as [|t|i|i|sid|sid r c ty iu idt m sc|f|idt m]; simpl.
  - unfold getSessionsRoute. destruct (getAllSessions db); [auto|].
    destruct rev; auto.
  - unfold postSessionRoute. destruct t as [| |b|n|s|]; auto.
    destruct (negb (truthy (JString s))); auto.
    unfold createSession. destruct (negb (provisioned db)); auto.
    destruct (existsb _ (sessions db)); simpl; auto.
    split; [intros N; contradiction | auto].
  - unfold getSessionRoute. destruct (getSession i db) as [[?|]|?]; auto.
  - unfold deleteSessionRoute, deleteSession.
    destruct (negb (provisioned db)); simpl; auto.
    split; [intros N; contradiction | auto].
  - unfold getMessagesRoute. destruct (getMessagesBySession sid db); auto.
  - unfold postMessageRoute.
    destruct (negb (truthy r) || negb (truthy c) || negb (truthy ty)); auto.
    unfold createMessage. destruct (negb (provisioned db)); auto.
    destruct (isNullish _ || isNullish _ || isNullish _); auto.
    destruct (existsb _ (messages db)); auto.
    destruct (negb (existsb _ (sessions db))); simpl; auto.
    split; [intros N; contradiction | auto].
  - unfold postUploadRoute. destruct f; auto.
  - destruct rev; auto. unfold postAnalyzeRoute.
    destruct (negb (truthy idt)); auto.
    destruct idt as [| |b|n|s|]; auto.
    destruct (negb (JsString.startsWith s "data:image")); auto.
    destruct (analyzeL2Screenshot env); auto.
Qed.

(** The theorem at a refused request. *)
Lemma only_status_200_changes_the_store_witness :
  store (@handle stableEngine Base sampleEnv (PostSession JNull)
           (@execAll stableEngine sampleOps emptyDB))
  = @execAll stableEngine sampleOps emptyDB.
Proof.
  destruct (@only_status_200_changes_the_store stableEngine Base sampleEnv
              (PostSession JNull) (@execAll stableEngine sampleOps emptyDB))
    as [S _].
  apply S. discriminate.
Defined.

(** *** Upload and analysis *)

(** [c] is one of the characters of [k]. *)
Fixpoint mentions (c : ascii) (k : string) : bool :=
  match k with
  | EmptyString => false
  | String a k' => Ascii.eqb a c || mentions c k'
  end.

(** A prefix test for [k] cannot reach past a character that [k] lacks. *)
Lemma startsWith_stops (k : string) (c : ascii) :
  mentions c k = false ->
  forall mt rest,
    JsString.startsWith (mt ++ String c rest)%string k = JsString.startsWith mt k.
Proof.
  induction k as [|a k IH]; intros M mt rest.
  - destruct mt; reflexivity.
  - simpl in M. apply orb_false_iff in M. destruct M as [Ma Mk].
    destruct mt as [|b mt]; simpl.
    + rewrite Ma. reflexivity.
    + rewrite IH by exact Mk. reflexivity.
Qed.

(** X10. An uploaded file is answered with its name and with the data URL
    made of its media type and its base64 content. Handed to the analysis
    route, that URL passes the image check exactly when the media type
    starts with "image": then the answer is the model's, and otherwise it
    is status 400. *)
Theorem upload_url_passes_image_check `{QueryEngine} :
  forall (env env' : Env) (f : File) (mode : JValue) (db : DB),
    let url := ("data:" ++ mimetype f ++ ";base64," ++ base64 f)%string in
    response (handle WithAnalysis env (PostUpload (Some f)) db)
    = json (UploadJson url (originalname f))
    /\ (JsString.startsWith (mimetype f) "image" = true ->
        response (handle WithAnalysis env' (PostAnalyze (JString url) mode) db)
        = match analyzeL2Screenshot env' with
          | inr text => json (AnalysisJson text)
          | inl _ => statusJson 500 (ErrorJson "Failed to analyze screenshot")
          end)
    /\ (JsString.startsWith (mimetype f) "image" = false ->
        response (handle WithAnalysis env' (PostAnalyze (JString url) mode) db)
        = statusJson 400 (ErrorJson "Valid image data required")).
Proof.
  intros env env' f mode db url. split; [reflexivity|].
  assert (S : JsString.startsWith url "data:image"
              = JsString.startsWith (mimetype f) "image").
  { subst url. cbn -[JsString.startsWith String.append].
    change (JsString.startsWith ("data:" ++ mimetype f ++ ";base64," ++ base64 f)%string
                                "data:image")
      with (JsString.startsWith (mimetype f ++ String ";" ("base64," ++ base64 f))%string
                                "image").
    apply startsWith_stops. reflexivity. }
  assert (T : truthy (JString url) = true) by reflexivity.
  clearbody url. cbn [handle]. unfold postAnalyzeRoute. rewrite T, S.
  split; intros ->; simpl; [|reflexivity].
  destruct (analyzeL2Screenshot env'); reflexivity.
Qed.

Definition samplePng : File :=
  {| mimetype := "image/png"; originalname := "l2.png"; base64 := "iVBORw0KGgo=" |}.

Definition samplePdf : File :=
  {| mimetype := "application/pdf"; originalname := "l2.pdf"; base64 := "JVBERi0=" |}.

(** The theorem at a picture and at a document. *)
Lemma upload_url_passes_image_check_witness :
  status (response
            (@handle stableEngine WithAnalysis sampleEnv
               (PostAnalyze (JString "data:image/png;base64,iVBORw0KGgo=") JUndefined)
               emptyDB))
  = 500
  /\ status (response
               (@handle stableEngine WithAnalysis sampleEnv
                  (PostAnalyze (JString "data:application/pdf;base64,JVBERi0=")
                               JUndefined)
                  emptyDB))
     = 400.
Proof.
  destruct (@upload_url_passes_image_check stableEngine sampleEnv sampleEnv
              samplePng JUndefined emptyDB) as (_ & A & _).
  destruct (@upload_url_passes_image_check stableEngine sampleEnv sampleEnv
              samplePdf JUndefined emptyDB) as (_ & _ & B).
  split.
  - exact (f_equal status (A eq_refl)).
  - exact (f_equal status (B eq_refl)).
Defined.



(** *** Deleting twice *)

(** X12. Deleting a session is idempotent: a second deletion of the same
    id, through the storage call or through the route, leaves the store as
    the first one left it, and the route answers it like the first. *)
Theorem deleteSession_idempotent `{QueryEngine} :
  forall (rev : Revision) (env env' : Env) (i : string) (db : DB),
    let once := handle rev env (DeleteSession i) db in
    let twice := handle rev env' (DeleteSession i) (store once) in
    store twice = store once
    /\ response twice = response once
    /\ exec (OpDeleteSession i) (exec (OpDeleteSession i) db)
       = exec (OpDeleteSession i) db.
Proof.
  intros rev env env' i db once twice. subst once twice. simpl.
  unfold deleteSessionRoute, deleteSession.
  destruct (provisioned db) eqn:P; simpl; rewrite ?P; simpl; [|auto].
  assert (E : deleteFromSessions (fun s => String.eqb (session_id s) i)
                (deleteFromSessions (fun s => String.eqb (session_id s) i) db)
              = deleteFromSessions (fun s => String.eqb (session_id s) i) db).
  { unfold deleteFromSessions. simpl.
    rewrite (filter_filter_none (fun s => String.eqb (session_id s) i)). simpl.
    rewrite (filter_all (fun s => negb (String.eqb (session_id s) i))).
    - rewrite (filter_all (fun _ => negb false)) by reflexivity. reflexivity.
    - intros s Hs. apply filter_In in Hs. apply Hs. }
  rewrite E. auto.
Qed.

End ServerExtras.

(** ** Further properties of the client-local dashboard *)
Module LocalExtras.
Import JsString Local LocalFacts.

Lemma append_assoc (a b c : string) :
  ((a ++ b) ++ c = a ++ (b ++ c))%string.
Proof. induction a as [|x a IH]; simpl; [reflexivity | rewrite IH; reflexivity]. Qed.

Lemma append_nil_r (a : string) : (a ++ "" = a)%string.
Proof. induction a as [|x a IH]; simpl; [reflexivity | rewrite IH; reflexivity]. Qed.

(** *** Copying the last read *)

Definition isCoach (m : Message) : bool :=
  match role m with
  | coach => true
  | user => false
  end.

Lemma find_split {A} (p : A -> bool) (l : list A) (m : A) :
  find p l = Some m ->
  exists a b, l = a ++ m :: b /\ p m = true /\ Forall (fun x => p x = false) a.
Proof.
  induction l as [|x l IH]; simpl; [discriminate|].
  destruct (p x) eqn:E.
  - intros [= <-]. exists [], l. auto.
  - intros F. destruct (IH F) as (a & b & -> & Pm & Fa).
    exists (x :: a), b. auto.
Qed.

(** X13. [copyLastMessage] copies nothing exactly when the log holds no
    coach message; otherwise it copies the content of the coach message
    after which the log holds user messages only. After an accepted
    submission whose reply has been delivered, that is the content of this
    reply. *)
Theorem copyLastMessage_copies_latest_reply :
  forall (st : State),
    (copyLastMessage st = None <->
     forall m, In m (messages st) -> role m = user)
    /\ (forall txt,
          copyLastMessage st = Some txt ->
          exists front m back,
            messages st = front ++ m :: back
            /\ role m = coach /\ content m = txt
            /\ Forall (fun x => role x = user) back)
    /\ (forall e t nows now',
          registers e st = Some t ->
          List.length nows = List.length (timers st) ->
          copyLastMessage (run (e :: map TimerFires (nows ++ [now'])) st)
          = Some (content (coachMsg t now'))).
Proof.
  intros st. unfold copyLastMessage, lastCoachMsg. fold isCoach.
  split; [|split].
  - destruct (find isCoach (rev (messages st))) as [m|] eqn:F.
    + split; [discriminate|]. intros U. exfalso.
      apply find_some in F. destruct F as [I C].
      apply in_rev in I. specialize (U m I). unfold isCoach in C.
      rewrite U in C. discriminate C.
    + split; [|reflexivity]. intros _ m I.
      apply in_rev in I. apply (find_none _ _ F) in I.
      unfold isCoach in I. destruct (role m); [reflexivity | discriminate I].
  - intros txt.
    destruct (find isCoach (rev (messages st))) as [m|] eqn:F; [|discriminate].
    intros [= <-]. apply find_split in F. destruct F as (a & b & E & C & Fa).
    exists (rev b), m, (rev a).
    split; [|split; [|split]].
    + rewrite <- (rev_involutive (messages st)), E, rev_app_distr. simpl.
      rewrite <- app_assoc. reflexivity.
    + unfold isCoach in C. destruct (role m); [discriminate C | reflexivity].
    + reflexivity.
    + apply Forall_rev. eapply Forall_impl; [|exact Fa].
      intros x Hx. unfold isCoach in Hx.
      destruct (role x); [reflexivity | discriminate Hx].
  - intros e t nows now' R L.
    destruct (turn_completes e st t nows now' R L) as [Tm _].
    rewrite Tm, !app_assoc, rev_app_distr. reflexivity.
Qed.

(** The theorem at the first render and at a finished turn. *)
Lemma copyLastMessage_copies_latest_reply_witness :
  copyLastMessage
    (run [Type_ "buyers?"; Send 10; TimerFires 1210] (initial 0))
  = Some buyerTemplate.
Proof.
  destruct (copyLastMessage_copies_latest_reply
              (step (Type_ "buyers?") (initial 0))) as (_ & _ & T).
  exact (T (Send 10) _ [] 1210 eq_refl eq_refl).
Defined.

(** *** The transcript *)

Section TranscriptFacts.
Variable toLocaleTimeString : Z -> string.

Let entry := transcriptEntry toLocaleTimeString.
Let transcript := fun l => join blankLine (map entry l).

Lemma join_cons (sep x : string) (l : list string) :
  l <> [] -> join sep (x :: l) = (x ++ sep ++ join sep l)%string.
Proof. destruct l; [contradiction | reflexivity]. Qed.

Lemma join_app (sep : string) (a b : list string) :
  a <> [] -> b <> [] ->
  join sep (a ++ b) = (join sep a ++ sep ++ join sep b)%string.
Proof.
  induction a as [|x a IH]; intros Na Nb; [contradiction|].
  destruct a as [|y a].
  - simpl app. rewrite join_cons by exact Nb. reflexivity.
  - change ((x :: y :: a) ++ b) with (x :: ((y :: a) ++ b)).
    rewrite !join_cons by discriminate.
    rewrite IH by (discriminate || exact Nb).
    rewrite !append_assoc. reflexivity.
Qed.

Lemma contains_middle (a b : string) (m : Message) :
  contains (a ++ entry m ++ b) (content m).
Proof.
  exists (a ++ "[" ++ toLocaleTimeString (timestamp m) ++ "] "
            ++ upperRole (role m) ++ ": ")%string, b.
  unfold entry, transcriptEntry. rewrite !append_assoc. reflexivity.
Qed.

(** X14. The transcript is the entries of the log's messages, in the order
    of the log, separated by a blank line and nothing else: for a message
    of the log it is the transcript of the messages before it, the entry of
    the message and the transcript of the messages after it. Hence the
    content of every message of the log occurs in the transcript, and the
    transcript is empty only for the empty log. *)
Theorem downloadTranscript_lists_every_message :
  forall (st : State) (front back : list Message) (m : Message),
    messages st = front ++ m :: back ->
    downloadTranscript toLocaleTimeString st
    = ((match front with
        | [] => ""
        | _ => transcript front ++ blankLine
        end)
       ++ entry m
       ++ (match back with
           | [] => ""
           | _ => blankLine ++ transcript back
           end))%string
    /\ contains (downloadTranscript toLocaleTimeString st) (content m)
    /\ downloadTranscript toLocaleTimeString st <> "".
Proof.
  intros st front back m E.
  assert (T : downloadTranscript toLocaleTimeString st
              = ((match front with
                  | [] => ""
                  | _ => transcript front ++ blankLine
                  end)
                 ++ entry m
                 ++ (match back with
                     | [] => ""
                     | _ => blankLine ++ transcript back
                     end))%string).
  { unfold downloadTranscript. rewrite E, map_app. simpl map.
    destruct front as [|f front], back as [|b back].
    - simpl. rewrite append_nil_r. reflexivity.
    - simpl app. rewrite join_cons by discriminate. reflexivity.
    - rewrite join_app by discriminate. simpl join at 2.
      rewrite append_nil_r, append_assoc. reflexivity.
    - rewrite join_app by discriminate.
      rewrite (join_cons _ (entry m)) by discriminate.
      rewrite !append_assoc. reflexivity. }
  split; [exact T|]. split.
  - rewrite T. apply contains_middle.
  - rewrite T. unfold transcript, entry, transcriptEntry.
    destruct front as [|f front]; [simpl; discriminate|].
    simpl map. destruct (map _ front); simpl; discriminate.
Qed.

End TranscriptFacts.

(** The theorem at a finished turn, times rendered as their number. *)
Lemma downloadTranscript_lists_every_message_witness :
  contains
    (downloadTranscript toString
       (run [Type_ "buyers?"; Send 10; TimerFires 1210] (initial 0)))
    "buyers?".
Proof.
  apply (downloadTranscript_lists_every_message toString
           (run [Type_ "buyers?"; Send 10; TimerFires 1210] (initial 0))
           [welcome 0] [coachMsg {| userMsg := textMsg 10 "buyers?";
                                    scenario := None; fullReview := false |} 1210]
           (textMsg 10 "buyers?") eq_refl).
Defined.

(** *** The typing indicator *)

Lemma saveEffect_isTyping (st : State) :
  isTyping (saveEffect st) = isTyping st /\ timers (saveEffect st) = timers st.
Proof. destruct (saveEffect_keeps st) as (_ & Ht & Hy & _). auto. Qed.

Lemma step_indicator (e : Event) (st : State) :
  (isTyping st = true -> timers st <> []) ->
  isTyping (step e st) = true -> timers (step e st) <> [].
Proof.
  intros I.
  destruct (registers e st) as [t|] eqn:R.
  - destruct (step_registers e st t R) as (_ & Ht & _).
    intros _. rewrite Ht. destruct (timers st); discriminate.
  - destruct e as [txt|b|now|now file|now sc|now|now ts|sid|now ts sid];
      simpl in *; try discriminate; try exact I.
    + unfold handleSend. destruct (truthy (trim (input st))); [discriminate|].
      exact I.
    + destruct file as [[? ?]|]; [discriminate | exact I].
    + unfold timerCallback. destruct (timers st) as [|t rest] eqn:E.
      * intros Y. specialize (I Y). congruence.
      * rewrite (proj1 (saveEffect_isTyping _)). simpl. discriminate.
    + rewrite (proj1 (saveEffect_isTyping _)), (proj2 (saveEffect_isTyping _)).
      exact I.
    + unfold switchSession.
      destruct (find _ (sessions st)); [|exact I].
      rewrite (proj1 (saveEffect_isTyping _)), (proj2 (saveEffect_isTyping _)).
      exact I.
    + unfold deleteSession.
      destruct (String.eqb (currentSessionId st) sid); [|exact I].
      rewrite (proj1 (saveEffect_isTyping _)), (proj2 (saveEffect_isTyping _)).
      destruct (filter _ (sessions st)) as [|s0 rest]; [exact I|].
      unfold switchSession. destruct (find _ (sessions st)); exact I.
Qed.

(** X15. From the first render on, whatever the user and the timers do,
    the typing indicator is shown only while a reply is pending. The
    converse fails: once the first of two pending replies has arrived the
    indicator is off although the second is still to come. *)
Theorem indicator_implies_pending_reply :
  forall (now0 : Z) (evs : list Event),
    (isTyping (run evs (initial now0)) = true ->
     timers (run evs (initial now0)) <> [])
    /\ (let st := run [Type_ "buyers?"; Send 1000; Type_ "sellers?"; Send 1001;
                       TimerFires 2200] (initial now0) in
        isTyping st = false /\ List.length (timers st) = 1%nat).
Proof.
  intros now0 evs. split; [|split; reflexivity].
  assert (G : forall st, (isTyping st = true -> timers st <> []) ->
                         isTyping (run evs st) = true -> timers (run evs st) <> []).
  { induction evs as [|e evs IH]; intros st I; simpl; [exact I|].
    apply IH. apply step_indicator, I. }
  apply G. simpl. discriminate.
Qed.

(** The theorem at a submission. *)
Lemma indicator_implies_pending_reply_witness :
  timers (run [Type_ "buyers?"; Send 1000] (initial 0)) <> [].
Proof.
  apply (indicator_implies_pending_reply 0 [Type_ "buyers?"; Send 1000]).
  reflexivity.
Defined.

(** *** Deleting the last session *)

Lemma saveEffect_session_ids (st : State) :
  map session_id (sessions (saveEffect st)) = map session_id (sessions st)
  /\ map createdAt (sessions (saveEffect st)) = map createdAt (sessions st).
Proof.
  unfold saveEffect.
  destruct (truthy (currentSessionId st) && _); [|auto]. simpl.
  rewrite !map_map. split; apply map_ext; intros s;
    destruct (String.eqb (session_id s) (currentSessionId st)); reflexivity.
Qed.

(** X16. Deleting the current session when every listed session has its
    id, so that none remains, creates a fresh session and selects it, but
    leaves the deleted sessions listed behind it: the list of ids
    afterwards is the fresh id followed by the ids of before. *)
Theorem deleting_the_last_session_relists_it :
  forall (st : State) (now : Z) (timeStr sid : string),
    currentSessionId st = sid ->
    (forall s, In s (sessions st) -> session_id s = sid) ->
    let st' := step (Delete now timeStr sid) st in
    currentSessionId st' = toString now
    /\ messages st' = [sessionWelcome now]
    /\ map session_id (sessions st')
       = toString now :: map session_id (sessions st).
Proof.
  intros st now timeStr sid C A st'. subst st'. simpl.
  rewrite C, String.eqb_refl. unfold deleteSession.
  rewrite C, String.eqb_refl.
  rewrite ServerFacts.filter_nil_of_none.
  - destruct (saveEffect_keeps
                (createNewSession st now timeStr
                   (setSessions [] st))) as (Hm & _ & _ & _ & _ & Hc).
    rewrite Hm, Hc, (proj1 (saveEffect_session_ids _)). simpl. auto.
  - intros s Hs. rewrite (A s Hs), String.eqb_refl. reflexivity.
Qed.

(** The theorem at a dashboard with one session. *)
Lemma deleting_the_last_session_relists_it_witness :
  map session_id
    (sessions (step (Delete 9 "09:00:04" "5")
                    (run [NewSession 5 "09:00:00"] (initial 0))))
  = ["9"; "5"].
Proof.
  apply (deleting_the_last_session_relists_it
           (run [NewSession 5 "09:00:00"] (initial 0)) 9 "09:00:04" "5" eq_refl).
  intros s [<- | []]. reflexivity.
Defined.

(** *** Sessions and their stored logs *)

(** The log that selecting the session [sid] would load. *)
Definition stored (sid : string) (st : State) : option (list Message) :=
  match find (fun s => String.eqb (session_id s) sid) (sessions st) with
  | Some s => Some (session_messages s)
  | None => None
  end.

(** Session ids are not empty, and the sessions that carry the current id
    hold the current log. *)
Definition coherent (st : State) : Prop :=
  Forall (fun s => session_id s <> "") (sessions st)
  /\ (forall s, In s (sessions st) ->
                session_id s = currentSessionId st ->
                session_messages s = messages st).

Lemma saveEffect_coherent (st : State) :
  Forall (fun s => session_id s <> "") (sessions st) ->
  coherent (saveEffect st).
Proof.
  intros N. unfold saveEffect.
  destruct (truthy (currentSessionId st)) eqn:T; simpl.
  - destruct (0 <? Z.of_nat (List.length (sessions st))) eqn:L; simpl.
    + split; simpl.
      * apply Forall_forall. intros s Hs. apply in_map_iff in Hs.
        destruct Hs as [x [<- Hx]]. rewrite Forall_forall in N.
        destruct (String.eqb (session_id x) (currentSessionId st));
          simpl; apply N, Hx.
      * intros s Hs E. apply in_map_iff in Hs. destruct Hs as [x [<- Hx]].
        destruct (String.eqb (session_id x) (currentSessionId st)) eqn:X;
          simpl in *; [reflexivity|].
        apply String.eqb_neq in X. contradiction.
    + destruct (sessions st) eqn:S;
        [|apply Z.ltb_ge in L; cbn [List.length] in L; lia].
      split; [rewrite S; constructor|]. rewrite S. intros s [].
  - split; [exact N|]. intros s Hs E.
    unfold truthy in T. apply negb_false_iff, String.eqb_eq in T.
    rewrite Forall_forall in N. exfalso. apply (N s Hs). congruence.
Qed.

Lemma Forall_filter_ids (p : Session -> bool) (l : list Session) :
  Forall (fun s => session_id s <> "") l ->
  Forall (fun s => session_id s <> "") (filter p l).
Proof.
  rewrite !Forall_forall. intros N s Hs. apply filter_In in Hs. apply N, Hs.
Qed.

Lemma step_coherent (e : Event) (st : State) :
  coherent st -> coherent (step e st).
Proof.
  intros [N S].
  destruct e as [txt|b|now|now file|now sc|now|now ts|sid|now ts sid]; simpl.
  - split; assumption.
  - split; assumption.
  - unfold handleSend. destruct (negb (truthy (trim (input st))));
      [split; assumption | apply saveEffect_coherent; exact N].
  - destruct file as [[name data]|]; [|split; assumption].
    apply saveEffect_coherent. exact N.
  - apply saveEffect_coherent. exact N.
  - unfold timerCallback. destruct (timers st); [split; assumption|].
    apply saveEffect_coherent. exact N.
  - apply saveEffect_coherent. simpl. constructor; [|exact N].
    simpl. apply ServerFacts.toString_nonempty.
  - unfold switchSession.
    destruct (find _ (sessions st)); [|split; assumption].
    apply saveEffect_coherent. exact N.
  - unfold deleteSession.
    destruct (String.eqb (currentSessionId st) sid) eqn:C.
    + apply saveEffect_coherent.
      destruct (filter _ (sessions st)) as [|s0 rest] eqn:F.
      * simpl. constructor; [|exact N]. simpl. apply ServerFacts.toString_nonempty.
      * unfold switchSession.
        destruct (find _ (sessions st)); simpl; rewrite <- F;
          apply Forall_filter_ids, N.
    + split; simpl.
      * apply Forall_filter_ids, N.
      * intros s Hs E. apply filter_In in Hs. apply S; [apply Hs | exact E].
Qed.

Lemma run_coherent (evs : list Event) :
  forall st, coherent st -> coherent (run evs st).
Proof.
  induction evs as [|e evs IH]; intros st C; simpl; [exact C|].
  apply IH, step_coherent, C.
Qed.

Lemma initial_coherent (now0 : Z) : coherent (initial now0).
Proof. split; [constructor | intros s []]. Qed.

Lemma find_map_ids (g : Session -> Session) (k : string) (l : list Session) :
  (forall s, session_id (g s) = session_id s) ->
  find (fun s => String.eqb (session_id s) k) (map g l)
  = option_map g (find (fun s => String.eqb (session_id s) k) l).
Proof.
  intros G. induction l as [|a l IH]; simpl; [reflexivity|].
  rewrite G. destruct (String.eqb (session_id a) k); [reflexivity | exact IH].
Qed.

Lemma stored_saveEffect_other (k : string) (st : State) :
  k <> currentSessionId st -> stored k (saveEffect st) = stored k st.
Proof.
  intros N. unfold stored, saveEffect.
  destruct (truthy (currentSessionId st) && _); [|reflexivity]. simpl.
  rewrite find_map_ids.
  - destruct (find _ (sessions st)) as [s|] eqn:F; [|reflexivity]. simpl.
    apply find_some in F. destruct F as [_ E]. apply String.eqb_eq in E.
    destruct (String.eqb (session_id s) (currentSessionId st)) eqn:X;
      [|reflexivity].
    apply String.eqb_eq in X. congruence.
  - intros s. destruct (String.eqb (session_id s) (currentSessionId st));
      reflexivity.
Qed.

Lemma stored_saveEffect_current (st : State) :
  currentSessionId st <> "" ->
  stored (currentSessionId st) st <> None ->
  stored (currentSessionId st) (saveEffect st) = Some (messages st).
Proof.
  intros N L. unfold stored in *. unfold saveEffect.
  assert (T : truthy (currentSessionId st) = true).
  { unfold truthy. apply negb_true_iff, String.eqb_neq, N. }
  rewrite T.
  destruct (sessions st) as [|s0 rest] eqn:S; [simpl in L; contradiction|].
  replace (0 <? Z.of_nat (List.length (s0 :: rest))) with true
    by (symmetry; apply Z.ltb_lt; simpl; lia).
  simpl andb. cbv iota. cbn [sessions setSessions].
  rewrite find_map_ids.
  - destruct (find _ (s0 :: rest)) as [s|] eqn:F; [|contradiction]. simpl.
    apply find_some in F. destruct F as [_ E]. rewrite E. reflexivity.
  - intros s. destruct (String.eqb (session_id s) (currentSessionId st));
      reflexivity.
Qed.

Lemma stored_listed (k : string) (st : State) (log : list Message) :
  stored k st = Some log ->
  exists s, find (fun s => String.eqb (session_id s) k) (sessions st) = Some s
            /\ session_messages s = log /\ In s (sessions st)
            /\ session_id s = k.
Proof.
  unfold stored. destruct (find _ (sessions st)) as [s|] eqn:F; [|discriminate].
  intros [= <-]. exists s. apply find_some in F. destruct F as [I E].
  apply String.eqb_eq in E. auto.
Qed.

(** Selecting a listed session other than the current one. *)
Lemma switch_to_listed (st : State) (b : string) (log : list Message) :
  stored b st = Some log ->
  b <> currentSessionId st ->
  let st1 := step (Switch b) st in
  currentSessionId st1 = b
  /\ messages st1 = log
  /\ timers st1 = timers st
  /\ (forall k, k <> b -> stored k st1 = stored k st).
Proof.
  intros L N st1. subst st1.
  destruct (stored_listed b st log L) as (s & F & Es & _ & _).
  simpl. unfold switchSession. rewrite F.
  destruct (saveEffect_keeps
              (setUploadedImage None
                 (setMessages (fun _ => session_messages s)
                    (setCurrentSessionId b st)))) as (Hm & Ht & _ & _ & _ & Hc).
  rewrite Hm, Ht, Hc. simpl. repeat split; auto.
  intros k Nk. rewrite stored_saveEffect_other by (simpl; exact Nk).
  reflexivity.
Qed.

(** X17. In every state the dashboard reaches from its first render,
    selecting another listed session and then the one that was current
    restores the selection and the log: nothing that was in the log is lost
    by looking at another session. *)
Theorem switching_away_and_back_restores_the_log :
  forall (now0 : Z) (evs : list Event) (b : string),
    let st := run evs (initial now0) in
    stored (currentSessionId st) st <> None ->
    stored b st <> None ->
    b <> currentSessionId st ->
    let st1 := step (Switch b) st in
    let st2 := step (Switch (currentSessionId st)) st1 in
    currentSessionId st1 = b
    /\ stored b st = Some (messages st1)
    /\ currentSessionId st2 = currentSessionId st
    /\ messages st2 = messages st.
Proof.
  intros now0 evs b st La Lb N st1 st2.
  assert (C : coherent st) by (apply run_coherent, initial_coherent).
  destruct (stored b st) as [logB|] eqn:Eb; [|contradiction].
  destruct (stored (currentSessionId st) st) as [logA|] eqn:Ea; [|contradiction].
  destruct (switch_to_listed st b logB Eb N) as (C1 & M1 & _ & K1).
  fold st1 in C1, M1, K1.
  assert (Sa : logA = messages st).
  { destruct (stored_listed _ st logA Ea) as (s & _ & Es & I & E).
    rewrite <- Es. apply C; assumption. }
  assert (B1 : stored (currentSessionId st) st1 = Some logA).
  { rewrite K1 by (apply not_eq_sym, N). exact Ea. }
  destruct (switch_to_listed st1 (currentSessionId st) logA B1) as (C2 & M2 & _).
  { rewrite C1. apply not_eq_sym, N. }
  fold st2 in C2, M2. rewrite M1, C2, M2, Sa. auto.
Qed.

(** The theorem at two sessions, the first with a finished turn. *)
Lemma switching_away_and_back_restores_the_log_witness :
  let evs := [NewSession 5 "09:00:00"; Type_ "buyers?"; Send 10; TimerFires 1210;
              NewSession 2000 "09:00:02"; Switch "5"] in
  messages (run [Switch "2000"; Switch "5"] (run evs (initial 0)))
  = messages (run evs (initial 0)).
Proof.
  intros evs.
  apply (switching_away_and_back_restores_the_log 0 evs "2000");
    vm_compute; discriminate.
Defined.

(** X18. A reply is appended to the log that is current when its timer
    fires. In every state the dashboard reaches with no reply pending and
    the current session listed: when a text is sent and another listed
    session is selected before the reply arrives, the reply ends up at the
    end of that other session's log, and the log stored for the session in
    which the text was sent ends with the text, without a reply. *)
Theorem reply_lands_in_the_current_session :
  forall (now0 : Z) (evs : list Event) (b : string) (now now' : Z)
         (logB : list Message),
    let st := run evs (initial now0) in
    timers st = [] ->
    ~ blank (input st) ->
    stored (currentSessionId st) st <> None ->
    stored b st = Some logB ->
    b <> currentSessionId st ->
    let st3 := run [Send now; Switch b; TimerFires now'] st in
    let reply := coachMsg {| userMsg := textMsg now (input st);
                             scenario := None;
                             fullReview := isFullReview st |} now' in
    currentSessionId st3 = b
    /\ messages st3 = logB ++ [reply]
    /\ stored b st3 = Some (logB ++ [reply])
    /\ stored (currentSessionId st) st3
       = Some (messages st ++ [textMsg now (input st)]).
Proof.
  intros now0 evs b now now' logB st T NB La Lb N st3 reply.
  assert (C : coherent st) by (apply run_coherent, initial_coherent).
  assert (Na : currentSessionId st <> "").
  { destruct (stored (currentSessionId st) st) as [logA|] eqn:Ea; [|contradiction].
    destruct (stored_listed _ st logA Ea) as (s & _ & _ & I & E).
    destruct C as [Ids _]. rewrite Forall_forall in Ids.
    rewrite <- E. apply Ids, I. }
  assert (A : truthy (trim (input st)) = true).
  { destruct (truthy (trim (input st))) eqn:E; [reflexivity|].
    apply trim_blank in E. contradiction. }
  set (t := {| userMsg := textMsg now (input st); scenario := None;
               fullReview := isFullReview st |}).
  set (st1 := step (Send now) st).
  assert (R : registers (Send now) st = Some t) by (simpl; rewrite A; reflexivity).
  destruct (step_registers (Send now) st t R) as (M1 & T1 & _).
  fold st1 in M1, T1. rewrite T in T1. simpl in T1, M1.
  assert (C1 : currentSessionId st1 = currentSessionId st).
  { subst st1. simpl. unfold handleSend. rewrite A. simpl.
    rewrite (proj2 (proj2 (proj2 (proj2 (proj2 (saveEffect_keeps _)))))).
    reflexivity. }
  assert (Sa1 : stored (currentSessionId st) st1
                = Some (messages st ++ [textMsg now (input st)])).
  { subst st1. simpl. unfold handleSend. rewrite A. simpl.
    match goal with
    | |- stored _ (saveEffect ?s) = _ =>
        change (currentSessionId st) with (currentSessionId s);
        rewrite (stored_saveEffect_current s)
    end; [reflexivity | exact Na | exact La]. }
  assert (Sb1 : stored b st1 = Some logB).
  { subst st1. simpl. unfold handleSend. rewrite A. simpl.
    rewrite stored_saveEffect_other by (simpl; exact N). exact Lb. }
  destruct (switch_to_listed st1 b logB Sb1) as (C2 & M2 & T2 & K2).
  { rewrite C1. exact N. }
  set (st2 := step (Switch b) st1) in *.
  assert (Nb : b <> "").
  { destruct (stored_listed _ st logB Lb) as (s & _ & _ & I & E).
    destruct C as [Ids _]. rewrite Forall_forall in Ids.
    rewrite <- E. apply Ids, I. }
  assert (Sb2 : stored b st2 <> None).
  { assert (C2' : coherent st2).
    { subst st2 st1. apply step_coherent, step_coherent, C. }
    subst st2. simpl. unfold switchSession.
    destruct (stored_listed b st1 logB Sb1) as (s & F & Es & _ & _).
    rewrite F.
    match goal with
    | |- stored b (saveEffect ?s) <> None =>
        change b with (currentSessionId s) at 1;
        rewrite (stored_saveEffect_current s)
    end; [discriminate | exact Nb |].
    simpl. unfold stored in *. simpl. rewrite F. discriminate. }
  change st3 with (step (TimerFires now') st2). simpl.
  unfold timerCallback. rewrite T2, T1.
  match goal with
  | |- context [saveEffect ?s] =>
      destruct (saveEffect_keeps s) as (Hm & _ & _ & _ & _ & Hc);
      pose proof (stored_saveEffect_current s) as Hcur;
      pose proof (stored_saveEffect_other (currentSessionId st) s) as Hoth
  end.
  rewrite Hm, Hc. simpl in *. rewrite C2, M2 in *.
  split; [reflexivity|]. split; [reflexivity|]. split.
  - apply Hcur; [exact Nb | exact Sb2].
  - rewrite Hoth by (apply not_eq_sym, N).
    unfold stored in *. simpl.
    rewrite <- Sa1. apply K2. apply not_eq_sym, N.
Qed.

(** The theorem at two sessions: a text sent in the newer one, the older
    one selected before the reply arrives. *)
Lemma reply_lands_in_the_current_session_witness :
  let evs := [NewSession 5 "09:00:00"; NewSession 2000 "09:00:02";
              Type_ "buyers?"] in
  map role (messages (run [Send 3000; Switch "5"; TimerFires 4200]
                          (run evs (initial 0))))
  = [coach; coach].
Proof.
  intros evs.
  destruct (reply_lands_in_the_current_session 0 evs "5" 3000 4200
              [sessionWelcome 5]) as (_ & M & _).
  - reflexivity.
  - intros B. apply trim_blank in B. vm_compute in B. discriminate B.
  - vm_compute. discriminate.
  - reflexivity.
  - vm_compute. discriminate.
  - exact (f_equal (map role) M).
Defined.

(** *** The order of the session list *)

(** The clock readings of the events that can create a session. *)
Definition sessionClock (e : Event) : list Z :=
  match e with
  | NewSession now _ | Delete now _ _ => [now]
  | _ => []
  end.

Definition sessionClocks (evs : list Event) : list Z :=
  flat_map sessionClock evs.

Definition descending (l : list Z) : Prop :=
  StronglySorted (fun x y => y <= x) l.

Lemma descending_filter (p : Session -> bool) (l : list Session) :
  descending (map createdAt l) -> descending (map createdAt (filter p l)).
Proof.
  unfold descending. induction l as [|a l IH]; simpl; intros D; [constructor|].
  inversion D as [|? ? S F]; subst.
  destruct (p a); simpl; [|auto].
  constructor; [auto|].
  rewrite Forall_forall in *. intros x Hx. apply F.
  apply in_map_iff in Hx. destruct Hx as [s [<- Hs]].
  apply filter_In in Hs. apply in_map, Hs.
Qed.

Lemma newestFirst_descending (l : list Session) :
  descending (map createdAt l) -> newestFirst l.
Proof.
  unfold descending, newestFirst.
  induction l as [|a l IH]; simpl; intros D; [constructor|].
  inversion D as [|? ? S F]; subst. constructor; [auto|].
  rewrite Forall_forall in *. intros x Hx. apply F, in_map, Hx.
Qed.

Lemma step_times (e : Event) (st : State) :
  (exists p, map createdAt (sessions (step e st))
             = map createdAt (filter p (sessions st)))
  \/ (exists now, sessionClock e = [now]
                  /\ map createdAt (sessions (step e st))
                     = now :: map createdAt (sessions st)).
Proof.
  assert (Same : forall st', sessions st' = sessions st ->
            exists p, map createdAt (sessions (saveEffect st'))
                      = map createdAt (filter p (sessions st))).
  { intros st' E. exists (fun _ => true).
    rewrite (proj2 (saveEffect_session_ids st')), E.
    rewrite ServerFacts.filter_all by reflexivity. reflexivity. }
  assert (Keep : exists p, map createdAt (sessions st)
                           = map createdAt (filter p (sessions st))).
  { exists (fun _ => true).
    rewrite ServerFacts.filter_all by reflexivity. reflexivity. }
  destruct e as [txt|b|now|now file|now sc|now|now ts|sid|now ts sid]; simpl.
  - left. exact Keep.
  - left. exact Keep.
  - left. unfold handleSend. destruct (negb (truthy (trim (input st))));
      [exact Keep | apply Same; reflexivity].
  - left. destruct file as [[name data]|]; [apply Same; reflexivity | exact Keep].
  - left. apply Same. reflexivity.
  - left. unfold timerCallback. destruct (timers st);
      [exact Keep | apply Same; reflexivity].
  - right. exists now. split; [reflexivity|].
    rewrite (proj2 (saveEffect_session_ids _)). reflexivity.
  - left. unfold switchSession. destruct (find _ (sessions st));
      [apply Same; reflexivity | exact Keep].
  - unfold deleteSession.
    destruct (String.eqb (currentSessionId st) sid).
    + destruct (filter (fun s => negb (String.eqb (session_id s) sid))
                       (sessions st)) as [|s0 rest] eqn:F.
      * right. exists now. split; [reflexivity|].
        rewrite (proj2 (saveEffect_session_ids _)). reflexivity.
      * left. exists (fun s => negb (String.eqb (session_id s) sid)).
        rewrite (proj2 (saveEffect_session_ids _)), F.
        unfold switchSession. destruct (find _ (sessions st)); reflexivity.
    + left. exists (fun s => negb (String.eqb (session_id s) sid)). reflexivity.
Qed.

Lemma sorted_tail (a b : list Z) :
  StronglySorted Z.le (a ++ b) -> StronglySorted Z.le b.
Proof.
  induction a as [|x a IH]; simpl; intros S; [exact S|].
  inversion S; auto.
Qed.

Lemma run_descending (evs : list Event) :
  forall st,
    descending (map createdAt (sessions st)) ->
    StronglySorted Z.le (sessionClocks evs) ->
    (forall x c, In x (map createdAt (sessions st)) ->
                 In c (sessionClocks evs) -> x <= c) ->
    descending (map createdAt (sessions (run evs st))).
Proof.
  induction evs as [|e evs IH]; intros st D S B; simpl; [exact D|].
  unfold sessionClocks in *. simpl in S, B.
  destruct (step_times e st) as [[p E] | [now [Ec E]]].
  - apply IH.
    + rewrite E. apply descending_filter, D.
    + apply (sorted_tail _ _ S).
    + intros x c Hx Hc. apply B.
      * rewrite E in Hx. apply in_map_iff in Hx. destruct Hx as [s [<- Hs]].
        apply filter_In in Hs. apply in_map, Hs.
      * apply in_or_app. right. exact Hc.
  - rewrite Ec in S, B. simpl in S, B. inversion S as [|? ? S' F]; subst.
    apply IH.
    + rewrite E. constructor; [exact D|].
      apply Forall_forall. intros x Hx. apply B; [exact Hx | left; reflexivity].
    + exact S'.
    + intros x c Hx Hc. rewrite E in Hx. destruct Hx as [<- | Hx].
      * rewrite Forall_forall in F. apply F, Hc.
      * apply B; [exact Hx | right; exact Hc].
Qed.

(** X19. As long as the clock does not run backwards from one session
    event to the next, the session list the dashboard reaches from its
    first render is ordered newest first, whatever else happens in between:
    the first session of the list is never older than the ones behind it. *)
Theorem sessions_stay_newest_first :
  forall (now0 : Z) (evs : list Event),
    StronglySorted Z.le (sessionClocks evs) ->
    newestFirst (sessions (run evs (initial now0))).
Proof.
  intros now0 evs S. apply newestFirst_descending, run_descending.
  - constructor.
  - exact S.
  - intros x c [].
Qed.

(** The theorem at three sessions, one of them deleted. *)
Lemma sessions_stay_newest_first_witness :
  newestFirst
    (sessions (run [NewSession 5 "09:00:00"; NewSession 7 "09:00:02";
                    Type_ "buyers?"; Send 8; NewSession 9 "09:00:04";
                    Delete 9 "09:00:04" "7"] (initial 0))).
Proof.
  apply sessions_stay_newest_first.
  repeat constructor; lia.
Defined.

(** *** The reply to an uploaded screenshot *)

Lemma toLowerCase_app (a b : string) :
  toLowerCase (a ++ b) = (toLowerCase a ++ toLowerCase b)%string.
Proof. induction a as [|c a IH]; simpl; [reflexivity | rewrite IH; reflexivity]. Qed.

(** A keyword cannot occur across a character it lacks. *)
Lemma includes_stops (k : string) (c : ascii) :
  ServerExtras.mentions c k = false -> k <> "" ->
  forall s rest,
    includes (s ++ String c rest) k = includes s k || includes rest k.
Proof.
  intros M N s rest. induction s as [|b s IH].
  - destruct k as [|a k]; [contradiction|].
    simpl in M. apply orb_false_iff in M. destruct M as [Ma _].
    simpl. rewrite Ma. reflexivity.
  - change (String b s ++ String c rest)%string
      with (String b (s ++ String c rest)).
    cbn [includes]. rewrite IH.
    change (String b (s ++ String c rest))
      with (String b s ++ String c rest)%string.
    rewrite (ServerExtras.startsWith_stops k c M), orb_assoc. reflexivity.
Qed.

Definition keywords : list string :=
  ["buyer"; "long"; "seller"; "short"; "wait"; "patience"].

Lemma upload_content_keywords (name k : string) :
  In k keywords ->
  includes (toLowerCase ("Analyzing screenshot: " ++ name ++ "...")) k
  = includes (toLowerCase name) k.
Proof.
  intros I.
  change ("Analyzing screenshot: " ++ name ++ "...")%string
    with ("Analyzing screenshot:" ++ String " " (name ++ String "." ".."))%string.
  rewrite toLowerCase_app. cbn [toLowerCase].
  rewrite toLowerCase_app.
  change (toLowerChar " ") with " "%char.
  change (toLowerCase "Analyzing screenshot:") with "analyzing screenshot:".
  change (toLowerCase (String "." "..")) with (String "." "..").
  simpl in I.
  destruct I as [<- | [<- | [<- | [<- | [<- | [<- | []]]]]]];
    (rewrite includes_stops by (reflexivity || discriminate);
     rewrite includes_stops by (reflexivity || discriminate);
     match goal with
     | |- ?a || (?x || ?b) = ?x =>
         change a with false; change b with false
     end;
     simpl; apply orb_false_r).
Qed.

(** X20. The reply to an uploaded screenshot is chosen by the keywords in
    the name of the file: it is the reply that the same name, typed as a
    text, would get, whatever the picture is. *)
Theorem upload_reply_follows_the_file_name :
  forall (st : State) (now now' : Z) (name imageData : string) (t : Timer),
    registers (Upload now (Some (name, imageData))) st = Some t ->
    content (coachMsg t now')
    = generateGenericResponse (textMsg now name) (isFullReview st)
    /\ mode (coachMsg t now') = Some (if isFullReview st then full else tldr).
Proof.
  intros st now now' name imageData t [= <-].
  split; [|reflexivity].
  unfold coachMsg, generateGenericResponse. cbn [scenario userMsg content fileMsg
                                                  textMsg fullReview].
  rewrite !upload_content_keywords by (simpl; auto 10). reflexivity.
Qed.

(** The theorem at a picture named after a long setup. *)
Lemma upload_reply_follows_the_file_name_witness :
  content (coachMsg {| userMsg := fileMsg 10 "long_setup.png" "data:image/png;base64,AA";
                       scenario := None; fullReview := false |} 1210)
  = buyerTemplate.
Proof.
  destruct (upload_reply_follows_the_file_name (initial 0) 10 1210
              "long_setup.png" "data:image/png;base64,AA" _ eq_refl) as [C _].
  transitivity (generateGenericResponse (textMsg 10 "long_setup.png") false);
    [exact C | reflexivity].
Defined.

(** *** The log under conversation events *)

Lemma step_extends_log (e : Event) (st : State) :
  isChatEvent e = true ->
  exists suffix,
    messages (step e st) = messages st ++ suffix
    /\ (List.length suffix <= 1)%nat.
Proof.
  intros C.
  destruct (registers e st) as [t|] eqn:R.
  - destruct (step_registers e st t R) as (Hm & _).
    exists [userMsg t]. split; [exact Hm | simpl; lia].
  - destruct e as [txt|b|now|now file|now sc|now|now ts|sid|now ts sid];
      simpl in *; try discriminate;
      try (exists []; split; [rewrite app_nil_r; reflexivity | simpl; lia]).
    + unfold handleSend. destruct (truthy (trim (input st))); [discriminate|].
      exists []. split; [rewrite app_nil_r; reflexivity | simpl; lia].
    + destruct file as [[? ?]|]; [discriminate|].
      exists []. split; [rewrite app_nil_r; reflexivity | simpl; lia].
    + unfold timerCallback. destruct (timers st) as [|t rest] eqn:E.
      * exists []. split; [rewrite app_nil_r; reflexivity | simpl; lia].
      * exists [coachMsg t now].
        rewrite (proj1 (saveEffect_keeps _)). split; [reflexivity | simpl; lia].
Qed.

(** X24. The events of the conversation never remove, reorder or rewrite a
    message: after any run of typing, toggling, sending, uploading,
    simulating and timers firing, the log is the log of before followed by
    at most one new message per event. *)
Theorem conversation_only_appends :
  forall (evs : list Event) (st : State),
    forallb isChatEvent evs = true ->
    exists suffix,
      messages (run evs st) = messages st ++ suffix
      /\ (List.length suffix <= List.length evs)%nat.
Proof.
  induction evs as [|e evs IH]; intros st C; simpl in *.
  - exists []. split; [rewrite app_nil_r; reflexivity | simpl; lia].
  - apply andb_true_iff in C. destruct C as [Ce Cs].
    destruct (step_extends_log e st Ce) as (s1 & E1 & L1).
    destruct (IH (step e st) Cs) as (s2 & E2 & L2).
    exists (s1 ++ s2). rewrite E2, E1, <- app_assoc. split; [reflexivity|].
    rewrite length_app. lia.
Qed.

(** The theorem at a turn from the first render. *)
Lemma conversation_only_appends_witness :
  exists suffix,
    messages (run [Type_ "buyers?"; Send 10; TimerFires 1210] (initial 0))
    = [welcome 0] ++ suffix.
Proof.
  destruct (conversation_only_appends
              [Type_ "buyers?"; Send 10; TimerFires 1210] (initial 0) eq_refl)
    as (suffix & E & _).
  exists suffix. exact E.
Defined.

End LocalExtras.

(** ** Further properties of the server-backed dashboard *)
Module RemoteExtras.
Import Server Remote ServerFacts RemoteFacts.

Section ClientSteps.
Context `{QueryEngine}.
Variable rev : Revision.

Lemma createSessionMutation_ok (env : Env) (t : string) (st : State) (db : DB) :
  provisioned db = true ->
  t <> "" ->
  existsb (fun s => String.eqb (session_id s) (uuid env)) (Server.sessions db)
  = false ->
  createSessionMutation rev env t st db
  = (setCurrentSessionId (uuid env) st,
     {| provisioned := provisioned db;
        Server.sessions :=
          Server.sessions db
          ++ [{| session_id := uuid env; title := t; createdAt := now env |}];
        messages := messages db |}).
Proof.
  intros P N F. unfold createSessionMutation. cbn [handle].
  unfold postSessionRoute, createSession.
  assert (T : truthy (JString t) = true).
  { simpl. unfold JsString.truthy. apply negb_true_iff, String.eqb_neq, N. }
  rewrite T, P, F. reflexivity.
Qed.

Lemma refetchSessions_ok (env : Env) (st : State) (db : DB) :
  provisioned db = true ->
  refetchSessions rev env st db
  = ({| Remote.sessions := orderBy Session createdAt Desc (Server.sessions db);
        currentSessionId := currentSessionId st |}, db).
Proof.
  intros P. unfold refetchSessions. cbn [handle].
  unfold getSessionsRoute, getAllSessions. rewrite P. reflexivity.
Qed.

Lemma initEffect_selected (st : State) :
  currentSessionId st <> "" -> initEffect st = st.
Proof.
  intros N. unfold initEffect.
  assert (T : JsString.truthy (currentSessionId st) = true).
  { unfold JsString.truthy. apply negb_true_iff, String.eqb_neq, N. }
  rewrite T. destruct (Remote.sessions st); reflexivity.
Qed.

End ClientSteps.

(** X21. Creating a session from the dashboard on a provisioned store,
    with an id that is not empty and not yet taken, stores a session titled
    "Session " followed by the time and selects it; once the list has been
    fetched again the selected session is one of the listed sessions, and
    the list holds the stored sessions newest first. When the store is not
    provisioned the selection and the store stay as they were. *)
Theorem createNewSession_selects_a_listed_session `{QueryEngine} :
  forall (rev : Revision) (env : Env) (timeStr : string) (st : State) (db : DB),
    (provisioned db = true ->
     uuid env <> "" ->
     existsb (fun s => String.eqb (session_id s) (uuid env)) (Server.sessions db)
     = false ->
     let row := {| session_id := uuid env;
                   title := ("Session " ++ timeStr)%string;
                   createdAt := now env |} in
     let after := createAndRefetch rev env timeStr st db in
     Server.sessions (snd after) = Server.sessions db ++ [row]
     /\ currentSessionId (fst after) = uuid env
     /\ In row (Remote.sessions (fst after))
     /\ Permutation (Server.sessions db ++ [row]) (Remote.sessions (fst after))
     /\ StronglySorted (fun a b => createdAt b <= createdAt a)
                       (Remote.sessions (fst after)))
    /\ (provisioned db = false ->
        createNewSession rev env timeStr st db = (st, db)).
Proof.
  intros rev env timeStr st db. split.
  - intros P N F row after. subst after.
    unfold createAndRefetch, createNewSession.
    rewrite (createSessionMutation_ok rev env _ st db P) by (discriminate || exact F).
    fold row.
    rewrite refetchSessions_ok by exact P.
    rewrite initEffect_selected by exact N.
    cbn [fst snd Server.sessions Remote.sessions currentSessionId setCurrentSessionId].
    pose proof (orderBy_Permutation Session createdAt Desc
                  (Server.sessions db ++ [row])) as Perm.
    split; [reflexivity|]. split; [reflexivity|]. split; [|split].
    + eapply Permutation_in; [exact Perm|]. apply in_or_app. right. left.
      reflexivity.
    + exact Perm.
    + exact (orderBy_Sorted Session createdAt Desc _).
  - intros P. unfold createNewSession, createSessionMutation.
    cbn [handle]. unfold postSessionRoute, createSession.
    change (truthy (JString ("Session " ++ timeStr))) with true.
    rewrite P. reflexivity.
Qed.

(** The theorem at the store with the sessions "A" and "B". *)
Lemma createNewSession_selects_a_listed_session_witness :
  let after :=
    @createAndRefetch stableEngine Base sampleEnv "09:00:00"
      {| Remote.sessions := [sessionA; sessionB]; currentSessionId := "B" |}
      twoSessions in
  currentSessionId (fst after) = "u1"
  /\ map session_id (Remote.sessions (fst after)) = ["u1"; "A"; "B"].
Proof.
  intros after.
  destruct (@createNewSession_selects_a_listed_session stableEngine Base sampleEnv
              "09:00:00"
              {| Remote.sessions := [sessionA; sessionB]; currentSessionId := "B" |}
              twoSessions) as [S _].
  destruct S as (_ & C & _); [reflexivity | discriminate | reflexivity |].
  split; [exact C | reflexivity].
Defined.

(** X22. Sending a text from the server-backed dashboard does nothing for a
    blank input or without a selected session. Otherwise the text is posted
    to the selected session first. When the store holds that session, is
    provisioned and the id is free, the store grows by the user message of
    type text with the input as content, the input is cleared and one reply
    is registered. When the store does not hold the selected session, or is
    not provisioned, the request is refused and the handler stops: the
    store, the input and the pending replies stay as they were. *)
Theorem handleSend_posts_before_it_registers `{QueryEngine} :
  forall (rev : Revision) (env : Env) (c : Chat) (db : DB),
    (blank (input c) \/ currentSessionId (selection c) = "" ->
     handleSend rev env c db = (c, db))
    /\ (~ blank (input c) -> currentSessionId (selection c) <> "" ->
        (provisioned db = true ->
         existsb (fun m => String.eqb (id m) (uuid env)) (messages db) = false ->
         existsb (fun s => String.eqb (session_id s)
                                      (currentSessionId (selection c)))
                 (Server.sessions db) = true ->
         exists m,
           messages (snd (handleSend rev env c db)) = messages db ++ [m]
           /\ sessionId m = currentSessionId (selection c)
           /\ role m = "user" /\ content m = input c /\ type m = "text"
           /\ mode m = None /\ scenarioId m = None
           /\ input (fst (handleSend rev env c db)) = ""
           /\ isTyping (fst (handleSend rev env c db)) = true
           /\ pending (fst (handleSend rev env c db))
              = pending c ++ [{| replyTo := input c; replyScenario := None;
                                 replyFullReview := isFullReview c;
                                 replySessionId :=
                                   currentSessionId (selection c) |}])
        /\ (provisioned db = false
            \/ (forall s, In s (Server.sessions db) ->
                          session_id s <> currentSessionId (selection c)) ->
            handleSend rev env c db = (c, db))).
Proof.
  intros rev env c db. split.
  - intros [B | E]; unfold handleSend.
    + apply trim_blank in B. rewrite B. reflexivity.
    + rewrite E. simpl. rewrite orb_true_r. reflexivity.
  - intros NB NS.
    assert (T : JsString.truthy (JsString.trim (input c)) = true).
    { destruct (JsString.truthy (JsString.trim (input c))) eqn:E; [reflexivity|].
      apply trim_blank in E. contradiction. }
    assert (Ts : JsString.truthy (currentSessionId (selection c)) = true).
    { unfold JsString.truthy. apply negb_true_iff, String.eqb_neq, NS. }
    assert (Ti : JsString.truthy (input c) = true).
    { unfold JsString.truthy. apply negb_true_iff, String.eqb_neq.
      intros E. apply NB. rewrite E. intros pre ch post X.
      destruct pre; discriminate X. }
    unfold handleSend. rewrite T, Ts. cbn [negb orb handle].
    unfold postMessageRoute, createMessage.
    cbn [truthy negb orb isNullish ins_role ins_content ins_type ins_sessionId].
    rewrite Ti. cbn [negb orb].
    split.
    + intros P U FK. rewrite P, U, FK. cbn.
      eexists. split; [reflexivity|]. cbn.
      rewrite !textParam_string. repeat split.
    + intros [P | N].
      * rewrite P. reflexivity.
      * assert (FK : existsb (fun s => String.eqb (session_id s)
                                         (currentSessionId (selection c)))
                       (Server.sessions db) = false).
        { destruct (existsb _ (Server.sessions db)) eqn:E; [|reflexivity].
          apply existsb_exists in E. destruct E as [s [Hs E]].
          apply String.eqb_eq in E. exfalso. exact (N s Hs E). }
        rewrite FK. destruct (provisioned db); cbn; [|reflexivity].
        destruct (existsb _ (messages db)); reflexivity.
Qed.

(** The theorem after the deletion that left the deleted session "A"
    selected: the text is refused. *)
Lemma handleSend_posts_before_it_registers_witness :
  let after :=
    @deleteAndRefetch stableEngine Base sampleEnv "A"
      {| Remote.sessions := [sessionA; sessionB]; currentSessionId := "B" |}
      twoSessions in
  let c := {| selection := fst after; input := "buyers?"; isFullReview := false;
              isTyping := false; pending := [] |} in
  @handleSend stableEngine Base sampleEnv c (snd after) = (c, snd after).
Proof.
  intros after c.
  destruct (@handleSend_posts_before_it_registers stableEngine Base sampleEnv c
              (snd after)) as [_ S].
  destruct S as [_ R].
  - intros B. apply trim_blank in B. vm_compute in B. discriminate B.
  - vm_compute. discriminate.
  - apply R. right. intros s Hs E. vm_compute in Hs, E.
    destruct Hs as [<- | []]. discriminate E.
Defined.

(** X23. Simulating a scenario from the server-backed dashboard does
    nothing without a selected session. With one, the request always
    passes the check of the required fields; on a provisioned store that
    holds the session, with the id free, the store grows by a user message
    of type image tagged with the scenario's id and showing the
    placeholder picture, and one reply is registered for that scenario,
    the input left as it is. When the store does not hold the selected
    session nothing changes. *)
Theorem handleSimulateScenario_posts_the_scenario `{QueryEngine} :
  forall (rev : Revision) (env : Env) (sc : Scenarios.Scenario) (c : Chat) (db : DB),
    (currentSessionId (selection c) = "" ->
     handleSimulateScenario rev env sc c db = (c, db))
    /\ (currentSessionId (selection c) <> "" ->
        Scenarios.id sc <> "" ->
        (provisioned db = true ->
         existsb (fun m => String.eqb (id m) (uuid env)) (messages db) = false ->
         existsb (fun s => String.eqb (session_id s)
                                      (currentSessionId (selection c)))
                 (Server.sessions db) = true ->
         exists m,
           messages (snd (handleSimulateScenario rev env sc c db))
           = messages db ++ [m]
           /\ sessionId m = currentSessionId (selection c)
           /\ role m = "user" /\ type m = "image"
           /\ content m
              = ("Analyzing setup: " ++ Scenarios.title sc ++ "...")%string
           /\ imageUrl m = Some Local.l2Placeholder
           /\ scenarioId m = Some (Scenarios.id sc)
           /\ mode m = None
           /\ input (fst (handleSimulateScenario rev env sc c db)) = input c
           /\ pending (fst (handleSimulateScenario rev env sc c db))
              = pending c
                ++ [{| replyTo :=
                         ("Analyzing setup: " ++ Scenarios.title sc ++ "...")%string;
                       replyScenario := Some sc;
                       replyFullReview := isFullReview c;
                       replySessionId := currentSessionId (selection c) |}])
        /\ ((forall s, In s (Server.sessions db) ->
                       session_id s <> currentSessionId (selection c)) ->
            handleSimulateScenario rev env sc c db = (c, db))).
Proof.
  intros rev env sc c db. split.
  - intros E. unfold handleSimulateScenario. rewrite E. reflexivity.
  - intros NS Nid.
    assert (Ts : JsString.truthy (currentSessionId (selection c)) = true).
    { unfold JsString.truthy. apply negb_true_iff, String.eqb_neq, NS. }
    assert (Ti : JsString.truthy (Scenarios.id sc) = true).
    { unfold JsString.truthy. apply negb_true_iff, String.eqb_neq, Nid. }
    unfold handleSimulateScenario. rewrite Ts. cbn [negb handle].
    unfold postMessageRoute, createMessage.
    change (truthy (JString ("Analyzing setup: " ++ Scenarios.title sc ++ "...")))
      with true.
    cbn [truthy JsString.truthy String.eqb negb orb isNullish
         ins_role ins_content ins_type ins_sessionId].
    split.
    + intros P U FK. rewrite P, U, FK. cbn [negb].
      unfold orNull.
      change (truthy (JString Local.l2Placeholder)) with true.
      cbn [truthy]. rewrite Ti.
      cbn -[String.append Local.l2Placeholder].
      eexists. split; [reflexivity|].
      cbn -[String.append Local.l2Placeholder].
      unfold nullable. cbn -[String.append Local.l2Placeholder].
      rewrite !textParam_string. repeat split.
    + intros N.
      assert (FK : existsb (fun s => String.eqb (session_id s)
                                       (currentSessionId (selection c)))
                     (Server.sessions db) = false).
      { destruct (existsb _ (Server.sessions db)) eqn:E; [|reflexivity].
        apply existsb_exists in E. destruct E as [s [Hs E]].
        apply String.eqb_eq in E. exfalso. exact (N s Hs E). }
      rewrite FK. destruct (provisioned db); cbn; [|reflexivity].
      destruct (existsb _ (messages db)); reflexivity.
Qed.

(** The theorem at the store with the sessions "A" and "B", "B" selected. *)
Lemma handleSimulateScenario_posts_the_scenario_witness :
  let c := {| selection := {| Remote.sessions := [sessionA; sessionB];
                              currentSessionId := "B" |};
              input := ""; isFullReview := true; isTyping := false;
              pending := [] |} in
  map scenarioId
      (messages (snd (@handleSimulateScenario stableEngine Base sampleEnv
                        Scenarios.bull_flag c twoSessions)))
  = [Some "bull_flag"].
Proof.
  intros c.
  destruct (@handleSimulateScenario_posts_the_scenario stableEngine Base sampleEnv
              Scenarios.bull_flag c twoSessions) as [_ S].
  destruct S as [S _]; [discriminate | discriminate |].
  destruct (S eq_refl eq_refl eq_refl) as (m & E & _ & _ & _ & _ & _ & I & _).
  rewrite E. simpl. rewrite I. reflexivity.
Defined.

End RemoteExtras.

(** ** A turn and the log of its session *)
Module SessionLog.
Import JsString Local LocalFacts LocalExtras.









(** Two sessions, "5" and the current one "2000": a text is sent, "5" is
    selected, the reply arrives. *)
Definition strayReply : list Event * list Event :=
  ([NewSession 5 "09:00:00"; NewSession 2000 "09:00:02"; Type_ "buyers?"],
   [Send 3000; Switch "5"; TimerFires 4200]).

Lemma strayReply_logs :
  let st := run (fst strayReply) (initial 0) in
  let st3 := run (snd strayReply) st in
  currentSessionId st = "2000"
  /\ option_map (map role) (stored "2000" st) = Some [coach]
  /\ option_map (map role) (stored "2000" st3) = Some [coach; user]
  /\ option_map (map role) (stored "5" st3) = Some [coach; coach]
  /\ map role (messages st3) = [coach; coach].
Proof. vm_compute. auto 6. Qed.




End SessionLog.
